(** * PPTX to HeyGen video: the orchestration layer of [main.py]

    A shallow embedding of the methods of [CloudinaryStorage] and
    [PPTXToHeyGenVideo] (main.py) and the properties of its retry wrapper,
    per-slide failure isolation, narration generation, scene building,
    polling loop and top-level [convert].

    The external collaborators (requests, Aspose, OpenAI, python-pptx,
    mimetypes, cloudinary_url) are oracles gathered in [Services]; the
    methods run in a state-and-exception monad over [State], which holds
    the attributes of the converter object, the files on disk, one call
    counter per collaborator and the trace of observable effects. *)

From Stdlib Require Import String Ascii List ZArith NArith Lia Bool.
From Stdlib Require Strings.Byte.
From Stdlib Require DecimalPos.
From Stdlib Require Import Sorted.
Import ListNotations.
Local Open Scope Z_scope.

Set Implicit Arguments.
Set Warnings "-register-all".

(** ** Python values *)

Module Py.

(** A Python [str] is a sequence of Unicode code points. *)
Definition str := list N.

(** A Python [bytes] object. *)
Definition bytes := list Byte.byte.

(** The code points of a UTF-8 encoded literal of the source file. *)
Fixpoint utf8_decode (bs : list N) : str :=
  match bs with
  | [] => []
  | b0 :: r0 =>
    if (b0 <? 128)%N then b0 :: utf8_decode r0
    else if (b0 <? 224)%N then
      match r0 with
      | b1 :: r1 =>
        N.lor (N.shiftl (N.land b0 31) 6) (N.land b1 63) :: utf8_decode r1
      | _ => []
      end
    else if (b0 <? 240)%N then
      match r0 with
      | b1 :: b2 :: r2 =>
        N.lor (N.shiftl (N.land b0 15) 12)
          (N.lor (N.shiftl (N.land b1 63) 6) (N.land b2 63)) :: utf8_decode r2
      | _ => []
      end
    else
      match r0 with
      | b1 :: b2 :: b3 :: r3 =>
        N.lor (N.shiftl (N.land b0 7) 18)
          (N.lor (N.shiftl (N.land b1 63) 12)
             (N.lor (N.shiftl (N.land b2 63) 6) (N.land b3 63))) :: utf8_decode r3
      | _ => []
      end
  end.

(** [lit "..."] is the Python string written as that literal. *)
Definition lit (s : string) : str :=
  utf8_decode (map N_of_ascii (list_ascii_of_string s)).

Definition str_eqb (a b : str) : bool :=
  if list_eq_dec N.eq_dec a b then true else false.

(** [str.isspace] on one code point: the characters [str.strip()] removes. *)
Definition isspace (c : N) : bool :=
  ((9 <=? c) && (c <=? 13) || (28 <=? c) && (c <=? 32)
   || (c =? 133) || (c =? 160) || (c =? 5760)
   || (8192 <=? c) && (c <=? 8202)
   || (c =? 8232) || (c =? 8233) || (c =? 8239) || (c =? 8287)
   || (c =? 12288))%N.

Fixpoint lstrip (s : str) : str :=
  match s with
  | [] => []
  | c :: r => if isspace c then lstrip r else s
  end.

Definition rstrip (s : str) : str := rev (lstrip (rev s)).

(** [s.strip()] *)
Definition strip (s : str) : str := rstrip (lstrip s).

(** [s[:n]] for a literal [n >= 0]. *)
Definition prefix (n : nat) (s : str) : str := firstn n s.

(** [sep.join(parts)] *)
Fixpoint join (sep : str) (parts : list str) : str :=
  match parts with
  | [] => []
  | [p] => p
  | p :: rest => p ++ sep ++ join sep rest
  end.

Fixpoint digits (u : Decimal.uint) : str :=
  match u with
  | Decimal.Nil => []
  | Decimal.D0 r => 48%N :: digits r
  | Decimal.D1 r => 49%N :: digits r
  | Decimal.D2 r => 50%N :: digits r
  | Decimal.D3 r => 51%N :: digits r
  | Decimal.D4 r => 52%N :: digits r
  | Decimal.D5 r => 53%N :: digits r
  | Decimal.D6 r => 54%N :: digits r
  | Decimal.D7 r => 55%N :: digits r
  | Decimal.D8 r => 56%N :: digits r
  | Decimal.D9 r => 57%N :: digits r
  end.

(** [str(z)] for an [int], as an f-string prints it. *)
Definition str_of_int (z : Z) : str :=
  match Z.to_int z with
  | Decimal.Pos u => digits u
  | Decimal.Neg u => 45%N :: digits u
  end.

(** [range(lo, hi)] *)
Definition range (lo hi : Z) : list Z :=
  map (fun k => lo + Z.of_nat k) (seq 0 (Z.to_nat (hi - lo))).

(** [l[:k]] for an [int] [k] of either sign. *)
Definition slice_to {A} (k : Z) (l : list A) : list A :=
  if 0 <=? k then firstn (Z.to_nat k) l
  else firstn (Z.to_nat (Z.of_nat (length l) + k)) l.

(** Decoded JSON, and the dict literals of the source. A dict is kept as
    the association list of its items in insertion order. *)
Inductive json :=
| JNull
| JBool (b : bool)
| JInt (z : Z)
| JFloat (m e : Z)          (* the decimal literal m * 10^e *)
| JStr (s : str)
| JList (l : list json)
| JDict (d : list (str * json)).

(** Truth value of an object in [if x] / [not x] / [x or y]. *)
Definition truthy (j : json) : bool :=
  match j with
  | JNull => false
  | JBool b => b
  | JInt z => negb (z =? 0)
  | JFloat m _ => negb (m =? 0)
  | JStr s => match s with [] => false | _ => true end
  | JList l => match l with [] => false | _ => true end
  | JDict d => match d with [] => false | _ => true end
  end.

Fixpoint lookup (k : str) (d : list (str * json)) : option json :=
  match d with
  | [] => None
  | (k', v) :: r => if str_eqb k' k then Some v else lookup k r
  end.

(** [d[k] = v] on a dict: the key keeps its place when present. *)
Fixpoint store (k : str) (v : json) (d : list (str * json)) : list (str * json) :=
  match d with
  | [] => [(k, v)]
  | (k', v') :: r => if str_eqb k' k then (k', v) :: r else (k', v') :: store k v r
  end.

(** [x == s] for a string constant [s]. *)
Definition is_str (x : json) (s : str) : bool :=
  match x with
  | JStr t => str_eqb t s
  | _ => false
  end.

End Py.


(** ** Exceptions

    One constructor per [raise] statement of main.py (the comment gives the
    line), and the exceptions of the interpreter and of the collaborators
    that reach its handlers. All of them derive from [Exception]; only the
    family of [requests.RequestException] has to be told apart, for the
    handler of [_request_with_retry]. *)

Inductive exn :=
| RuntimeError_retries_exhausted                    (* l.142 *)
| RuntimeError_no_asset_id (file_name : Py.str)     (* l.159 *)
| ValueError_empty_slide (slide_idx : Z)            (* l.180 *)
| RuntimeError_no_video_id                          (* l.250 *)
| RuntimeError_video_failed (reason : Py.json)      (* l.270 *)
| FileNotFoundError_pptx (public_id : Py.str)       (* l.281 *)
| ValueError_no_slides                              (* l.287 *)
| RuntimeError_no_slides_converted                  (* l.299 *)
| KeyError (key : Py.str)                           (* d[k], k absent *)
| TypeError                                         (* x[k], x no dict *)
| AttributeError                                    (* x.get / None.strip *)
| IndexError                                        (* choices[0] *)
| FileNotFoundError_open (path : Py.str)            (* open(path, "rb") *)
| HTTPError (status_code : Z)                       (* raise_for_status *)
| JSONDecodeError                                   (* response.json() *)
| RequestException (detail : Py.str)                (* any other of requests *)
| LibraryError (detail : Py.str).                   (* any other Exception *)

(** [isinstance(e, requests.RequestException)] *)
Definition is_RequestException (e : exn) : bool :=
  match e with
  | HTTPError _ | JSONDecodeError | RequestException _ => true
  | _ => false
  end.

(** [isinstance(e, Exception)] *)
Definition is_Exception (e : exn) : bool := true.

(** ** The collaborators *)

Inductive Url :=
| url_asset                                (* https://upload.heygen.com/v1/asset *)
| url_generate                             (* https://api.heygen.com/v2/video/generate *)
| url_status (video_id : Py.json)          (* .../v1/video_status.get?video_id={video_id} *)
| url_raw (u : Py.str).                    (* what cloudinary_url returned *)

Inductive Body :=
| no_body
| data_body (b : Py.bytes)                 (* data=io.BytesIO(b), the stream handed over *)
| json_payload (j : Py.json).              (* json=j *)

Record Request := mkRequest {
  method : Py.str;
  url : Url;
  headers : list (Py.str * Py.str);
  body : Body;
  timeout : Z
}.

Record Response := mkResponse {
  status_code : Z;
  content : Py.bytes;
  json_body : option Py.json               (* None: the body is no JSON *)
}.

Record ChatRequest := mkChat {
  model : Py.str;
  messages : list (Py.str * Py.str);       (* role, content *)
  temperature : Py.json;
  max_tokens : Z
}.

(** A shape of a slide: its [text] attribute when it has one. *)
Definition Shape := option Py.str.
Definition Slide := list Shape.

(** The [k]-th call of a service of the run gets the answer the oracle
    gives for [k] and the arguments of the call. *)
Record Services := mkServices {
  (* requests.request / requests.get *)
  requests_request : nat -> Request -> exn + Response;
  (* SlidesApi.download_slide_online(document, slide_index, "PNG"): the
     path it returns and the content of the file it left there, if any *)
  download_slide_online : nat -> Py.bytes -> Z -> exn + (Py.str * option Py.bytes);
  (* openai_client.chat.completions.create: message.content of each choice *)
  chat_completions_create : nat -> ChatRequest -> exn + list (option Py.str);
  (* list(Presentation(io.BytesIO(b)).slides) *)
  Presentation : Py.bytes -> exn + list Slide;
  (* mimetypes.guess_type(name)[0] *)
  guess_type : Py.str -> option Py.str;
  (* cloudinary_url(public_id, resource_type="raw")[0] *)
  cloudinary_url : Py.str -> Py.str
}.

(** ** The state *)

(** The attributes of a [PPTXToHeyGenVideo] object that its methods read. *)
Record Converter := mkConverter {
  heygen_key : Py.str;
  avatar_id : Py.str;
  voice_id : Py.str;
  video_size : Py.json;
  retry_times : Z;
  poll_interval : Z;
  slide_asset_ids : list Py.json
}.

(** The log records of main.py, one constructor per logging call. *)
Inductive LogRecord :=
| log_fetch_failed (public_id : Py.str) (e : exn)                  (* l.63 error *)
| log_request_failed (m : Py.str) (u : Url) (nth : Z) (e : exn)    (* l.138 warning *)
| log_uploaded (file_name : Py.str) (asset_id : Py.json)           (* l.161 info *)
| log_converting (slide_count : Z)                                 (* l.166 info *)
| log_slide_failed (slide_idx : Z) (e : exn)                       (* l.185 error *)
| log_generating (count : Z)                                       (* l.193 info *)
| log_note_failed (idx : Z) (e : exn)                              (* l.212 error *)
| log_video_created (video_id : Py.json)                           (* l.251 info *)
| log_waiting (video_id : Py.json) (interval : Z)                  (* l.256 info *)
| log_status (status : Py.json)                                    (* l.272 info *)
| log_processing (public_id : Py.str).                             (* l.278 info *)

Inductive Event :=
| EvRequest (r : Request)                  (* a call of requests *)
| EvSleep (seconds : Z)                    (* time.sleep *)
| EvLog (r : LogRecord)                    (* logging.* *)
| EvRender (slide_idx : Z)                 (* a call of Aspose *)
| EvChat (r : ChatRequest).                (* a call of OpenAI *)

Record State := mkState {
  self : Converter;
  files : list (Py.str * Py.bytes);        (* the files on disk *)
  temp_file_path : option Py.str;          (* the local of _pptx_to_heygen_images *)
  http_calls : nat;
  aspose_calls : nat;
  openai_calls : nat;
  trace : list Event                       (* oldest first *)
}.

(** ** The monad *)

Inductive result (A : Type) :=
| Ok (a : A)                               (* returned a *)
| Raise (e : exn)                          (* raised e *)
| Unfinished.                              (* the loop budget ran out *)
Arguments Raise {A} e.
Arguments Unfinished {A}.

Definition M (A : Type) := State -> result A * State.

Definition ret {A} (a : A) : M A := fun st => (Ok a, st).
Definition raise {A} (e : exn) : M A := fun st => (Raise e, st).
Definition unfinished {A} : M A := fun st => (Unfinished, st).

Definition bind {A B} (c : M A) (k : A -> M B) : M B :=
  fun st =>
    match c st with
    | (Ok a, st1) => k a st1
    | (Raise e, st1) => (Raise e, st1)
    | (Unfinished, st1) => (Unfinished, st1)
    end.

Declare Scope py_scope.
Delimit Scope py_scope with py.
Notation "x <- c ;; k" := (bind c (fun x => k))
  (at level 61, c at next level, right associativity) : py_scope.
Notation "c ;; k" := (bind c (fun _ => k))
  (at level 61, right associativity) : py_scope.
Local Open Scope py_scope.

(** [try: body  except C as e: handler e] *)
Definition try_except {A} (body : M A) (C : exn -> bool) (handler : exn -> M A) : M A :=
  fun st =>
    match body st with
    | (Raise e, st1) => if C e then handler e st1 else (Raise e, st1)
    | r => r
    end.

(** [try: body  finally: cleanup] *)
Definition try_finally {A} (body : M A) (cleanup : M unit) : M A :=
  fun st =>
    match body st with
    | (Unfinished, st1) => (Unfinished, st1)
    | (r, st1) =>
      match cleanup st1 with
      | (Ok _, st2) => (r, st2)
      | (Raise e, st2) => (Raise e, st2)
      | (Unfinished, st2) => (Unfinished, st2)
      end
    end.

(** [for x in xs: body x] *)
Fixpoint for_each {A} (xs : list A) (body : A -> M unit) : M unit :=
  match xs with
  | [] => ret tt
  | x :: rest => body x ;; for_each rest body
  end.

Definition of_sum {A} (r : exn + A) : M A :=
  match r with
  | inl e => raise e
  | inr a => ret a
  end.

Definition get_self : M Converter := fun st => (Ok (self st), st).

Definition emit (ev : Event) : M unit :=
  fun st => (Ok tt, mkState (self st) (files st) (temp_file_path st)
                      (http_calls st) (aspose_calls st) (openai_calls st)
                      (trace st ++ [ev])).

Definition logging (r : LogRecord) : M unit := emit (EvLog r).

(** [time.sleep(seconds)] *)
Definition sleep (seconds : Z) : M unit := emit (EvSleep seconds).

Definition set_self (c : Converter) : M unit :=
  fun st => (Ok tt, mkState c (files st) (temp_file_path st)
                      (http_calls st) (aspose_calls st) (openai_calls st) (trace st)).

Definition set_temp_file_path (p : option Py.str) : M unit :=
  fun st => (Ok tt, mkState (self st) (files st) p
                      (http_calls st) (aspose_calls st) (openai_calls st) (trace st)).

Definition get_temp_file_path : M (option Py.str) :=
  fun st => (Ok (temp_file_path st), st).

(** [self.slide_asset_ids.append(asset_id)] *)
Definition append_asset (asset_id : Py.json) : M unit :=
  c <- get_self ;;
  set_self (mkConverter (heygen_key c) (avatar_id c) (voice_id c) (video_size c)
              (retry_times c) (poll_interval c) (slide_asset_ids c ++ [asset_id])).

(** *** The file system *)

Fixpoint file_lookup (path : Py.str) (fs : list (Py.str * Py.bytes)) : option Py.bytes :=
  match fs with
  | [] => None
  | (p, c) :: r => if Py.str_eqb p path then Some c else file_lookup path r
  end.

Definition file_remove (path : Py.str) (fs : list (Py.str * Py.bytes)) :=
  filter (fun pc => negb (Py.str_eqb (fst pc) path)) fs.

Definition file_write (path : Py.str) (c : Py.bytes) (fs : list (Py.str * Py.bytes)) :=
  (path, c) :: file_remove path fs.

Definition set_files (fs : list (Py.str * Py.bytes)) : M unit :=
  fun st => (Ok tt, mkState (self st) fs (temp_file_path st)
                      (http_calls st) (aspose_calls st) (openai_calls st) (trace st)).

(** [with open(path, "rb") as f: f.read()]; no file has the empty path *)
Definition open_read (path : Py.str) : M Py.bytes :=
  fun st =>
    match path, file_lookup path (files st) with
    | _ :: _, Some c => (Ok c, st)
    | _, _ => (Raise (FileNotFoundError_open path), st)
    end.

(** [os.path.exists(path)] *)
Definition os_path_exists (path : Py.str) : M bool :=
  fun st => (Ok (match file_lookup path (files st) with Some _ => true | None => false end), st).

(** [os.remove(path)], of a file that exists *)
Definition os_remove (path : Py.str) : M unit :=
  fun st => set_files (file_remove path (files st)) st.

(** *** JSON access *)

(** [response.raise_for_status()]: HTTPError on a 4xx or 5xx status *)
Definition raise_for_status (r : Response) : M unit :=
  if (400 <=? status_code r) && (status_code r <? 600)
  then raise (HTTPError (status_code r)) else ret tt.

(** [response.json()] *)
Definition response_json (r : Response) : M Py.json :=
  match json_body r with
  | Some j => ret j
  | None => raise JSONDecodeError
  end.

(** [x[k]] for a string key [k] *)
Definition subscript (x : Py.json) (k : Py.str) : M Py.json :=
  match x with
  | Py.JDict d =>
    match Py.lookup k d with
    | Some v => ret v
    | None => raise (KeyError k)
    end
  | _ => raise TypeError
  end.

(** [x.get(k, default)] *)
Definition dict_get (x : Py.json) (k : Py.str) (default : Py.json) : M Py.json :=
  match x with
  | Py.JDict d =>
    ret (match Py.lookup k d with Some v => v | None => default end)
  | _ => raise AttributeError
  end.

(** [enumerate(l, start)] *)
Fixpoint enumerate {A} (start : Z) (l : list A) : list (Z * A) :=
  match l with
  | [] => []
  | x :: r => (start, x) :: enumerate (start + 1) r
  end.

(** [for x in xs: acc = body x acc], for a loop that grows a local list *)
Fixpoint for_acc {A B} (xs : list A) (acc : B) (body : A -> B -> M B) : M B :=
  match xs with
  | [] => ret acc
  | x :: rest => acc1 <- body x acc ;; for_acc rest acc1 body
  end.

(** [len(l)] *)
Definition len {A} (l : list A) : Z := Z.of_nat (List.length l).

(** ** The methods of main.py *)

Section Methods.

Variable sv : Services.

(** One call of [requests]: the oracle answers the [http_calls]-th call. *)
Definition requests_call (r : Request) : M Response :=
  fun st =>
    (match requests_request sv (http_calls st) r with
     | inl e => Raise e
     | inr resp => Ok resp
     end,
     mkState (self st) (files st) (temp_file_path st)
       (S (http_calls st)) (aspose_calls st) (openai_calls st)
       (trace st ++ [EvRequest r])).

(** One call of Aspose: the file it leaves, if any, is on disk afterwards. *)
Definition aspose_call (document : Py.bytes) (slide_index : Z) : M Py.str :=
  fun st =>
    let st1 fs := mkState (self st) fs (temp_file_path st)
                    (http_calls st) (S (aspose_calls st)) (openai_calls st)
                    (trace st ++ [EvRender slide_index]) in
    match download_slide_online sv (aspose_calls st) document slide_index with
    | inl e => (Raise e, st1 (files st))
    | inr (path, Some c) => (Ok path, st1 (file_write path c (files st)))
    | inr (path, None) => (Ok path, st1 (files st))
    end.

(** One call of OpenAI. *)
Definition openai_call (r : ChatRequest) : M (list (option Py.str)) :=
  fun st =>
    (match chat_completions_create sv (openai_calls st) r with
     | inl e => Raise e
     | inr choices => Ok choices
     end,
     mkState (self st) (files st) (temp_file_path st)
       (http_calls st) (aspose_calls st) (S (openai_calls st))
       (trace st ++ [EvChat r])).

(** *** CloudinaryStorage.get_file_bytes (l.55-64) *)

Definition get_file_bytes (public_id : Py.str) : M (option Py.bytes) :=
  try_except
    (let file_url := cloudinary_url sv public_id in
     response <- requests_call
       (mkRequest (Py.lit "get") (url_raw file_url) [] no_body 60) ;;
     raise_for_status response ;;
     ret (Some (content response)))
    is_Exception
    (fun e =>
       logging (log_fetch_failed public_id e) ;;
       ret None).

(** *** _request_with_retry (l.130-142)

    [attempts] is what is left of [range(self.retry_times)]; an iteration
    gives [Some response] when it returns and [None] when it goes on. *)

Fixpoint retry_loop (attempts : list Z) (m : Py.str) (u : Url)
    (hs : list (Py.str * Py.str)) (b : Body) : M Response :=
  match attempts with
  | [] => raise RuntimeError_retries_exhausted
  | attempt :: rest =>
    r <- try_except
           (response <- requests_call (mkRequest m u hs b 90) ;;
            raise_for_status response ;;
            ret (Some response))
           is_RequestException
           (fun e =>
              logging (log_request_failed m u (attempt + 1) e) ;;
              c <- get_self ;;
              if attempt =? retry_times c - 1
              then raise e
              else sleep (2 ^ attempt) ;; ret None) ;;
    match r with
    | Some response => ret response
    | None => retry_loop rest m u hs b
    end
  end.

Definition request_with_retry (m : Py.str) (u : Url)
    (hs : list (Py.str * Py.str)) (b : Body) : M Response :=
  c <- get_self ;;
  retry_loop (Py.range 0 (retry_times c)) m u hs b.

(** *** _upload_to_heygen (l.144-162) *)

Definition upload_to_heygen (file_bytes : Py.bytes) (file_name : Py.str) : M Py.json :=
  c <- get_self ;;
  let mime_type :=
    match guess_type sv file_name with
    | Some (x :: t) => x :: t
    | _ => Py.lit "image/png"
    end in
  let upload_headers :=
    [(Py.lit "X-Api-Key", heygen_key c); (Py.lit "Content-Type", mime_type)] in
  response <- request_with_retry (Py.lit "POST") url_asset upload_headers
                (data_body file_bytes) ;;
  j <- response_json response ;;
  data <- subscript j (Py.lit "data") ;;
  asset_id <- dict_get data (Py.lit "id") Py.JNull ;;
  if negb (Py.truthy asset_id)
  then raise (RuntimeError_no_asset_id file_name)
  else logging (log_uploaded file_name asset_id) ;;
       ret asset_id.

(** *** _pptx_to_heygen_images (l.164-189) *)

(** [f"slide_{slide_idx}.png"] *)
Definition slide_file_name (slide_idx : Z) : Py.str :=
  Py.lit "slide_" ++ Py.str_of_int slide_idx ++ Py.lit ".png".

(** The [try] block of one iteration. *)
Definition slide_try (pptx_bytes : Py.bytes) (slide_idx : Z) : M unit :=
  path <- aspose_call pptx_bytes slide_idx ;;
  set_temp_file_path (Some path) ;;
  slide_bytes <- open_read path ;;
  match slide_bytes with
  | [] => raise (ValueError_empty_slide slide_idx)
  | _ =>
    asset_id <- upload_to_heygen slide_bytes (slide_file_name slide_idx) ;;
    append_asset asset_id
  end.

(** The [finally] block of one iteration. *)
Definition slide_finally : M unit :=
  p <- get_temp_file_path ;;
  match p with
  | Some (x :: t) =>
    there <- os_path_exists (x :: t) ;;
    if there then os_remove (x :: t) else ret tt
  | _ => ret tt
  end.

(** The body of the loop. *)
Definition slide_iteration (pptx_bytes : Py.bytes) (slide_idx : Z) : M unit :=
  set_temp_file_path None ;;
  try_finally
    (try_except (slide_try pptx_bytes slide_idx)
       is_Exception
       (fun e => logging (log_slide_failed slide_idx e)))
    slide_finally.

Definition pptx_to_heygen_images (pptx_bytes : Py.bytes) (slide_count : Z) : M unit :=
  logging (log_converting slide_count) ;;
  for_each (Py.range 1 (slide_count + 1)) (slide_iteration pptx_bytes).

(** *** _generate_speaker_notes (l.191-214) *)

(** [f"这是第{idx}张幻灯片，主要展示图片内容。"] *)
Definition placeholder_note (idx : Z) : Py.str :=
  Py.lit "这是第" ++ Py.str_of_int idx ++ Py.lit "张幻灯片，主要展示图片内容。".

(** [f"第{idx}张幻灯片内容：{text[:50]}..."] *)
Definition fallback_note (idx : Z) (text : Py.str) : Py.str :=
  Py.lit "第" ++ Py.str_of_int idx ++ Py.lit "张幻灯片内容："
    ++ Py.prefix 50 text ++ Py.lit "...".

Definition chat_request (text : Py.str) : ChatRequest :=
  mkChat (Py.lit "gpt-4o")
    [(Py.lit "system",
      Py.lit "你是虚拟教师，用简洁易懂的语言讲解幻灯片内容，语气专业亲切。");
     (Py.lit "user",
      Py.lit "根据以下幻灯片文本生成讲稿：" ++ [10%N] ++ text)]
    (Py.JFloat 7 (-1)) 300.

(** The [try] block: [response.choices[0].message.content.strip()] *)
Definition note_try (text : Py.str) : M Py.str :=
  choices <- openai_call (chat_request text) ;;
  match choices with
  | [] => raise IndexError
  | None :: _ => raise AttributeError
  | Some c :: _ => ret (Py.strip c)
  end.

(** The body of the loop; [notes] is the local list. *)
Definition note_iteration (it : Z * Py.str) (notes : list Py.str) : M (list Py.str) :=
  let (idx, text) := it in
  match Py.strip text with
  | [] => ret (notes ++ [placeholder_note idx])
  | _ =>
    try_except
      (n <- note_try text ;; ret (notes ++ [n]))
      is_Exception
      (fun e =>
         logging (log_note_failed idx e) ;;
         ret (notes ++ [fallback_note idx text]))
  end.

Definition generate_speaker_notes (slide_texts : list Py.str) : M (list Py.str) :=
  logging (log_generating (len slide_texts)) ;;
  for_acc (enumerate 1 slide_texts) [] note_iteration.

(** *** _create_heygen_video (l.216-252) *)

(** The scene built for [note] at position [idx] of [speaker_notes]. *)
Definition video_scene (c : Converter) (idx : Z) (note : Py.str) : Py.json :=
  let scene :=
    [(Py.lit "character",
      Py.JDict [(Py.lit "type", Py.JStr (Py.lit "talking_photo"));
                (Py.lit "talking_photo_id", Py.JStr (avatar_id c));
                (Py.lit "scale", Py.JFloat 33 (-2));
                (Py.lit "offset",
                 Py.JDict [(Py.lit "x", Py.JFloat 42 (-2));
                           (Py.lit "y", Py.JFloat 42 (-2))])]);
     (Py.lit "voice",
      Py.JDict [(Py.lit "type", Py.JStr (Py.lit "text"));
                (Py.lit "input_text", Py.JStr note);
                (Py.lit "voice_id", Py.JStr (voice_id c))]);
     (Py.lit "background",
      Py.JDict [(Py.lit "type", Py.JStr (Py.lit "color"));
                (Py.lit "value", Py.JStr (Py.lit "#FFFFFF"))])] in
  if idx <? len (slide_asset_ids c)
  then Py.JDict
         (Py.store (Py.lit "background")
            (Py.JDict [(Py.lit "type", Py.JStr (Py.lit "image"));
                       (Py.lit "image_asset_id",
                        nth (Z.to_nat idx) (slide_asset_ids c) Py.JNull)])
            scene)
  else Py.JDict scene.

(** [video_scenes] after the loop over [enumerate(speaker_notes)]. *)
Definition video_scenes (c : Converter) (speaker_notes : list Py.str) : list Py.json :=
  map (fun it => video_scene c (fst it) (snd it)) (enumerate 0 speaker_notes).

(** [self.heygen_headers], as l.97-101 builds it. *)
Definition heygen_headers (c : Converter) : list (Py.str * Py.str) :=
  [(Py.lit "Accept", Py.lit "application/json");
   (Py.lit "Content-Type", Py.lit "application/json");
   (Py.lit "X-Api-Key", heygen_key c)].

Definition video_payload (c : Converter) (speaker_notes : list Py.str)
    (video_title : Py.str) : Py.json :=
  Py.JDict [(Py.lit "video_inputs", Py.JList (video_scenes c speaker_notes));
            (Py.lit "dimension", video_size c);
            (Py.lit "title", Py.JStr video_title)].

Definition create_heygen_video (speaker_notes : list Py.str)
    (video_title : Py.str) : M Py.json :=
  c <- get_self ;;
  response <- request_with_retry (Py.lit "POST") url_generate (heygen_headers c)
                (json_payload (video_payload c speaker_notes video_title)) ;;
  j <- response_json response ;;
  data <- subscript j (Py.lit "data") ;;
  video_id <- dict_get data (Py.lit "video_id") Py.JNull ;;
  if negb (Py.truthy video_id)
  then raise RuntimeError_no_video_id
  else logging (log_video_created video_id) ;;
       ret video_id.

(** *** _wait_for_video (l.254-273)

    [while True] runs for at most [fuel] iterations here; the run is
    [Unfinished] when they do not suffice. *)

Fixpoint wait_loop (fuel : nat) (video_id : Py.json) : M Py.json :=
  match fuel with
  | O => unfinished
  | S fuel' =>
    c <- get_self ;;
    response <- request_with_retry (Py.lit "GET") (url_status video_id)
                  (heygen_headers c) no_body ;;
    j <- response_json response ;;
    data <- subscript j (Py.lit "data") ;;
    status <- subscript data (Py.lit "status") ;;
    if Py.is_str status (Py.lit "completed") || Py.is_str status (Py.lit "success")
    then subscript data (Py.lit "video_url")
    else if Py.is_str status (Py.lit "failed") || Py.is_str status (Py.lit "error")
    then reason <- dict_get data (Py.lit "error") (Py.JStr (Py.lit "未知错误")) ;;
         raise (RuntimeError_video_failed reason)
    else logging (log_status status) ;;
         sleep (poll_interval c) ;;
         wait_loop fuel' video_id
  end.

Definition wait_for_video (fuel : nat) (video_id : Py.json) : M Py.json :=
  c <- get_self ;;
  logging (log_waiting video_id (poll_interval c)) ;;
  wait_loop fuel video_id.

(** *** convert (l.275-315) *)

Record ConversionResult := mkResult {
  video_id : Py.json;
  video_url : Py.json;
  slides_processed : Z;
  title : Py.str
}.

(** [slides] after l.288-289. *)
Definition limit_slides (max_slides : option Z) (slides : list Slide) : list Slide :=
  match max_slides with
  | Some k => if k =? 0 then slides else Py.slice_to k slides
  | None => slides
  end.

(** l.291-294 *)
Definition slide_text (slide : Slide) : Py.str :=
  Py.join [10%N]
    (flat_map (fun shape => match shape with Some t => [t] | None => [] end) slide).

(** [video_title or f"PPTX转换视频_{pptx_public_id}"] *)
Definition final_title (video_title : option Py.str) (pptx_public_id : Py.str) : Py.str :=
  match video_title with
  | Some (x :: t) => x :: t
  | _ => Py.lit "PPTX转换视频_" ++ pptx_public_id
  end.

(** Steps 1 to 4 (l.277-302): the value of [speaker_notes]. *)
Definition convert_notes (pptx_public_id : Py.str) (max_slides : option Z)
    : M (list Py.str) :=
  logging (log_processing pptx_public_id) ;;
  fetched <- get_file_bytes pptx_public_id ;;
  match fetched with
  | None | Some [] => raise (FileNotFoundError_pptx pptx_public_id)
  | Some pptx_bytes =>
    all_slides <- of_sum (Presentation sv pptx_bytes) ;;
    match all_slides with
    | [] => raise ValueError_no_slides
    | _ =>
      let slides := limit_slides max_slides all_slides in
      let slide_texts := map slide_text slides in
      pptx_to_heygen_images pptx_bytes (len slides) ;;
      c <- get_self ;;
      match slide_asset_ids c with
      | [] => raise RuntimeError_no_slides_converted
      | _ =>
        generate_speaker_notes
          (Py.slice_to (len (slide_asset_ids c)) slide_texts)
      end
    end
  end.

(** Steps 5 and 6 (l.304-315). *)
Definition convert (fuel : nat) (pptx_public_id : Py.str)
    (video_title : option Py.str) (max_slides : option Z) : M ConversionResult :=
  speaker_notes <- convert_notes pptx_public_id max_slides ;;
  let title := final_title video_title pptx_public_id in
  video_id <- create_heygen_video speaker_notes title ;;
  video_url <- wait_for_video fuel video_id ;;
  ret (mkResult video_id video_url (len speaker_notes) title).

End Methods.

(** ** Reading a trace *)

Definition sleeps_of (evs : list Event) : list Z :=
  flat_map (fun ev => match ev with EvSleep s => [s] | _ => [] end) evs.

Definition requests_of (evs : list Event) : list Request :=
  flat_map (fun ev => match ev with EvRequest r => [r] | _ => [] end) evs.

Definition chats_of (evs : list Event) : list ChatRequest :=
  flat_map (fun ev => match ev with EvChat r => [r] | _ => [] end) evs.

Definition logs_of (evs : list Event) : list LogRecord :=
  flat_map (fun ev => match ev with EvLog r => [r] | _ => [] end) evs.

(** The state after [n] more calls of [requests] and the events [evs]. *)
Definition advance (n : nat) (evs : list Event) (st : State) : State :=
  mkState (self st) (files st) (temp_file_path st)
    (n + http_calls st) (aspose_calls st) (openai_calls st) (trace st ++ evs).

(** What the [try] block of the wrapper yields on the [k]-th call of
    [requests]: the response, or the exception of the transport or of
    [raise_for_status]. *)
Definition attempt_result (sv : Services) (k : nat) (r : Request) : exn + Response :=
  match requests_request sv k r with
  | inl e => inl e
  | inr resp =>
    if (400 <=? status_code resp) && (status_code resp <? 600)
    then inl (HTTPError (status_code resp))
    else inr resp
  end.

(** The events of the failed attempts [a], [a+1], ... that were retried. *)
Fixpoint backoff_events (r : Request) (a : Z) (fails : list exn) : list Event :=
  match fails with
  | [] => []
  | e :: es =>
    [EvRequest r; EvLog (log_request_failed (method r) (url r) (a + 1) e);
     EvSleep (2 ^ a)] ++ backoff_events r (a + 1) es
  end.

(** ** Reading a status response *)

(** The dict under ["data"] of a response of the status endpoint. *)
Definition reported (resp : Response) : option (list (Py.str * Py.json)) :=
  match json_body resp with
  | Some (Py.JDict top) =>
    match Py.lookup (Py.lit "data") top with
    | Some (Py.JDict d) => Some d
    | _ => None
    end
  | _ => None
  end.

(** [status in ("completed", "success")] *)
Definition is_done (status : Py.json) : bool :=
  Py.is_str status (Py.lit "completed") || Py.is_str status (Py.lit "success").

(** [status in ("failed", "error")] *)
Definition is_failed (status : Py.json) : bool :=
  Py.is_str status (Py.lit "failed") || Py.is_str status (Py.lit "error").

(** The status request of [_wait_for_video]. *)
Definition status_request (c : Converter) (video_id : Py.json) : Request :=
  mkRequest (Py.lit "GET") (url_status video_id) (heygen_headers c) no_body 90.

(** The events of one query that found the job still running. *)
Definition pending_events (c : Converter) (video_id s : Py.json) : list Event :=
  [EvRequest (status_request c video_id); EvLog (log_status s);
   EvSleep (poll_interval c)].

(** The statuses of the next queries, none of them terminal. *)
Definition still_running (sv : Services) (video_id : Py.json) (st : State) (pending : list Py.json) : Prop :=
  forall i s, nth_error pending i = Some s ->
    is_done s = false /\ is_failed s = false
    /\ exists resp d,
         attempt_result sv (http_calls st + i) (status_request (self st) video_id)
         = inr resp
         /\ reported resp = Some d
         /\ Py.lookup (Py.lit "status") d = Some s.

(** ** Reading the narration loop *)

(** [not text.strip()] *)
Definition is_blank (text : Py.str) : bool :=
  match Py.strip text with
  | [] => true
  | _ => false
  end.

(** What the [try] block of the narration loop yields for [text] on the
    [k]-th call of OpenAI: the narration, or the exception raised. *)
Definition note_answer (sv : Services) (k : nat) (text : Py.str) : exn + Py.str :=
  match chat_completions_create sv k (chat_request text) with
  | inl e => inl e
  | inr [] => inl IndexError
  | inr (None :: _) => inl AttributeError
  | inr (Some c :: _) => inr (Py.strip c)
  end.

(** The narration of the slide at 1-based position [idx], when [k] calls
    of OpenAI were made before it. *)
Definition expected_note (sv : Services) (k : nat) (idx : Z) (text : Py.str) : Py.str :=
  if is_blank text then placeholder_note idx
  else match note_answer sv k text with
       | inr n => n
       | inl _ => fallback_note idx text
       end.

Definition non_blank (texts : list Py.str) : list Py.str :=
  filter (fun t => negb (is_blank t)) texts.

Fixpoint expected_notes (sv : Services) (k : nat) (idx : Z) (texts : list Py.str)
    : list Py.str :=
  match texts with
  | [] => []
  | text :: rest =>
    expected_note sv k idx text
      :: expected_notes sv (if is_blank text then k else S k) (idx + 1) rest
  end.

Fixpoint note_events (sv : Services) (k : nat) (idx : Z) (texts : list Py.str)
    : list Event :=
  match texts with
  | [] => []
  | text :: rest =>
    if is_blank text then note_events sv k (idx + 1) rest
    else EvChat (chat_request text)
           :: match note_answer sv k text with
              | inl e => [EvLog (log_note_failed idx e)]
              | inr _ => []
              end
           ++ note_events sv (S k) (idx + 1) rest
  end.

(** The state after [n] more calls of OpenAI and the events [evs]. *)
Definition advance_chat (n : nat) (evs : list Event) (st : State) : State :=
  mkState (self st) (files st) (temp_file_path st)
    (http_calls st) (aspose_calls st) (n + openai_calls st) (trace st ++ evs).

(** ** Reading the rasterization loop *)

(** The slides handed to Aspose. *)
Definition renders_of (evs : list Event) : list Z :=
  flat_map (fun ev => match ev with EvRender i => [i] | _ => [] end) evs.

(** The slides logged as failed (l.185). *)
Definition failures_of (evs : list Event) : list Z :=
  flat_map (fun ev => match ev with
                      | EvLog (log_slide_failed i _) => [i]
                      | _ => []
                      end) evs.

(** The files logged as uploaded, with their asset ids (l.161). *)
Definition uploads_of (evs : list Event) : list (Py.str * Py.json) :=
  flat_map (fun ev => match ev with
                      | EvLog (log_uploaded name a) => [(name, a)]
                      | _ => []
                      end) evs.

(** The events the three readings above look at. *)
Definition slide_event (ev : Event) : bool :=
  match ev with
  | EvRender _ | EvLog (log_slide_failed _ _) | EvLog (log_uploaded _ _) => true
  | _ => false
  end.

Definition quiet (evs : list Event) : Prop :=
  Forall (fun ev => slide_event ev = false) evs.

(** The verdict on each slide: its asset, or none when it was skipped. *)
Definition failed_slides (outcomes : list (Z * option Py.json)) : list Z :=
  flat_map (fun o => match snd o with None => [fst o] | Some _ => [] end) outcomes.

Definition uploaded_slides (outcomes : list (Z * option Py.json)) : list (Z * Py.json) :=
  flat_map (fun o => match snd o with Some a => [(fst o, a)] | None => [] end) outcomes.

(** ** Reading the fetch of the deck *)

(** The request of [get_file_bytes]. *)
Definition fetch_request (sv : Services) (public_id : Py.str) : Request :=
  mkRequest (Py.lit "get") (url_raw (cloudinary_url sv public_id)) [] no_body 60.

(** What [get_file_bytes] returns when its request is the [k]-th call of
    [requests]. *)
Definition fetched (sv : Services) (k : nat) (public_id : Py.str) : option Py.bytes :=
  match attempt_result sv k (fetch_request sv public_id) with
  | inr resp => Some (content resp)
  | inl _ => None
  end.

(** The events of a computation all satisfy [P]. *)
Definition emits (P : Event -> Prop) {A} (c : M A) : Prop :=
  forall st, exists evs, trace (snd (c st)) = trace st ++ evs /\ Forall P evs.

Definition not_render (ev : Event) : Prop :=
  match ev with
  | EvRender _ => False
  | _ => True
  end.

(** ** Reading an outcome *)

(** The value a call returned, if it returned. *)
Definition returned {A} (r : result A) : option A :=
  match r with
  | Ok a => Some a
  | _ => None
  end.

(** The exception a call raised, if it raised. *)
Definition raised {A} (r : result A) : option exn :=
  match r with
  | Raise e => Some e
  | _ => None
  end.

(** The events a call added to the trace of [before]. *)
Definition events_since (before after : State) : list Event :=
  skipn (List.length (trace before)) (trace after).

(** ** Construction of the converter (l.84-128)

    While [__init__] runs, the object is the dict of the attributes set so
    far; reading one that is not set yet raises AttributeError. *)

(** An attribute: a plain value, or one of the client objects. *)
Inductive attr :=
| Val (v : Py.json)
| Client (kind : Py.str).

Definition Object := list (Py.str * attr).

Inductive init_error :=
| MissingEnv (name : Py.str)               (* ValueError, l.128 *)
| NoAttribute (name : Py.str).             (* AttributeError on self.name *)

(** [os.getenv] *)
Definition Env := Py.str -> option Py.str.

Definition getenv (env : Env) (name : Py.str) : attr :=
  Val (match env name with Some s => Py.JStr s | None => Py.JNull end).

(** [self.name = v] *)
Definition setattr (self : Object) (name : Py.str) (v : attr) : Object :=
  (name, v) :: filter (fun kv => negb (Py.str_eqb (fst kv) name)) self.

(** [self.name] *)
Fixpoint getattr (self : Object) (name : Py.str) : init_error + attr :=
  match self with
  | [] => inl (NoAttribute name)
  | (k, v) :: rest => if Py.str_eqb k name then inr v else getattr rest name
  end.

Definition attr_truthy (a : attr) : bool :=
  match a with
  | Val v => Py.truthy v
  | Client _ => true
  end.

(** The names of l.119-124: environment variable, attribute. *)
Definition required_config : list (Py.str * Py.str) :=
  [(Py.lit "HEYGEN_API_KEY", Py.lit "heygen_key");
   (Py.lit "OPENAI_API_KEY", Py.lit "openai_key");
   (Py.lit "ASPOSE_CLIENT_ID", Py.lit "aspose_id");
   (Py.lit "ASPOSE_CLIENT_SECRET", Py.lit "aspose_secret");
   (Py.lit "HEYGEN_AVATAR_ID", Py.lit "avatar_id");
   (Py.lit "HEYGEN_VOICE_ID", Py.lit "voice_id")].

(** The list [required] (l.118-125): its items are evaluated in order. *)
Fixpoint read_required (self : Object) (names : list (Py.str * Py.str))
    : init_error + list (Py.str * attr) :=
  match names with
  | [] => inr []
  | (name, attribute) :: rest =>
    match getattr self attribute with
    | inl e => inl e
    | inr value =>
      match read_required self rest with
      | inl e => inl e
      | inr items => inr ((name, value) :: items)
      end
    end
  end.

(** The loop of l.126-128. *)
Fixpoint check_required (required : list (Py.str * attr)) : init_error + unit :=
  match required with
  | [] => inr tt
  | (name, value) :: rest =>
    if attr_truthy value then check_required rest else inl (MissingEnv name)
  end.

(** [_validate_config] (l.116-128) *)
Definition validate_config (self : Object) : init_error + unit :=
  match read_required self required_config with
  | inl e => inl e
  | inr required => check_required required
  end.

(** [PPTXToHeyGenVideo.__init__] (l.84-114) *)
Definition init (env : Env) (storage_manager : attr) : init_error + Object :=
  let self := setattr [] (Py.lit "storage") storage_manager in
  let self := setattr self (Py.lit "heygen_key") (getenv env (Py.lit "HEYGEN_API_KEY")) in
  let self := setattr self (Py.lit "openai_key") (getenv env (Py.lit "OPENAI_API_KEY")) in
  let self := setattr self (Py.lit "aspose_id") (getenv env (Py.lit "ASPOSE_CLIENT_ID")) in
  let self :=
    setattr self (Py.lit "aspose_secret") (getenv env (Py.lit "ASPOSE_CLIENT_SECRET")) in
  match validate_config self with
  | inl e => inl e
  | inr _ =>
    let self := setattr self (Py.lit "openai_client") (Client (Py.lit "OpenAI")) in
    let self :=
      setattr self (Py.lit "heygen_headers")
        (Val (Py.JDict
                [(Py.lit "Accept", Py.JStr (Py.lit "application/json"));
                 (Py.lit "Content-Type", Py.JStr (Py.lit "application/json"));
                 (Py.lit "X-Api-Key",
                  match env (Py.lit "HEYGEN_API_KEY") with
                  | Some s => Py.JStr s
                  | None => Py.JNull
                  end)])) in
    let self := setattr self (Py.lit "aspose_slides_api") (Client (Py.lit "SlidesApi")) in
    let self := setattr self (Py.lit "avatar_id") (getenv env (Py.lit "HEYGEN_AVATAR_ID")) in
    let self := setattr self (Py.lit "voice_id") (getenv env (Py.lit "HEYGEN_VOICE_ID")) in
    let self :=
      setattr self (Py.lit "video_size")
        (Val (Py.JDict [(Py.lit "width", Py.JInt 1280);
                        (Py.lit "height", Py.JInt 720)])) in
    let self := setattr self (Py.lit "retry_times") (Val (Py.JInt 3)) in
    let self := setattr self (Py.lit "poll_interval") (Val (Py.JInt 10)) in
    let self := setattr self (Py.lit "slide_asset_ids") (Val (Py.JList [])) in
    inr self
  end.

(** ** Classes of events *)

(** Every asset id logged as uploaded is a true value. *)
Definition uploads_truthy (ev : Event) : Prop :=
  match ev with
  | EvLog (log_uploaded _ a) => Py.truthy a = true
  | _ => True
  end.

(** No call of OpenAI. *)
Definition not_chat (ev : Event) : Prop :=
  match ev with
  | EvChat _ => False
  | _ => True
  end.

(** The events of the retry wrapper. *)
Definition wrapper_event (ev : Event) : Prop :=
  match ev with
  | EvRequest _ | EvSleep _ | EvLog (log_request_failed _ _ _ _) => True
  | _ => False
  end.

(** The events of the rasterization step; an upload is logged with a true
    asset id only. *)
Definition rasterization_event (ev : Event) : Prop :=
  match ev with
  | EvRequest _ | EvSleep _ | EvRender _ => True
  | EvLog (log_request_failed _ _ _ _) => True
  | EvLog (log_slide_failed _ _) | EvLog (log_converting _) => True
  | EvLog (log_uploaded _ a) => Py.truthy a = true
  | _ => False
  end.

(** ** Comparing disks *)

(** Every named file of [after] is a file of [before], with its content. *)
Definition no_new_file (before after : list (Py.str * Py.bytes)) : Prop :=
  forall path c,
    path <> [] -> file_lookup path after = Some c -> file_lookup path before = Some c.

(** ** Reading the attempts of a call

    An [EvRequest] records what [requests.request] was handed. A
    [data_body] is the stream made once at l.155 and handed to every attempt
    of the call (l.134): the bytes a retry sends are what the attempts before
    it left unread in that stream, and the trace does not say how much that
    is. What is read off the requests of a call is therefore what does not
    depend on it. *)

(** Method, URL, headers and timeout of a request. *)
Definition call_of (r : Request) : Py.str * Url * list (Py.str * Py.str) * Z :=
  (method r, url r, headers r, timeout r).

Definition is_stream (b : Body) : bool :=
  match b with
  | data_body _ => true
  | _ => false
  end.

(** The requests and the sleeps of a trace in the order they were made:
    None for a request, the seconds for a sleep. *)
Definition pace_of (evs : list Event) : list (option Z) :=
  flat_map (fun ev => match ev with
                      | EvRequest _ => [None]
                      | EvSleep s => [Some s]
                      | _ => []
                      end) evs.

(** [k] requests with a sleep of 2^a, 2^(a+1), ... between one and the
    next, and none after the last. *)
Fixpoint backoff_pace (a : Z) (k : nat) : list (option Z) :=
  match k with
  | O => []
  | S k' =>
    None :: match k' with
            | O => []
            | S _ => Some (2 ^ a) :: backoff_pace (a + 1) k'
            end
  end.

(** The numbers of the attempts logged as failed (l.138). *)
Definition warnings_of (evs : list Event) : list Z :=
  flat_map (fun ev => match ev with
                      | EvLog (log_request_failed _ _ n _) => [n]
                      | _ => []
                      end) evs.

(** ** Reading a number back from a text

    The value of a run of the ASCII digits 0 to 9 as a decimal numeral;
    nothing for a text with another character, or for the empty text. *)

Fixpoint digits_value (acc : Z) (s : Py.str) : option Z :=
  match s with
  | [] => Some acc
  | c :: r =>
    if ((48 <=? c) && (c <=? 57))%N
    then digits_value (10 * acc + Z.of_N (c - 48)) r
    else None
  end.

Definition read_int (s : Py.str) : option Z :=
  match s with
  | [] => None
  | _ => digits_value 0 s
  end.

(** ** What decides a slide

    The verdict on a slide is read off the collaborators, not off the log:
    what Aspose answered, what the file it named holds, and what
    [_upload_to_heygen] came to. *)

(** The slides logged as failed, with the exception logged (l.185). *)
Definition failure_logs_of (evs : list Event) : list (Z * exn) :=
  flat_map (fun ev => match ev with
                      | EvLog (log_slide_failed i e) => [(i, e)]
                      | _ => []
                      end) evs.

(** The state of the iteration of slide [idx], started in [st], when Aspose
    has answered with [path] and l.171 has assigned it: the state in which
    the file is read and the upload is made. *)
Definition after_render (sv : Services) (pptx_bytes : Py.bytes) (idx : Z) (st : State)
    (path : Py.str) : State :=
  snd (set_temp_file_path (Some path)
         (snd (aspose_call sv pptx_bytes idx (snd (set_temp_file_path None st))))).

(** The verdict on slide [idx] when its iteration starts in [st]: the asset
    id the upload returned, or the exception that has the slide skipped:
    the one Aspose raised, the one of [open], the empty image of l.179-180,
    or the one [_upload_to_heygen] raised. *)
Definition slide_verdict (sv : Services) (pptx_bytes : Py.bytes) (idx : Z) (st : State)
    : result Py.json :=
  match download_slide_online sv (aspose_calls st) pptx_bytes idx with
  | inl e => Raise e
  | inr (path, _) =>
    let st1 := after_render sv pptx_bytes idx st path in
    match path, file_lookup path (files st1) with
    | _ :: _, Some [] => Raise (ValueError_empty_slide idx)
    | _ :: _, Some (b :: bs) =>
      fst (upload_to_heygen sv (b :: bs) (slide_file_name idx) st1)
    | _, _ => Raise (FileNotFoundError_open path)
    end
  end.

(** The verdicts on the slides [idxs] in turn, the iteration of each
    starting where the one before it ended. *)
Fixpoint slide_verdicts (sv : Services) (pptx_bytes : Py.bytes) (idxs : list Z)
    (st : State) : list (Z * result Py.json) :=
  match idxs with
  | [] => []
  | idx :: rest =>
    (idx, slide_verdict sv pptx_bytes idx st)
      :: slide_verdicts sv pptx_bytes rest (snd (slide_iteration sv pptx_bytes idx st))
  end.

(** The slides that succeeded, with their assets, and the slides that
    failed, with their exceptions. *)
Definition succeeded (verdicts : list (Z * result Py.json)) : list (Z * Py.json) :=
  flat_map (fun v => match snd v with Ok a => [(fst v, a)] | _ => [] end) verdicts.

Definition skipped (verdicts : list (Z * result Py.json)) : list (Z * exn) :=
  flat_map (fun v => match snd v with Raise e => [(fst v, e)] | _ => [] end) verdicts.

(** ** Scenarios

    Concrete collaborators and objects on which the methods are run. *)

Module Demo.

(** An object with the attributes l.108-114 give it. *)
Definition converter : Converter :=
  mkConverter (Py.lit "key") (Py.lit "avatar") (Py.lit "voice")
    (Py.JDict [(Py.lit "width", Py.JInt 1280); (Py.lit "height", Py.JInt 720)])
    3 10 [].

Definition start : State := mkState converter [] None 0 0 0 [].

Definition json_response (j : Py.json) : Response := mkResponse 200 [] (Some j).

Definition down : exn := RequestException (Py.lit "connection refused").

(** A transport that answers its calls from [script], and is down after. *)
Definition scripted (script : list (exn + Response)) : Services :=
  mkServices
    (fun k _ => nth k script (inl down))
    (fun _ _ _ => inl (LibraryError (Py.lit "no rasterizer")))
    (fun _ _ => inl (LibraryError (Py.lit "no model")))
    (fun _ => inl (LibraryError (Py.lit "no parser")))
    (fun _ => None)
    (fun public_id => public_id).

(** A response of the status endpoint reporting [d]. *)
Definition status_response (d : list (Py.str * Py.json)) : Response :=
  json_response (Py.JDict [(Py.lit "data", Py.JDict d)]).

Definition processing : Response :=
  status_response [(Py.lit "status", Py.JStr (Py.lit "processing"))].

Definition completed : Response :=
  status_response [(Py.lit "status", Py.JStr (Py.lit "completed"));
                   (Py.lit "video_url", Py.JStr (Py.lit "https://video/1.mp4"))].

Definition failed : Response :=
  status_response [(Py.lit "status", Py.JStr (Py.lit "failed"));
                   (Py.lit "error", Py.JStr (Py.lit "render crashed"))].

(** The object after the assets [ids] were collected. *)
Definition with_assets (ids : list Py.json) : State :=
  mkState
    (mkConverter (Py.lit "key") (Py.lit "avatar") (Py.lit "voice")
       (video_size converter) 3 10 ids)
    [] None 0 0 0 [].

(** The slide image Aspose leaves for slide [idx]: one byte, its index. *)
Definition slide_png (idx : Z) : Py.bytes :=
  [match Byte.of_N (Z.to_N idx) with Some b => b | None => Byte.x00 end].

(** Services around the deck [deck]: Cloudinary serves its bytes, Aspose
    renders slide [i] at its [k]-th call unless [bad_render k i], HeyGen gives
    the asset of slide [i] the id [i], numbers its video jobs by the call
    that created them and reports them completed, and OpenAI answers every
    call but those of [mute]. *)
Definition studio (deck : list Slide) (bad_render : nat -> Z -> bool) (mute : nat -> bool)
    : Services :=
  mkServices
    (fun k r =>
       match url r with
       | url_raw _ => inr (mkResponse 200 [Byte.x50; Byte.x4b] None)
       | url_asset =>
         match body r with
         | data_body (b :: _) =>
           inr (json_response
                  (Py.JDict [(Py.lit "data",
                     Py.JDict [(Py.lit "id", Py.JInt (Z.of_N (Byte.to_N b)))])]))
         | _ => inl down
         end
       | url_generate =>
         inr (json_response
                (Py.JDict [(Py.lit "data",
                   Py.JDict [(Py.lit "video_id", Py.JInt (Z.of_nat (S k)))])]))
       | url_status _ => inr completed
       end)
    (fun k _ idx =>
       if bad_render k idx then inl (LibraryError (Py.lit "render failed"))
       else inr (Py.lit "/tmp/slide.png", Some (slide_png idx)))
    (fun k _ =>
       if mute k then inl (LibraryError (Py.lit "rate limit"))
       else inr [Some (Py.lit " Welcome to this slide. ")])
    (fun _ => inr deck)
    (fun _ => Some (Py.lit "image/png"))
    (fun public_id => Py.lit "https://res.cloudinary.com/raw/" ++ public_id).

(** A deck of [n] slides, each with one text box. *)
Definition deck (n : nat) : list Slide := repeat [Some (Py.lit "Agenda")] n.

Definition deck_id : Py.str := Py.lit "deck_123".

(** One slide, every service up. *)
Definition healthy : Services :=
  studio (deck 1) (fun _ _ => false) (fun _ => false).

(** Two slides, the second of which Aspose never renders. *)
Definition lossy : Services :=
  studio (deck 2) (fun _ i => i =? 2) (fun _ => false).

(** One slide; Aspose answers its first call and is down afterwards. *)
Definition outage : Services :=
  studio (deck 1) (fun k _ => negb (Nat.eqb k 0)) (fun _ => false).

(** Five slides, every service up. *)
Definition five : Services :=
  studio (deck 5) (fun _ _ => false) (fun _ => false).

(** Three slides with the texts one, two, three; the second never renders. *)
Definition gapped : Services :=
  studio [[Some (Py.lit "one")]; [Some (Py.lit "two")]; [Some (Py.lit "three")]]
    (fun _ i => i =? 2) (fun _ => false).

(** Four slides: Aspose raises on slide 1 and leaves an empty file for
    slide 2, and HeyGen is down for the upload of slide 3. *)
Definition rough : Services :=
  let base := studio (deck 4) (fun _ i => i =? 1) (fun _ => false) in
  mkServices
    (fun k r =>
       match url r, body r with
       | url_asset, data_body (b :: _) =>
         if (Byte.to_N b =? 3)%N then inl down else requests_request base k r
       | _, _ => requests_request base k r
       end)
    (fun k document idx =>
       if idx =? 2 then inr (Py.lit "/tmp/slide.png", Some [])
       else download_slide_online base k document idx)
    (chat_completions_create base)
    (Presentation base)
    (guess_type base)
    (cloudinary_url base).

(** The object with another [retry_times]. *)
Definition with_retry_times (n : Z) : State :=
  mkState
    (mkConverter (Py.lit "key") (Py.lit "avatar") (Py.lit "voice")
       (video_size converter) n 10 [])
    [] None 0 0 0 [].

(** An environment with every variable of the converter set. *)
Definition full_env : Env := fun name => Some (Py.lit "value-of-" ++ name).

(** An object that has the six validated attributes, with [voice_id]
    empty. *)
Definition unvoiced : Object :=
  [(Py.lit "heygen_key", Val (Py.JStr (Py.lit "hk")));
   (Py.lit "openai_key", Val (Py.JStr (Py.lit "ok")));
   (Py.lit "aspose_id", Val (Py.JStr (Py.lit "id")));
   (Py.lit "aspose_secret", Val (Py.JStr (Py.lit "secret")));
   (Py.lit "avatar_id", Val (Py.JStr (Py.lit "avatar")));
   (Py.lit "voice_id", Val (Py.JStr []))].

(** The new object on a disk that holds one file. *)
Definition with_notes_file : State :=
  mkState converter [(Py.lit "/home/notes.txt", [Byte.x68; Byte.x69])] None 0 0 0 [].

(** Five slides, the third of which Aspose never renders. *)
Definition third_fails : Services :=
  studio (deck 5) (fun _ i => i =? 3) (fun _ => false).

End Demo.

(** * Properties *)

(** ** Python values *)

Lemma str_eqb_eq a b : Py.str_eqb a b = true <-> a = b.
Proof.
  unfold Py.str_eqb. destruct (list_eq_dec N.eq_dec a b); split; congruence.
Qed.

Lemma str_eqb_refl a : Py.str_eqb a a = true.
Proof. now apply str_eqb_eq. Qed.

Example lit_ascii : Py.lit "png" = [112; 110; 103]%N.
Proof. reflexivity. Qed.

Example lit_cjk : Py.lit "第3张" = [31532; 51; 24352]%N.
Proof. reflexivity. Qed.

Example str_of_int_12 : Py.str_of_int 12 = Py.lit "12".
Proof. reflexivity. Qed.

Example str_of_int_0 : Py.str_of_int 0 = Py.lit "0".
Proof. reflexivity. Qed.

Example range_1_4 : Py.range 1 4 = [1; 2; 3].
Proof. reflexivity. Qed.

Example slice_neg : Py.slice_to (-1) [1; 2; 3] = [1; 2].
Proof. reflexivity. Qed.

(** ** States *)

Lemma advance_advance n1 e1 n2 e2 st :
  advance n2 e2 (advance n1 e1 st) = advance (n1 + n2) (e1 ++ e2) st.
Proof.
  unfold advance; simpl. f_equal; [lia | now rewrite app_assoc].
Qed.

Lemma advance_0_nil st : advance 0 [] st = st.
Proof. destruct st; unfold advance; simpl. now rewrite app_nil_r. Qed.

(** ** The retry wrapper *)

Section Retry.

Variable sv : Services.

Lemma range_cons a hi : a < hi -> Py.range a hi = a :: Py.range (a + 1) hi.
Proof.
  intros H. unfold Py.range.
  replace (Z.to_nat (hi - a)) with (S (Z.to_nat (hi - (a + 1)))) by lia.
  rewrite <- cons_seq. simpl. f_equal; [lia |].
  rewrite <- seq_shift, map_map. apply map_ext. intros k. lia.
Qed.

Lemma range_nil a hi : hi <= a -> Py.range a hi = [].
Proof.
  intros H. unfold Py.range. now replace (Z.to_nat (hi - a)) with 0%nat by lia.
Qed.

Lemma retry_loop_ok a rest m u hs b st resp :
  attempt_result sv (http_calls st) (mkRequest m u hs b 90) = inr resp ->
  retry_loop sv (a :: rest) m u hs b st
  = (Ok resp, advance 1 [EvRequest (mkRequest m u hs b 90)] st).
Proof.
  unfold attempt_result. intros H. simpl.
  unfold bind, try_except, requests_call, raise_for_status.
  destruct (requests_request sv (http_calls st) _) as [e|r]; [discriminate|].
  destruct ((400 <=? status_code r) && (status_code r <? 600)); [discriminate|].
  injection H as ->. reflexivity.
Qed.

Lemma retry_loop_other a rest m u hs b st e :
  attempt_result sv (http_calls st) (mkRequest m u hs b 90) = inl e ->
  is_RequestException e = false ->
  retry_loop sv (a :: rest) m u hs b st
  = (Raise e, advance 1 [EvRequest (mkRequest m u hs b 90)] st).
Proof.
  unfold attempt_result. intros H He. simpl.
  unfold bind, try_except, requests_call, raise_for_status.
  destruct (requests_request sv (http_calls st) _) as [e'|r].
  - injection H as ->. simpl. now rewrite He.
  - destruct ((400 <=? status_code r) && (status_code r <? 600)); [|discriminate].
    injection H as <-. discriminate.
Qed.

Lemma retry_loop_last a rest m u hs b st e :
  attempt_result sv (http_calls st) (mkRequest m u hs b 90) = inl e ->
  is_RequestException e = true ->
  a = retry_times (self st) - 1 ->
  retry_loop sv (a :: rest) m u hs b st
  = (Raise e, advance 1 [EvRequest (mkRequest m u hs b 90);
                         EvLog (log_request_failed m u (a + 1) e)] st).
Proof.
  unfold attempt_result. intros H He Ha. simpl.
  unfold bind, try_except, requests_call, raise_for_status.
  destruct (requests_request sv (http_calls st) _) as [e'|r].
  - injection H as ->. simpl. rewrite He. simpl.
    rewrite Ha, Z.eqb_refl. unfold raise, advance. simpl.
    now rewrite <- app_assoc.
  - destruct ((400 <=? status_code r) && (status_code r <? 600)); [|discriminate].
    injection H as <-. simpl.
    rewrite Ha, Z.eqb_refl. unfold raise, advance. simpl.
    now rewrite <- app_assoc.
Qed.

Lemma retry_loop_again a rest m u hs b st e :
  attempt_result sv (http_calls st) (mkRequest m u hs b 90) = inl e ->
  is_RequestException e = true ->
  a <> retry_times (self st) - 1 ->
  retry_loop sv (a :: rest) m u hs b st
  = retry_loop sv rest m u hs b
      (advance 1 (backoff_events (mkRequest m u hs b 90) a [e]) st).
Proof.
  unfold attempt_result. intros H He Ha. simpl.
  apply Z.eqb_neq in Ha.
  unfold bind, try_except, requests_call, raise_for_status.
  destruct (requests_request sv (http_calls st) _) as [e'|r].
  - injection H as ->. simpl. rewrite He. simpl. rewrite Ha. simpl.
    unfold advance. simpl. now rewrite <- !app_assoc.
  - destruct ((400 <=? status_code r) && (status_code r <? 600)); [|discriminate].
    injection H as <-. simpl. rewrite Ha. simpl.
    unfold advance. simpl. now rewrite <- !app_assoc.
Qed.

(** [fails] lists the exceptions of the next attempts, each of them a
    [RequestException] raised before the last attempt: the wrapper logs,
    sleeps and goes on with the attempt after them. *)
Lemma retry_loop_skip m u hs b fails : forall a st,
  a + len fails <= retry_times (self st) - 1 ->
  (forall j e, nth_error fails j = Some e ->
     attempt_result sv (http_calls st + j) (mkRequest m u hs b 90) = inl e
     /\ is_RequestException e = true) ->
  retry_loop sv (Py.range a (retry_times (self st))) m u hs b st
  = retry_loop sv (Py.range (a + len fails) (retry_times (self st))) m u hs b
      (advance (List.length fails)
         (backoff_events (mkRequest m u hs b 90) a fails) st).
Proof.
  unfold len. induction fails as [|e es IH]; intros a st Hle Hf.
  - simpl. now rewrite Z.add_0_r, advance_0_nil.
  - destruct (Hf 0%nat e eq_refl) as [H0 He]. rewrite Nat.add_0_r in H0.
    cbn [List.length] in Hle.
    rewrite range_cons by lia.
    rewrite retry_loop_again with (e := e) by (assumption || lia).
    set (st1 := advance 1 _ st).
    change (retry_times (self st)) with (retry_times (self st1)).
    rewrite (IH (a + 1) st1).
    + unfold st1. rewrite advance_advance. cbn [List.length].
      replace (a + 1 + Z.of_nat (List.length es))
        with (a + Z.of_nat (S (List.length es))) by lia.
      reflexivity.
    + cbn [self st1 advance]. lia.
    + intros j e' Hj. specialize (Hf (S j) e' Hj).
      cbn [http_calls st1 advance].
      now replace (1 + http_calls st + j)%nat with (http_calls st + S j)%nat by lia.
Qed.

Lemma sleeps_of_app e1 e2 : sleeps_of (e1 ++ e2) = sleeps_of e1 ++ sleeps_of e2.
Proof. unfold sleeps_of. now rewrite flat_map_app. Qed.

Lemma requests_of_app e1 e2 : requests_of (e1 ++ e2) = requests_of e1 ++ requests_of e2.
Proof. unfold requests_of. now rewrite flat_map_app. Qed.

Lemma sleeps_of_backoff r fails : forall a,
  sleeps_of (backoff_events r a fails)
  = map (fun j => 2 ^ (a + Z.of_nat j)) (seq 0 (List.length fails)).
Proof.
  induction fails as [|e es IH]; intros a; [reflexivity|].
  cbn [backoff_events List.length]. rewrite sleeps_of_app, IH.
  rewrite <- cons_seq, <- seq_shift. cbn [map]. rewrite map_map.
  cbn [sleeps_of flat_map app]. rewrite Z.add_0_r.
  f_equal. apply map_ext. intros j. f_equal. lia.
Qed.

Lemma requests_of_backoff r fails : forall a,
  requests_of (backoff_events r a fails) = repeat r (List.length fails).
Proof.
  induction fails as [|e es IH]; intros a; [reflexivity|].
  cbn [backoff_events List.length]. rewrite requests_of_app, IH. reflexivity.
Qed.

(** C3. With [retry_times = 3]: when the first [k < 3] attempts fail with a
    request exception and attempt [k+1] succeeds, the wrapper returns that
    response after exactly [k+1] calls of the transport, having slept
    [2^0, ..., 2^(k-1)] after the failed attempts; when all three attempts
    fail, it makes exactly three calls, sleeps 1 and 2 in between, and
    raises the exception of the third. *)
Theorem C3_retry_three_attempts m u hs b st :
  retry_times (self st) = 3 ->
  let r := mkRequest m u hs b 90 in
  (forall fails resp,
     (List.length fails < 3)%nat ->
     (forall j e, nth_error fails j = Some e ->
        attempt_result sv (http_calls st + j) r = inl e
        /\ is_RequestException e = true) ->
     attempt_result sv (http_calls st + List.length fails) r = inr resp ->
     exists st' evs,
       request_with_retry sv m u hs b st = (Ok resp, st')
       /\ http_calls st' = (http_calls st + (List.length fails + 1))%nat
       /\ trace st' = trace st ++ evs
       /\ requests_of evs = repeat r (List.length fails + 1)
       /\ sleeps_of evs = map (fun j => 2 ^ Z.of_nat j) (seq 0 (List.length fails)))
  /\
  (forall e0 e1 e2,
     attempt_result sv (http_calls st) r = inl e0 ->
     attempt_result sv (http_calls st + 1) r = inl e1 ->
     attempt_result sv (http_calls st + 2) r = inl e2 ->
     is_RequestException e0 = true ->
     is_RequestException e1 = true ->
     is_RequestException e2 = true ->
     exists st' evs,
       request_with_retry sv m u hs b st = (Raise e2, st')
       /\ http_calls st' = (http_calls st + 3)%nat
       /\ trace st' = trace st ++ evs
       /\ requests_of evs = [r; r; r]
       /\ sleeps_of evs = [1; 2]).
Proof.
  intros Hrt r. unfold request_with_retry, bind, get_self. split.
  - intros fails resp Hlen Hf Hok.
    rewrite (@retry_loop_skip m u hs b fails 0 st) by (unfold len; (lia || assumption)).
    rewrite range_cons by (unfold len; lia).
    set (st1 := advance (List.length fails) (backoff_events r 0 fails) st).
    assert (H1 : attempt_result sv (http_calls st1) r = inr resp).
    { cbn [st1 advance http_calls]. now rewrite Nat.add_comm. }
    rewrite retry_loop_ok with (resp := resp) by exact H1.
    eexists. exists (backoff_events r 0 fails ++ [EvRequest r]).
    split; [reflexivity|].
    unfold st1. rewrite advance_advance. cbn [advance http_calls trace].
    split; [lia|]. split; [reflexivity|]. split.
    + rewrite requests_of_app, requests_of_backoff, repeat_app. reflexivity.
    + rewrite sleeps_of_app, sleeps_of_backoff. simpl. now rewrite app_nil_r.
  - intros e0 e1 e2 H0 H1 H2 He0 He1 He2.
    rewrite (@retry_loop_skip m u hs b [e0; e1] 0 st).
    + rewrite range_cons by (unfold len; simpl; lia).
      set (st1 := advance 2 (backoff_events r 0 [e0; e1]) st).
      rewrite retry_loop_last with (e := e2).
      * eexists.
        exists (backoff_events r 0 [e0; e1]
                ++ [EvRequest r; EvLog (log_request_failed m u (0 + len [e0; e1] + 1) e2)]).
        split; [reflexivity|].
        unfold st1. rewrite advance_advance. cbn [advance http_calls trace].
        split; [cbn [List.length]; lia|]. split; [reflexivity|]. split; reflexivity.
      * cbn [st1 advance http_calls]. now rewrite Nat.add_comm.
      * exact He2.
      * cbn [st1 advance self]. unfold len. simpl. lia.
    + unfold len. simpl. lia.
    + intros [|[|j]] e Hj; simpl in Hj; try discriminate.
      * injection Hj as <-. now rewrite Nat.add_0_r.
      * injection Hj as <-. now split.
      * destruct j; discriminate.
Qed.

End Retry.

(** A transport that fails twice and then answers is asked three times and
    its answer is returned; one that is down is asked three times, with
    sleeps of 1 and 2, and its exception is raised. *)
Lemma C3_retry_three_attempts_witness :
  let st := Demo.start in
  let resp := Demo.json_response Py.JNull in
  retry_times (self st) = 3
  /\ (exists st',
        request_with_retry (Demo.scripted [inl Demo.down; inl Demo.down; inr resp])
          (Py.lit "GET") url_generate [] no_body st = (Ok resp, st')
        /\ http_calls st' = 3%nat
        /\ sleeps_of (trace st') = [1; 2])
  /\ (exists st',
        request_with_retry (Demo.scripted [])
          (Py.lit "GET") url_generate [] no_body st = (Raise Demo.down, st')
        /\ http_calls st' = 3%nat
        /\ sleeps_of (trace st') = [1; 2]).
Proof.
  intros st resp. split; [reflexivity|]. split.
  - destruct (@C3_retry_three_attempts
                (Demo.scripted [inl Demo.down; inl Demo.down; inr resp])
                (Py.lit "GET") url_generate [] no_body st eq_refl) as [H _].
    destruct (H [Demo.down; Demo.down] resp) as (st' & evs & H1 & H2 & H3 & _ & H5).
    + simpl; lia.
    + intros [|[|[|j]]] e Hj; simpl in Hj; try discriminate;
        injection Hj as <-; split; reflexivity.
    + reflexivity.
    + exists st'. split; [exact H1|]. split; [exact H2|].
      rewrite H3. exact H5.
  - destruct (@C3_retry_three_attempts (Demo.scripted [])
                (Py.lit "GET") url_generate [] no_body st eq_refl) as [_ H].
    destruct (H Demo.down Demo.down Demo.down) as (st' & evs & H1 & H2 & H3 & _ & H5);
      try reflexivity.
    exists st'. split; [exact H1|]. split; [exact H2|].
    rewrite H3. exact H5.
Defined.

(** ** The polling loop *)

Section Polling.

Variable sv : Services.

Lemma request_first_try m u hs b st resp :
  1 <= retry_times (self st) ->
  attempt_result sv (http_calls st) (mkRequest m u hs b 90) = inr resp ->
  request_with_retry sv m u hs b st
  = (Ok resp, advance 1 [EvRequest (mkRequest m u hs b 90)] st).
Proof.
  intros Hrt H. unfold request_with_retry, bind, get_self.
  rewrite range_cons by lia. now apply retry_loop_ok.
Qed.

Lemma is_failed_not_done s : is_failed s = true -> is_done s = false.
Proof.
  unfold is_failed, is_done, Py.is_str. destruct s; try discriminate.
  intros H. apply orb_true_iff in H.
  destruct H as [H|H]; apply str_eqb_eq in H; subst; reflexivity.
Qed.

Lemma wait_loop_pending fuel video_id st resp d s :
  1 <= retry_times (self st) ->
  attempt_result sv (http_calls st) (status_request (self st) video_id) = inr resp ->
  reported resp = Some d ->
  Py.lookup (Py.lit "status") d = Some s ->
  is_done s = false ->
  is_failed s = false ->
  wait_loop sv (S fuel) video_id st
  = wait_loop sv fuel video_id
      (advance 1 (pending_events (self st) video_id s) st).
Proof.
  intros Hrt Ha Hr Hs Hd Hf. cbn [wait_loop]. unfold bind at 1. unfold get_self at 1.
  unfold bind at 1. unfold status_request in Ha.
  rewrite (request_first_try _ _ _ _ _ Hrt Ha).
  unfold reported in Hr. unfold bind at 1. unfold response_json.
  destruct (json_body resp) as [[| | | | | |top]|]; try discriminate.
  unfold ret at 1. unfold bind at 1. cbn [subscript].
  destruct (Py.lookup (Py.lit "data") top) as [[| | | | | |d']|]; try discriminate.
  injection Hr as ->. unfold ret at 1. unfold bind at 1. cbn [subscript].
  rewrite Hs. unfold ret at 1.
  unfold is_done in Hd. unfold is_failed in Hf. rewrite Hd, Hf.
  unfold bind, logging, sleep, emit. cbn [self advance trace http_calls files
    temp_file_path aspose_calls openai_calls].
  unfold pending_events, status_request, advance. cbn [self trace http_calls files
    temp_file_path aspose_calls openai_calls].
  now rewrite <- !app_assoc.
Qed.

Ltac run_status_query Hrt Ha Hr Hs :=
  cbn [wait_loop]; unfold bind at 1; unfold get_self at 1;
  unfold bind at 1; unfold status_request in Ha;
  rewrite (request_first_try _ _ _ _ _ Hrt Ha);
  unfold reported in Hr; unfold bind at 1; unfold response_json;
  destruct (json_body _) as [[| | | | | |top]|]; try discriminate;
  unfold ret at 1; unfold bind at 1; cbn [subscript];
  destruct (Py.lookup (Py.lit "data") top) as [[| | | | | |d']|]; try discriminate;
  injection Hr as ->; unfold ret at 1; unfold bind at 1; cbn [subscript];
  rewrite Hs; unfold ret at 1.

Lemma wait_loop_done fuel video_id st resp d s u :
  1 <= retry_times (self st) ->
  attempt_result sv (http_calls st) (status_request (self st) video_id) = inr resp ->
  reported resp = Some d ->
  Py.lookup (Py.lit "status") d = Some s ->
  is_done s = true ->
  Py.lookup (Py.lit "video_url") d = Some u ->
  wait_loop sv (S fuel) video_id st
  = (Ok u, advance 1 [EvRequest (status_request (self st) video_id)] st).
Proof.
  intros Hrt Ha Hr Hs Hd Hu. run_status_query Hrt Ha Hr Hs.
  unfold is_done in Hd. rewrite Hd. cbn [subscript]. now rewrite Hu.
Qed.

Lemma wait_loop_failed fuel video_id st resp d s :
  1 <= retry_times (self st) ->
  attempt_result sv (http_calls st) (status_request (self st) video_id) = inr resp ->
  reported resp = Some d ->
  Py.lookup (Py.lit "status") d = Some s ->
  is_failed s = true ->
  wait_loop sv (S fuel) video_id st
  = (Raise (RuntimeError_video_failed
              (match Py.lookup (Py.lit "error") d with
               | Some reason => reason
               | None => Py.JStr (Py.lit "未知错误")
               end)),
     advance 1 [EvRequest (status_request (self st) video_id)] st).
Proof.
  intros Hrt Ha Hr Hs Hf. pose proof (is_failed_not_done _ Hf) as Hd.
  run_status_query Hrt Ha Hr Hs.
  unfold is_done in Hd. unfold is_failed in Hf. rewrite Hd, Hf. reflexivity.
Qed.

Lemma wait_loop_run video_id pending : forall st fuel,
  1 <= retry_times (self st) ->
  still_running sv video_id st pending ->
  wait_loop sv (List.length pending + fuel) video_id st
  = wait_loop sv fuel video_id
      (advance (List.length pending)
         (flat_map (pending_events (self st) video_id) pending) st).
Proof.
  induction pending as [|s rest IH]; intros st fuel Hrt Hp.
  - simpl. now rewrite advance_0_nil.
  - destruct (Hp 0%nat s eq_refl) as (Hd & Hf & resp & d & Ha & Hr & Hs).
    rewrite Nat.add_0_r in Ha.
    cbn [List.length Nat.add].
    rewrite (wait_loop_pending _ _ _ Hrt Ha Hr Hs Hd Hf).
    set (st1 := advance 1 _ st).
    rewrite (IH st1 fuel).
    + unfold st1. rewrite advance_advance. reflexivity.
    + exact Hrt.
    + intros i s' Hi. destruct (Hp (S i) s' Hi) as (Hd' & Hf' & resp' & d' & Ha' & Hr' & Hs').
      split; [exact Hd'|]. split; [exact Hf'|].
      exists resp', d'. cbn [st1 advance http_calls self].
      replace (1 + http_calls st + i)%nat with (http_calls st + S i)%nat by lia.
      now split.
Qed.

Lemma sleeps_of_pending c video_id pending :
  sleeps_of (flat_map (pending_events c video_id) pending)
  = repeat (poll_interval c) (List.length pending).
Proof.
  induction pending as [|s rest IH]; [reflexivity|].
  cbn [flat_map List.length repeat]. now rewrite sleeps_of_app, IH.
Qed.

Lemma requests_of_pending c video_id pending :
  requests_of (flat_map (pending_events c video_id) pending)
  = repeat (status_request c video_id) (List.length pending).
Proof.
  induction pending as [|s rest IH]; [reflexivity|].
  cbn [flat_map List.length repeat]. now rewrite requests_of_app, IH.
Qed.

(** C4. While the status reported is neither completed/success nor
    failed/error, the loop logs, sleeps [poll_interval] and queries again,
    however long that lasts; the first status in {completed, success} makes
    it return the reported video URL, the first in {failed, error} makes it
    raise the video-generation failure carrying the reported reason. After
    [n] non-terminal statuses that is [n+1] queries and [n] sleeps. *)
Theorem C4_poll_until_terminal video_id pending st :
  1 <= retry_times (self st) ->
  still_running sv video_id st pending ->
  let n := List.length pending in
  let c := self st in
  let waited st' queries :=
    exists evs,
      trace st' = trace st ++ evs
      /\ requests_of evs = repeat (status_request c video_id) queries
      /\ sleeps_of evs = repeat (poll_interval c) n in
  (exists st',
     wait_for_video sv n video_id st = (Unfinished, st') /\ waited st' n)
  /\
  (forall fuel resp d s,
     (n < fuel)%nat ->
     attempt_result sv (http_calls st + n) (status_request c video_id) = inr resp ->
     reported resp = Some d ->
     Py.lookup (Py.lit "status") d = Some s ->
     exists st',
       waited st' (S n)
       /\ (is_done s = true ->
           forall u, Py.lookup (Py.lit "video_url") d = Some u ->
           wait_for_video sv fuel video_id st = (Ok u, st'))
       /\ (is_failed s = true ->
           wait_for_video sv fuel video_id st
           = (Raise (RuntimeError_video_failed
                       (match Py.lookup (Py.lit "error") d with
                        | Some reason => reason
                        | None => Py.JStr (Py.lit "未知错误")
                        end)), st'))).
Proof.
  intros Hrt Hp n c waited.
  set (st0 := advance 0 [EvLog (log_waiting video_id (poll_interval c))] st).
  assert (Hw : forall fuel, wait_for_video sv fuel video_id st
                            = wait_loop sv fuel video_id st0) by reflexivity.
  assert (Hp0 : still_running sv video_id st0 pending) by exact Hp.
  assert (Hrt0 : 1 <= retry_times (self st0)) by exact Hrt.
  split.
  - eexists. split.
    + rewrite Hw. replace n with (n + 0)%nat at 1 by lia.
      unfold n. rewrite (@wait_loop_run video_id pending st0 0%nat Hrt0 Hp0).
      reflexivity.
    + unfold waited.
      exists ([EvLog (log_waiting video_id (poll_interval c))]
              ++ flat_map (pending_events c video_id) pending).
      split; [|split].
      * cbn [advance trace st0 self]. now rewrite <- app_assoc.
      * rewrite requests_of_app, requests_of_pending. reflexivity.
      * rewrite sleeps_of_app, sleeps_of_pending. reflexivity.
  - intros fuel resp d s Hfuel Ha Hr Hs.
    set (st1 := advance n (flat_map (pending_events c video_id) pending) st0).
    assert (Hrun : wait_for_video sv fuel video_id st
                   = wait_loop sv (S (fuel - n - 1)) video_id st1).
    { rewrite Hw. replace fuel with (n + S (fuel - n - 1))%nat at 1 by lia.
      unfold n. now rewrite (@wait_loop_run video_id pending st0 _ Hrt0 Hp0). }
    assert (Ha1 : attempt_result sv (http_calls st1) (status_request (self st1) video_id)
                  = inr resp).
    { cbn [st1 st0 advance http_calls self].
      now replace (n + (0 + http_calls st))%nat with (http_calls st + n)%nat by lia. }
    exists (advance 1 [EvRequest (status_request c video_id)] st1).
    split; [|split].
    + unfold waited.
      exists ([EvLog (log_waiting video_id (poll_interval c))]
              ++ flat_map (pending_events c video_id) pending
              ++ [EvRequest (status_request c video_id)]).
      split; [|split].
      * cbn [advance trace st1 st0 self]. now rewrite <- !app_assoc.
      * rewrite !requests_of_app, requests_of_pending.
        cbn [requests_of flat_map app].
        change (S n) with (S (List.length pending)).
        rewrite <- repeat_cons. reflexivity.
      * rewrite !sleeps_of_app, sleeps_of_pending. cbn. now rewrite app_nil_r.
    + intros Hd u Hu. rewrite Hrun.
      apply wait_loop_done with (resp := resp) (d := d) (s := s); assumption.
    + intros Hf. rewrite Hrun.
      apply wait_loop_failed with (resp := resp) (s := s); assumption.
Qed.

End Polling.

(** The statuses processing, processing, completed give the URL after three
    queries and two sleeps of 10; the status failed raises at the first
    query, with the reason reported. *)
Lemma C4_poll_until_terminal_witness :
  let st := Demo.start in
  let vid := Py.JStr (Py.lit "v1") in
  (exists st',
     wait_for_video
       (Demo.scripted [inr Demo.processing; inr Demo.processing; inr Demo.completed])
       3 vid st
     = (Ok (Py.JStr (Py.lit "https://video/1.mp4")), st')
     /\ List.length (requests_of (trace st')) = 3%nat
     /\ sleeps_of (trace st') = [10; 10])
  /\ (exists st',
        wait_for_video (Demo.scripted [inr Demo.failed]) 1 vid st
        = (Raise (RuntimeError_video_failed (Py.JStr (Py.lit "render crashed"))), st')
        /\ List.length (requests_of (trace st')) = 1%nat
        /\ sleeps_of (trace st') = []).
Proof.
  intros st vid. split.
  - set (sv := Demo.scripted [inr Demo.processing; inr Demo.processing; inr Demo.completed]).
    set (p := Py.JStr (Py.lit "processing")).
    assert (Hp : still_running sv vid st [p; p]).
    { intros [|[|[|i]]] s Hi; simpl in Hi; try discriminate; injection Hi as <-;
        (split; [reflexivity|]); (split; [reflexivity|]);
        exists Demo.processing; eexists; (split; [reflexivity|]); split; reflexivity. }
    destruct (@C4_poll_until_terminal sv vid [p; p] st ltac:(simpl; lia) Hp) as [_ H].
    destruct (H 3%nat Demo.completed _ _ ltac:(simpl; lia) eq_refl eq_refl eq_refl)
      as (st' & (evs & H1 & H2 & H3) & Hd & _).
    exists st'. split; [apply Hd; reflexivity|].
    rewrite H1. change (trace st) with (@nil Event). cbn [app].
    rewrite H2, H3. split; reflexivity.
  - set (sv := Demo.scripted [inr Demo.failed]).
    assert (Hp : still_running sv vid st []).
    { intros [|i] s Hi; discriminate. }
    destruct (@C4_poll_until_terminal sv vid [] st ltac:(simpl; lia) Hp) as [_ H].
    destruct (H 1%nat Demo.failed _ _ ltac:(simpl; lia) eq_refl eq_refl eq_refl)
      as (st' & (evs & H1 & H2 & H3) & _ & Hf).
    exists st'. split; [apply Hf; reflexivity|].
    rewrite H1. change (trace st) with (@nil Event). cbn [app].
    rewrite H2, H3. split; reflexivity.
Defined.

(** ** The job builder *)

Lemma enumerate_length {A} (l : list A) : forall start,
  List.length (enumerate start l) = List.length l.
Proof. induction l as [|x r IH]; intros start; simpl; [reflexivity | now rewrite IH]. Qed.

Lemma enumerate_nth {A} (l : list A) : forall start i x,
  nth_error l i = Some x ->
  nth_error (enumerate start l) i = Some (start + Z.of_nat i, x).
Proof.
  induction l as [|y r IH]; intros start [|i] x H; simpl in *; try discriminate.
  - injection H as ->. now rewrite Z.add_0_r.
  - rewrite (IH (start + 1) i x H). do 2 f_equal. lia.
Qed.

Section Builder.

Variable sv : Services.

Lemma retry_loop_grows m u hs b attempts : forall st,
  exists evs,
    trace (snd (retry_loop sv attempts m u hs b st)) = trace st ++ evs.
Proof.
  induction attempts as [|a rest IH]; intros st.
  - exists []. simpl. now rewrite app_nil_r.
  - destruct (attempt_result sv (http_calls st) (mkRequest m u hs b 90)) as [e|resp] eqn:Ha.
    + destruct (is_RequestException e) eqn:He.
      * destruct (Z.eq_dec a (retry_times (self st) - 1)) as [Hl|Hl].
        -- rewrite retry_loop_last with (e := e) by assumption. now eexists.
        -- rewrite retry_loop_again with (e := e) by assumption.
           destruct (IH (advance 1 (backoff_events (mkRequest m u hs b 90) a [e]) st))
             as [evs Hevs].
           rewrite Hevs. cbn [advance trace]. rewrite <- app_assoc. now eexists.
      * rewrite retry_loop_other with (e := e) by assumption. now eexists.
    + rewrite retry_loop_ok with (resp := resp) by assumption. now eexists.
Qed.

(** The wrapper starts with sending the request, whatever comes after. *)
Lemma request_with_retry_first m u hs b st :
  1 <= retry_times (self st) ->
  exists evs,
    trace (snd (request_with_retry sv m u hs b st))
    = trace st ++ EvRequest (mkRequest m u hs b 90) :: evs.
Proof.
  intros Hrt. unfold request_with_retry, bind, get_self.
  rewrite range_cons by lia.
  set (rest := Py.range (0 + 1) (retry_times (self st))).
  destruct (attempt_result sv (http_calls st) (mkRequest m u hs b 90)) as [e|resp] eqn:Ha.
  - destruct (is_RequestException e) eqn:He.
    + destruct (Z.eq_dec 0 (retry_times (self st) - 1)) as [Hl|Hl].
      * rewrite retry_loop_last with (e := e) by assumption. now eexists.
      * rewrite retry_loop_again with (e := e) by assumption.
        destruct (retry_loop_grows m u hs b rest
                    (advance 1 (backoff_events (mkRequest m u hs b 90) 0 [e]) st))
          as [evs Hevs].
        rewrite Hevs. cbn [advance trace backoff_events app].
        rewrite <- app_assoc. now eexists.
    + rewrite retry_loop_other with (e := e) by assumption. now eexists.
  - rewrite retry_loop_ok with (resp := resp) by assumption. now eexists.
Qed.

(** C5. For [n] narrations and [m] slide assets the job builder makes [n]
    scenes. Scene [i] has the fixed avatar (talking photo, scale 0.33,
    offset 0.42/0.42), the voice made of narration [i] and the configured
    voice id, and as background the image of asset [i] when [i < m], the
    color #FFFFFF otherwise. These scenes are the "video_inputs" of the
    payload the method posts. *)
Theorem C5_scene_per_narration (speaker_notes : list Py.str) (video_title : Py.str) st :
  let c := self st in
  let scenes := video_scenes c speaker_notes in
  List.length scenes = List.length speaker_notes
  /\ (forall i note,
        nth_error speaker_notes i = Some note ->
        nth_error scenes i
        = Some (Py.JDict
            [(Py.lit "character",
              Py.JDict [(Py.lit "type", Py.JStr (Py.lit "talking_photo"));
                        (Py.lit "talking_photo_id", Py.JStr (avatar_id c));
                        (Py.lit "scale", Py.JFloat 33 (-2));
                        (Py.lit "offset",
                         Py.JDict [(Py.lit "x", Py.JFloat 42 (-2));
                                   (Py.lit "y", Py.JFloat 42 (-2))])]);
             (Py.lit "voice",
              Py.JDict [(Py.lit "type", Py.JStr (Py.lit "text"));
                        (Py.lit "input_text", Py.JStr note);
                        (Py.lit "voice_id", Py.JStr (voice_id c))]);
             (Py.lit "background",
              match nth_error (slide_asset_ids c) i with
              | Some asset =>
                Py.JDict [(Py.lit "type", Py.JStr (Py.lit "image"));
                          (Py.lit "image_asset_id", asset)]
              | None =>
                Py.JDict [(Py.lit "type", Py.JStr (Py.lit "color"));
                          (Py.lit "value", Py.JStr (Py.lit "#FFFFFF"))]
              end)]))
  /\ (1 <= retry_times c ->
      exists evs,
        trace (snd (create_heygen_video sv speaker_notes video_title st))
        = trace st
          ++ EvRequest
               (mkRequest (Py.lit "POST") url_generate (heygen_headers c)
                  (json_payload
                     (Py.JDict [(Py.lit "video_inputs", Py.JList scenes);
                                (Py.lit "dimension", video_size c);
                                (Py.lit "title", Py.JStr video_title)])) 90)
          :: evs).
Proof.
  intros c scenes. split; [|split].
  - unfold scenes, video_scenes. now rewrite length_map, enumerate_length.
  - intros i note Hi. unfold scenes, video_scenes.
    rewrite nth_error_map, (enumerate_nth _ 0 _ Hi). cbn [option_map fst snd].
    unfold video_scene, len.
    destruct (nth_error (slide_asset_ids c) i) as [asset|] eqn:Hn.
    + assert (Hlt : (i < List.length (slide_asset_ids c))%nat)
        by (apply nth_error_Some; congruence).
      replace (0 + Z.of_nat i <? Z.of_nat (List.length (slide_asset_ids c))) with true
        by (symmetry; apply Z.ltb_lt; lia).
      replace (Z.to_nat (0 + Z.of_nat i)) with i by lia.
      rewrite (nth_error_nth _ _ Py.JNull Hn). reflexivity.
    + apply nth_error_None in Hn.
      replace (0 + Z.of_nat i <? Z.of_nat (List.length (slide_asset_ids c))) with false
        by (symmetry; apply Z.ltb_ge; lia).
      reflexivity.
  - intros Hrt. unfold create_heygen_video.
    unfold bind at 1. unfold get_self at 1. unfold bind at 1.
    fold c. fold (video_payload c speaker_notes video_title).
    destruct (request_with_retry_first (Py.lit "POST") url_generate (heygen_headers c)
                (json_payload (video_payload c speaker_notes video_title)) st Hrt)
      as [evs Hevs].
    destruct (request_with_retry sv _ _ _ _ st) as [[resp|e|] st1];
      cbn [snd] in Hevs |- *; try (exists evs; exact Hevs).
    unfold bind, response_json, subscript, dict_get, ret, raise.
    destruct (json_body resp) as [[| | | | | |top]|]; cbn [snd];
      try (exists evs; exact Hevs).
    destruct (Py.lookup (Py.lit "data") top) as [[| | | | | |d]|]; cbn [snd];
      try (exists evs; exact Hevs).
    destruct (negb (Py.truthy _)); cbn [snd]; try (exists evs; exact Hevs).
    unfold logging, emit. cbn [snd trace]. rewrite Hevs, <- app_assoc.
    cbn [app]. now eexists.
Qed.

End Builder.

(** Three narrations and two assets: three scenes, the first two on the
    images of the two assets, the third on the white background. *)
Lemma C5_scene_per_narration_witness :
  let st := Demo.with_assets [Py.JStr (Py.lit "a1"); Py.JStr (Py.lit "a2")] in
  let scenes :=
    video_scenes (self st) [Py.lit "one"; Py.lit "two"; Py.lit "three"] in
  let background i :=
    match nth_error scenes i with
    | Some (Py.JDict scene) => Py.lookup (Py.lit "background") scene
    | _ => None
    end in
  1 <= retry_times (self st)
  /\ List.length scenes = 3%nat
  /\ background 0%nat
     = Some (Py.JDict [(Py.lit "type", Py.JStr (Py.lit "image"));
                       (Py.lit "image_asset_id", Py.JStr (Py.lit "a1"))])
  /\ background 1%nat
     = Some (Py.JDict [(Py.lit "type", Py.JStr (Py.lit "image"));
                       (Py.lit "image_asset_id", Py.JStr (Py.lit "a2"))])
  /\ background 2%nat
     = Some (Py.JDict [(Py.lit "type", Py.JStr (Py.lit "color"));
                       (Py.lit "value", Py.JStr (Py.lit "#FFFFFF"))]).
Proof.
  intros st scenes background.
  destruct (@C5_scene_per_narration (Demo.scripted [])
              [Py.lit "one"; Py.lit "two"; Py.lit "three"] (Py.lit "title") st)
    as (Hlen & Hscene & _).
  split; [simpl; lia|]. split; [exact Hlen|].
  unfold background, scenes.
  rewrite (Hscene 0%nat _ eq_refl), (Hscene 1%nat _ eq_refl), (Hscene 2%nat _ eq_refl).
  repeat split.
Defined.

(** ** Narration *)

Lemma advance_chat_chat n1 e1 n2 e2 st :
  advance_chat n2 e2 (advance_chat n1 e1 st) = advance_chat (n1 + n2) (e1 ++ e2) st.
Proof.
  unfold advance_chat; simpl. f_equal; [lia | now rewrite app_assoc].
Qed.

Lemma advance_chat_0_nil st : advance_chat 0 [] st = st.
Proof. destruct st; unfold advance_chat; simpl. now rewrite app_nil_r. Qed.

Lemma lstrip_nil s : Py.lstrip s = [] <-> forallb Py.isspace s = true.
Proof.
  induction s as [|c r IH]; simpl; [tauto|].
  destruct (Py.isspace c); simpl; [exact IH|]. split; discriminate.
Qed.

Lemma lstrip_not_nil_rev s : Py.lstrip s <> [] -> Py.lstrip (rev (Py.lstrip s)) <> [].
Proof.
  induction s as [|c r IH]; simpl; [tauto|].
  destruct (Py.isspace c) eqn:Hc; [exact IH|].
  intros _ H. apply lstrip_nil in H. rewrite forallb_forall in H.
  specialize (H c). rewrite Hc in H.
  assert (Hin : In c (rev (c :: r))) by (apply in_rev; rewrite rev_involutive; now left).
  specialize (H Hin). discriminate.
Qed.

(** [not text.strip()] holds of the empty and the whitespace-only texts. *)
Lemma is_blank_spec text :
  is_blank text = true <-> forall c, In c text -> Py.isspace c = true.
Proof.
  rewrite <- forallb_forall, <- lstrip_nil. unfold is_blank, Py.strip, Py.rstrip.
  split.
  - intros H. destruct (Py.lstrip text) as [|c r] eqn:Hl; [reflexivity|].
    exfalso. assert (Hn : Py.lstrip text <> []) by (rewrite Hl; discriminate).
    apply lstrip_not_nil_rev in Hn. rewrite Hl in Hn.
    destruct (rev (Py.lstrip (rev (c :: r)))) eqn:Hr; [|discriminate].
    apply Hn. apply (f_equal (@rev N)) in Hr. rewrite rev_involutive in Hr.
    exact Hr.
  - intros ->. reflexivity.
Qed.

(** What [str] prints of a number that is not negative reads back as that
    number. *)
Lemma digits_value_acc u : forall acc,
  digits_value (Z.pos acc) (Py.digits u) = Some (Z.pos (Pos.of_uint_acc u acc)).
Proof.
  induction u as [|u IH|u IH|u IH|u IH|u IH|u IH|u IH|u IH|u IH|u IH]; intros acc;
    [reflexivity|..];
    cbn [Py.digits digits_value Pos.of_uint_acc N.leb N.compare Pos.compare
         Pos.compare_cont andb];
    rewrite <- IH; f_equal; simpl (Z.of_N _); lia.
Qed.

Lemma digits_value_0 u :
  digits_value 0 (Py.digits u) = Some (Z.of_N (Pos.of_uint u)).
Proof.
  induction u as [|u IH|u IH|u IH|u IH|u IH|u IH|u IH|u IH|u IH|u IH];
    [reflexivity | exact IH |..];
    cbn [Py.digits digits_value Pos.of_uint]; apply digits_value_acc.
Qed.

Lemma read_int_str_of_int z : 0 <= z -> read_int (Py.str_of_int z) = Some z.
Proof.
  destruct z as [|p|p]; [reflexivity| |lia]. intros _.
  unfold Py.str_of_int, read_int. cbn [Z.to_int].
  pose proof (DecimalPos.Unsigned.to_uint_nonnil p) as Hnil.
  pose proof (digits_value_0 (Pos.to_uint p)) as Hv.
  rewrite DecimalPos.Unsigned.of_to in Hv.
  destruct (Pos.to_uint p); [contradiction|..]; exact Hv.
Qed.

Section Narration.

Variable sv : Services.

Lemma note_iteration_spec idx text notes st :
  note_iteration sv (idx, text) notes st
  = (Ok (notes ++ [expected_note sv (openai_calls st) idx text]),
     advance_chat (if is_blank text then 0 else 1)
       (note_events sv (openai_calls st) idx [text]) st).
Proof.
  unfold note_iteration, expected_note, is_blank. cbn [note_events]. unfold is_blank.
  destruct (Py.strip text) as [|c r] eqn:Hs.
  - unfold ret. now rewrite advance_chat_0_nil.
  - unfold note_try, try_except, bind, openai_call, note_answer.
    destruct (chat_completions_create sv (openai_calls st) (chat_request text))
      as [e|[|[n|] choices]]; unfold advance_chat, logging, emit, ret, raise;
      cbn -[fallback_note chat_request Py.strip];
      rewrite <- ?app_assoc, ?app_nil_r; reflexivity.
Qed.

Lemma notes_loop_spec texts : forall idx notes st,
  for_acc (enumerate idx texts) notes (note_iteration sv) st
  = (Ok (notes ++ expected_notes sv (openai_calls st) idx texts),
     advance_chat (List.length (non_blank texts))
       (note_events sv (openai_calls st) idx texts) st).
Proof.
  induction texts as [|text rest IH]; intros idx notes st.
  - simpl. unfold ret. now rewrite app_nil_r, advance_chat_0_nil.
  - cbn [enumerate for_acc]. unfold bind. rewrite note_iteration_spec.
    rewrite IH, advance_chat_chat, <- app_assoc.
    cbn [expected_notes note_events non_blank filter advance_chat openai_calls app].
    destruct (is_blank text); cbn [negb List.length Nat.add app]; [reflexivity|].
    now rewrite app_nil_r.
Qed.

Lemma expected_notes_length texts : forall k idx,
  List.length (expected_notes sv k idx texts) = List.length texts.
Proof. induction texts as [|t r IH]; intros k idx; simpl; [|rewrite IH]; reflexivity. Qed.

Lemma expected_notes_nth texts : forall k idx i text,
  nth_error texts i = Some text ->
  nth_error (expected_notes sv k idx texts) i
  = Some (expected_note sv (k + List.length (non_blank (firstn i texts)))
            (idx + Z.of_nat i) text).
Proof.
  induction texts as [|t r IH]; intros k idx [|i] text H; simpl in H; try discriminate.
  - injection H as ->. simpl. now rewrite Nat.add_0_r, Z.add_0_r.
  - cbn [expected_notes nth_error firstn non_blank filter].
    rewrite (IH _ _ _ _ H). do 2 f_equal.
    + destruct (is_blank t); cbn [negb List.length]; unfold non_blank; lia.
    + lia.
Qed.

Lemma chats_of_app e1 e2 : chats_of (e1 ++ e2) = chats_of e1 ++ chats_of e2.
Proof. unfold chats_of. now rewrite flat_map_app. Qed.

Lemma chats_of_note_events texts : forall k idx,
  chats_of (note_events sv k idx texts) = map chat_request (non_blank texts).
Proof.
  induction texts as [|t r IH]; intros k idx; [reflexivity|].
  cbn [note_events non_blank filter]. destruct (is_blank t); cbn [negb]; [apply IH|].
  cbn [map]. fold (non_blank r). rewrite <- (IH (S k) (idx + 1)).
  destruct (note_answer sv k t); reflexivity.
Qed.

(** C6. Narration generation returns, for every list of slide texts, a list
    of the same length whose [i]-th entry is made from the [i]-th text
    alone: the placeholder when the text is blank, the answer of the model
    to that text, or, when that call or the reading of its answer raises,
    the fallback made of the prefix naming the slide, the first 50
    characters of the text and "...". No exception leaves the loop. *)
Theorem C6_one_note_per_text (slide_texts : list Py.str) st :
  exists notes st',
    generate_speaker_notes sv slide_texts st = (Ok notes, st')
    /\ List.length notes = List.length slide_texts
    /\ (forall i text,
          nth_error slide_texts i = Some text ->
          exists note,
            nth_error notes i = Some note
            /\ let idx := Z.of_nat i + 1 in
               let k := (openai_calls st
                         + List.length (non_blank (firstn i slide_texts)))%nat in
               if is_blank text then note = placeholder_note idx
               else match note_answer sv k text with
                    | inr answer => note = answer
                    | inl _ =>
                      note = Py.lit "第" ++ Py.str_of_int idx
                               ++ Py.lit "张幻灯片内容："
                               ++ firstn 50 text ++ Py.lit "..."
                      /\ (List.length (firstn 50 text) <= 50)%nat
                    end).
Proof.
  unfold generate_speaker_notes, bind, logging, emit.
  rewrite notes_loop_spec. cbn [openai_calls app].
  eexists. eexists. split; [reflexivity|]. split.
  - apply expected_notes_length.
  - intros i text Hi. eexists. split.
    + apply expected_notes_nth. exact Hi.
    + cbv zeta. unfold expected_note. rewrite (Z.add_comm 1).
      destruct (is_blank text); [reflexivity|].
      destruct (note_answer sv _ text); [|reflexivity].
      split; [reflexivity | apply firstn_le_length].
Qed.

(** C7. A slide text that is empty or all whitespace gets, at its 1-based
    position [idx], the fixed placeholder "这是第[idx]张幻灯片，主要展示图片内容。",
    in which [idx] is printed in decimal and reads back as [idx]. Its
    iteration calls nothing and logs nothing: it leaves the state as it
    found it. The model is called for the other texts only, once each and in
    their order, each time with the system message of l.204 and that text
    after the prompt of l.205. *)
Theorem C7_blank_gets_placeholder (slide_texts : list Py.str) st :
  exists notes st' evs,
    generate_speaker_notes sv slide_texts st = (Ok notes, st')
    /\ trace st' = trace st ++ evs
    /\ (forall i text,
          nth_error slide_texts i = Some text ->
          (forall c, In c text -> Py.isspace c = true) ->
          let idx := Z.of_nat i + 1 in
          nth_error notes i
          = Some (Py.lit "这是第" ++ Py.str_of_int idx
                    ++ Py.lit "张幻灯片，主要展示图片内容。")
          /\ read_int (Py.str_of_int idx) = Some idx)
    /\ chats_of evs = map chat_request (non_blank slide_texts)
    /\ openai_calls st' = (openai_calls st + List.length (non_blank slide_texts))%nat
    /\ (forall text,
          In text (non_blank slide_texts) ->
          exists c, In c text /\ Py.isspace c = false)
    /\ map (@messages) (chats_of evs)
       = map (fun text =>
                [(Py.lit "system",
                  Py.lit "你是虚拟教师，用简洁易懂的语言讲解幻灯片内容，语气专业亲切。");
                 (Py.lit "user",
                  Py.lit "根据以下幻灯片文本生成讲稿：" ++ [10%N] ++ text)])
           (non_blank slide_texts)
    /\ (forall idx text notes0 st0,
          (forall c, In c text -> Py.isspace c = true) ->
          note_iteration sv (idx, text) notes0 st0
          = (Ok (notes0 ++ [Py.lit "这是第" ++ Py.str_of_int idx
                              ++ Py.lit "张幻灯片，主要展示图片内容。"]), st0)).
Proof.
  unfold generate_speaker_notes, bind, logging, emit.
  rewrite notes_loop_spec. cbn [openai_calls app].
  eexists. eexists.
  exists (EvLog (log_generating (len slide_texts))
          :: note_events sv (openai_calls st) 1 slide_texts).
  assert (Hchats : chats_of (EvLog (log_generating (len slide_texts))
                             :: note_events sv (openai_calls st) 1 slide_texts)
                   = map chat_request (non_blank slide_texts)).
  { change (EvLog ?r :: ?l) with ([EvLog r] ++ l).
    rewrite chats_of_app. apply chats_of_note_events. }
  split; [reflexivity|]. split; [|split; [|split; [|split; [|split; [|split]]]]].
  - cbn [advance_chat trace]. now rewrite <- app_assoc.
  - intros i text Hi Hb. apply is_blank_spec in Hb. split.
    + rewrite expected_notes_nth with (text := text) by exact Hi.
      unfold expected_note. rewrite Hb.
      now rewrite (Z.add_comm 1).
    + apply read_int_str_of_int. lia.
  - exact Hchats.
  - cbn [advance_chat openai_calls]. lia.
  - intros text Hin. apply filter_In in Hin. destruct Hin as [_ Hnb].
    apply negb_true_iff in Hnb.
    destruct (forallb Py.isspace text) eqn:Hall.
    + rewrite forallb_forall in Hall. apply is_blank_spec in Hall. congruence.
    + clear Hnb. induction text as [|c r IH]; [discriminate|].
      simpl in Hall. destruct (Py.isspace c) eqn:Hc.
      * destruct (IH Hall) as (c' & Hin' & Hc'). exists c'. split; [now right | exact Hc'].
      * exists c. split; [now left | exact Hc].
  - rewrite Hchats, map_map. reflexivity.
  - intros idx text notes0 st0 Hb. apply is_blank_spec in Hb.
    unfold note_iteration. unfold is_blank in Hb.
    destruct (Py.strip text); [reflexivity | discriminate].
Qed.

End Narration.

(** Four texts, the second blank, the model failing on its second call:
    four notes, the second the placeholder of slide 2, the fourth the
    fallback of slide 4. *)
Lemma C6_one_note_per_text_witness :
  let sv := Demo.studio [] (fun _ _ => false) (fun k => Nat.eqb k 1) in
  let texts := [Py.lit "Agenda"; Py.lit "  "; Py.lit "Budget 2024"; Py.lit "Risks"] in
  exists notes,
    fst (generate_speaker_notes sv texts Demo.start) = Ok notes
    /\ List.length notes = 4%nat
    /\ nth_error notes 0 = Some (Py.lit "Welcome to this slide.")
    /\ nth_error notes 1 = Some (Py.lit "这是第2张幻灯片，主要展示图片内容。")
    /\ nth_error notes 2 = Some (Py.lit "第3张幻灯片内容：Budget 2024...")
    /\ nth_error notes 3 = Some (Py.lit "Welcome to this slide.").
Proof.
  intros sv texts.
  destruct (C6_one_note_per_text sv texts Demo.start) as (notes & st' & Hrun & Hlen & Hnth).
  exists notes. rewrite Hrun. split; [reflexivity|]. split; [exact Hlen|].
  destruct (Hnth 0%nat _ eq_refl) as (n0 & H0 & E0).
  destruct (Hnth 1%nat _ eq_refl) as (n1 & H1 & E1).
  destruct (Hnth 2%nat _ eq_refl) as (n2 & H2 & E2).
  destruct (Hnth 3%nat _ eq_refl) as (n3 & H3 & E3).
  vm_compute in E0, E1, E2, E3. destruct E2 as [E2 _].
  rewrite H0, H1, H2, H3, E0, E1, E2, E3. repeat split.
Defined.

(** The blank second text gets the placeholder of slide 2, which reads back
    as 2, and its iteration leaves the state alone; the model is called
    three times, for the three other texts. *)
Lemma C7_blank_gets_placeholder_witness :
  let sv := Demo.studio [] (fun _ _ => false) (fun _ => false) in
  let texts := [Py.lit "Agenda"; Py.lit "  "; Py.lit "Budget 2024"; Py.lit "Risks"] in
  exists notes st',
    generate_speaker_notes sv texts Demo.start = (Ok notes, st')
    /\ nth_error notes 1 = Some (Py.lit "这是第2张幻灯片，主要展示图片内容。")
    /\ read_int (Py.lit "2") = Some 2
    /\ chats_of (trace st')
       = [chat_request (Py.lit "Agenda"); chat_request (Py.lit "Budget 2024");
          chat_request (Py.lit "Risks")]
    /\ openai_calls st' = 3%nat
    /\ note_iteration sv (2, Py.lit "  ") [Py.lit "first"] Demo.start
       = (Ok [Py.lit "first"; Py.lit "这是第2张幻灯片，主要展示图片内容。"], Demo.start).
Proof.
  intros sv texts.
  destruct (C7_blank_gets_placeholder sv texts Demo.start)
    as (notes & st' & evs & Hrun & Htr & Hblank & Hchats & Hcalls & _ & _ & Hstep).
  assert (Hspace : forall c, In c (Py.lit "  ") -> Py.isspace c = true).
  { intros c Hc. vm_compute in Hc. destruct Hc as [<-|[<-|[]]]; vm_compute; reflexivity. }
  destruct (Hblank 1%nat (Py.lit "  ") eq_refl Hspace) as [Hnote Hread].
  exists notes, st'. split; [exact Hrun|]. split; [|split; [|split; [|split]]].
  - rewrite Hnote. vm_compute. reflexivity.
  - exact Hread.
  - rewrite Htr. change (trace Demo.start) with (@nil Event). cbn [app].
    rewrite Hchats. vm_compute. reflexivity.
  - rewrite Hcalls. vm_compute. reflexivity.
  - etransitivity; [exact (Hstep 2 (Py.lit "  ") [Py.lit "first"] Demo.start Hspace)|].
    vm_compute. reflexivity.
Defined.

(** ** Rasterization *)

Lemma renders_of_app e1 e2 : renders_of (e1 ++ e2) = renders_of e1 ++ renders_of e2.
Proof. unfold renders_of. now rewrite flat_map_app. Qed.

Lemma failures_of_app e1 e2 : failures_of (e1 ++ e2) = failures_of e1 ++ failures_of e2.
Proof. unfold failures_of. now rewrite flat_map_app. Qed.

Lemma uploads_of_app e1 e2 : uploads_of (e1 ++ e2) = uploads_of e1 ++ uploads_of e2.
Proof. unfold uploads_of. now rewrite flat_map_app. Qed.

Lemma quiet_readings evs :
  quiet evs -> renders_of evs = [] /\ failures_of evs = [] /\ uploads_of evs = [].
Proof.
  induction 1 as [|ev evs Hev _ (IH1 & IH2 & IH3)]; [repeat split|].
  change (ev :: evs) with ([ev] ++ evs).
  rewrite renders_of_app, failures_of_app, uploads_of_app, IH1, IH2, IH3.
  destruct ev as [| |[]| |]; try discriminate; repeat split.
Qed.

Lemma quiet_app e1 e2 : quiet e1 -> quiet e2 -> quiet (e1 ++ e2).
Proof. intros H1 H2. apply Forall_app. now split. Qed.

Section Rasterization.

Variable sv : Services.

Lemma retry_loop_quiet m u hs b attempts : forall st,
  exists r n evs,
    retry_loop sv attempts m u hs b st = (r, advance n evs st)
    /\ quiet evs /\ r <> Unfinished.
Proof.
  induction attempts as [|a rest IH]; intros st.
  - exists (Raise RuntimeError_retries_exhausted), 0%nat, [].
    rewrite advance_0_nil. repeat split; [constructor | discriminate].
  - destruct (attempt_result sv (http_calls st) (mkRequest m u hs b 90)) as [e|resp] eqn:Ha.
    + destruct (is_RequestException e) eqn:He.
      * destruct (Z.eq_dec a (retry_times (self st) - 1)) as [Hl|Hl].
        -- rewrite retry_loop_last with (e := e) by assumption.
           do 3 eexists. split; [reflexivity|]. split; [|discriminate].
           repeat constructor.
        -- rewrite retry_loop_again with (e := e) by assumption.
           destruct (IH (advance 1 (backoff_events (mkRequest m u hs b 90) a [e]) st))
             as (r & n & evs & Hrun & Hq & Hr).
           rewrite Hrun, advance_advance.
           do 3 eexists. split; [reflexivity|]. split; [|exact Hr].
           apply quiet_app; [repeat constructor | exact Hq].
      * rewrite retry_loop_other with (e := e) by assumption.
        do 3 eexists. split; [reflexivity|]. split; [|discriminate].
        repeat constructor.
    + rewrite retry_loop_ok with (resp := resp) by assumption.
      do 3 eexists. split; [reflexivity|]. split; [|discriminate].
      repeat constructor.
Qed.

(** The upload of one file: the object is left as it was, and the file is
    logged as uploaded exactly when the call returns its asset id. *)
Lemma upload_to_heygen_spec file_bytes file_name st :
  exists r n evs,
    upload_to_heygen sv file_bytes file_name st = (r, advance n evs st)
    /\ renders_of evs = [] /\ failures_of evs = []
    /\ match r with
       | Ok a => uploads_of evs = [(file_name, a)]
       | Raise _ => uploads_of evs = []
       | Unfinished => False
       end.
Proof.
  unfold upload_to_heygen.
  unfold bind at 1. unfold get_self at 1. unfold bind at 1.
  unfold request_with_retry. unfold bind at 1. unfold get_self at 1.
  set (hs := [(Py.lit "X-Api-Key", _); _]).
  destruct (retry_loop_quiet (Py.lit "POST") url_asset hs (data_body file_bytes)
              (Py.range 0 (retry_times (self st))) st)
    as (r & n & evs & Hrun & Hq & Hr).
  rewrite Hrun. destruct (quiet_readings Hq) as (Q1 & Q2 & Q3).
  destruct r as [resp|e|]; [| |congruence].
  2: { exists (Raise e), n, evs. repeat split; assumption. }
  unfold bind, response_json, subscript, dict_get, ret, raise.
  destruct (json_body resp) as [[| | | | | |top]|];
    try (eexists (Raise _), n, evs; repeat split; assumption).
  destruct (Py.lookup (Py.lit "data") top) as [[| | | | | |d]|];
    try (eexists (Raise _), n, evs; repeat split; assumption).
  set (asset_id := match Py.lookup (Py.lit "id") d with Some v => v | None => Py.JNull end).
  destruct (negb (Py.truthy asset_id));
    [eexists (Raise _), n, evs; repeat split; assumption|].
  unfold logging, emit.
  exists (Ok asset_id), n, (evs ++ [EvLog (log_uploaded file_name asset_id)]).
  split; [unfold advance; cbn [self files temp_file_path http_calls aspose_calls
                               openai_calls trace]; now rewrite <- app_assoc|].
  rewrite renders_of_app, failures_of_app, uploads_of_app, Q1, Q2, Q3.
  repeat split.
Qed.

(** The [try] block after the call of Aspose. *)
Lemma slide_try_rest idx path st :
  exists r st' evs,
    (set_temp_file_path (Some path) ;;
     slide_bytes <- open_read path ;;
     match slide_bytes with
     | [] => raise (ValueError_empty_slide idx)
     | _ :: _ =>
       asset_id <- upload_to_heygen sv slide_bytes (slide_file_name idx) ;;
       append_asset asset_id
     end) st = (r, st')
    /\ trace st' = trace st ++ evs
    /\ renders_of evs = [] /\ failures_of evs = []
    /\ match r with
       | Ok _ =>
         exists a,
           uploads_of evs = [(slide_file_name idx, a)]
           /\ slide_asset_ids (self st') = slide_asset_ids (self st) ++ [a]
       | Raise _ =>
         uploads_of evs = []
         /\ slide_asset_ids (self st') = slide_asset_ids (self st)
       | Unfinished => False
       end.
Proof.
  unfold bind at 1. unfold set_temp_file_path at 1.
  unfold bind at 1. unfold open_read at 1. cbn [files].
  destruct path as [|p0 path].
  { do 2 eexists. exists []. split; [reflexivity|].
    cbn [trace self]. rewrite app_nil_r. repeat split. }
  destruct (file_lookup (p0 :: path) (files st)) as [slide_bytes|].
  2: { do 2 eexists. exists []. split; [reflexivity|].
       cbn [trace self]. rewrite app_nil_r. repeat split. }
  destruct slide_bytes as [|b0 bs].
  { do 2 eexists. exists []. split; [reflexivity|].
    cbn [trace self]. rewrite app_nil_r. repeat split. }
  set (st2 := mkState _ _ _ _ _ _ _).
  destruct (upload_to_heygen_spec (b0 :: bs) (slide_file_name idx) st2)
    as (r & n & evs & Hrun & Q1 & Q2 & Q3).
  unfold bind. rewrite Hrun.
  destruct r as [a|e|]; [| |contradiction].
  - unfold append_asset, bind, get_self, set_self.
    do 2 eexists. exists evs. split; [reflexivity|].
    cbn [advance st2 self files temp_file_path http_calls aspose_calls openai_calls
         trace slide_asset_ids].
    split; [reflexivity|]. split; [exact Q1|]. split; [exact Q2|].
    exists a. now split.
  - do 2 eexists. exists evs. split; [reflexivity|].
    cbn [advance st2 self files temp_file_path http_calls aspose_calls openai_calls
         trace slide_asset_ids].
    repeat split; assumption.
Qed.

(** The [try] block of one iteration: it hands the slide to Aspose, and
    either returns with the file uploaded and its asset appended, or raises
    with nothing uploaded and the list of assets as it was. *)
Lemma slide_try_spec pptx_bytes idx st :
  exists r st' evs,
    slide_try sv pptx_bytes idx st = (r, st')
    /\ trace st' = trace st ++ EvRender idx :: evs
    /\ renders_of evs = [] /\ failures_of evs = []
    /\ match r with
       | Ok _ =>
         exists a,
           uploads_of evs = [(slide_file_name idx, a)]
           /\ slide_asset_ids (self st') = slide_asset_ids (self st) ++ [a]
       | Raise _ =>
         uploads_of evs = []
         /\ slide_asset_ids (self st') = slide_asset_ids (self st)
       | Unfinished => False
       end.
Proof.
  unfold slide_try. unfold bind at 1. unfold aspose_call.
  destruct (download_slide_online sv (aspose_calls st) pptx_bytes idx)
    as [e|[path [c|]]].
  { do 2 eexists. exists []. split; [reflexivity|]. repeat split. }
  all: set (st1 := mkState _ _ _ _ _ _ _);
    destruct (slide_try_rest idx path st1) as (r & st' & evs & Hrun & Htr & Q1 & Q2 & Hr);
    exists r, st', evs; (split; [exact Hrun|]);
    rewrite Htr; cbn [st1 trace]; rewrite <- app_assoc;
    (split; [reflexivity|]); (split; [exact Q1|]); (split; [exact Q2|]);
    exact Hr.
Qed.

Lemma slide_finally_spec st :
  exists st',
    slide_finally st = (Ok tt, st')
    /\ self st' = self st /\ trace st' = trace st.
Proof.
  unfold slide_finally, bind, get_temp_file_path, os_path_exists, os_remove, set_files, ret.
  destruct (temp_file_path st) as [[|x t]|]; try (now eexists).
  destruct (file_lookup (x :: t) (files st)); now eexists.
Qed.

(** One iteration never raises: it ends with the slide either uploaded and
    appended or logged as failed and skipped. *)
Lemma slide_iteration_spec pptx_bytes idx st :
  exists st' evs outcome,
    slide_iteration sv pptx_bytes idx st = (Ok tt, st')
    /\ trace st' = trace st ++ evs
    /\ renders_of evs = [idx]
    /\ failures_of evs = failed_slides [(idx, outcome)]
    /\ uploads_of evs
       = map (fun ia => (slide_file_name (fst ia), snd ia))
           (uploaded_slides [(idx, outcome)])
    /\ slide_asset_ids (self st')
       = slide_asset_ids (self st) ++ map snd (uploaded_slides [(idx, outcome)]).
Proof.
  unfold slide_iteration. unfold bind at 1. unfold set_temp_file_path at 1.
  set (st0 := mkState _ _ _ _ _ _ _).
  destruct (slide_try_spec pptx_bytes idx st0)
    as (r & st1 & evs & Hrun & Htr & Q1 & Q2 & Hr).
  unfold try_finally, try_except. rewrite Hrun.
  destruct r as [[]|e|]; [| |contradiction].
  - destruct Hr as (a & Q3 & Hids).
    destruct (slide_finally_spec st1) as (st2 & Hfin & Hself & Htr2).
    rewrite Hfin. exists st2, (EvRender idx :: evs), (Some a).
    split; [reflexivity|]. rewrite Htr2, Htr, Hself, Hids.
    change (EvRender idx :: evs) with ([EvRender idx] ++ evs).
    rewrite renders_of_app, failures_of_app, uploads_of_app, Q1, Q2, Q3.
    repeat split.
  - destruct Hr as (Q3 & Hids). cbn [is_Exception].
    unfold logging, emit.
    set (st1' := mkState _ _ _ _ _ _ _).
    destruct (slide_finally_spec st1') as (st2 & Hfin & Hself & Htr2).
    rewrite Hfin.
    exists st2, (EvRender idx :: evs ++ [EvLog (log_slide_failed idx e)]), None.
    split; [reflexivity|]. rewrite Htr2, Hself.
    cbn [st1' trace self]. rewrite Htr, Hids.
    change (EvRender idx :: ?l) with ([EvRender idx] ++ l).
    rewrite !renders_of_app, !failures_of_app, !uploads_of_app, Q1, Q2, Q3.
    split; [now rewrite <- !app_assoc|]. cbn. rewrite app_nil_r. repeat split.
Qed.

Lemma failed_slides_app o1 o2 : failed_slides (o1 ++ o2) = failed_slides o1 ++ failed_slides o2.
Proof. unfold failed_slides. now rewrite flat_map_app. Qed.

Lemma uploaded_slides_app o1 o2 :
  uploaded_slides (o1 ++ o2) = uploaded_slides o1 ++ uploaded_slides o2.
Proof. unfold uploaded_slides. now rewrite flat_map_app. Qed.

Lemma slides_loop_spec pptx_bytes idxs : forall st,
  exists st' evs outcomes,
    for_each idxs (slide_iteration sv pptx_bytes) st = (Ok tt, st')
    /\ trace st' = trace st ++ evs
    /\ map fst outcomes = idxs
    /\ renders_of evs = idxs
    /\ failures_of evs = failed_slides outcomes
    /\ uploads_of evs
       = map (fun ia => (slide_file_name (fst ia), snd ia)) (uploaded_slides outcomes)
    /\ slide_asset_ids (self st')
       = slide_asset_ids (self st) ++ map snd (uploaded_slides outcomes).
Proof.
  induction idxs as [|idx rest IH]; intros st.
  - exists st, [], []. cbn. rewrite !app_nil_r. repeat split.
  - cbn [for_each]. unfold bind.
    destruct (slide_iteration_spec pptx_bytes idx st)
      as (st1 & evs1 & o & Hrun & Htr & R1 & F1 & U1 & Hids).
    rewrite Hrun.
    destruct (IH st1) as (st2 & evs2 & os & Hrun2 & Htr2 & Hfst & R2 & F2 & U2 & Hids2).
    rewrite Hrun2. exists st2, (evs1 ++ evs2), ([(idx, o)] ++ os).
    split; [reflexivity|].
    rewrite Htr2, Htr, Hids2, Hids, <- !app_assoc.
    rewrite renders_of_app, failures_of_app, uploads_of_app, R1, R2, F1, F2, U1, U2.
    rewrite failed_slides_app, uploaded_slides_app, !map_app.
    cbn [map fst app]. rewrite Hfst. repeat split.
Qed.

(** The step as a whole, for the callers of the step. *)
Lemma rasterization_run pptx_bytes slide_count st :
  exists st' evs outcomes,
    pptx_to_heygen_images sv pptx_bytes slide_count st = (Ok tt, st')
    /\ trace st' = trace st ++ evs
    /\ map fst outcomes = Py.range 1 (slide_count + 1)
    /\ renders_of evs = Py.range 1 (slide_count + 1)
    /\ slide_asset_ids (self st')
       = slide_asset_ids (self st) ++ map snd (uploaded_slides outcomes).
Proof.
  unfold pptx_to_heygen_images, bind, logging, emit.
  set (st0 := mkState _ _ _ _ _ _ _).
  destruct (slides_loop_spec pptx_bytes (Py.range 1 (slide_count + 1)) st0)
    as (st' & evs & os & Hrun & Htr & Hfst & R & _ & _ & Hids).
  rewrite Hrun. exists st', (EvLog (log_converting slide_count) :: evs), os.
  split; [reflexivity|]. rewrite Htr, Hids. cbn [st0 trace self].
  change (EvLog ?r :: evs) with ([EvLog r] ++ evs).
  rewrite renders_of_app, R.
  split; [now rewrite <- app_assoc|]. repeat split; assumption.
Qed.

Lemma failure_logs_of_app e1 e2 :
  failure_logs_of (e1 ++ e2) = failure_logs_of e1 ++ failure_logs_of e2.
Proof. unfold failure_logs_of. now rewrite flat_map_app. Qed.

Lemma failures_of_logs evs : failures_of evs = map fst (failure_logs_of evs).
Proof.
  induction evs as [|ev evs IH]; [reflexivity|].
  change (ev :: evs) with ([ev] ++ evs).
  rewrite failures_of_app, failure_logs_of_app, map_app, IH.
  now destruct ev as [| |[]| |].
Qed.

Lemma no_failure_logs evs : failures_of evs = [] -> failure_logs_of evs = [].
Proof. rewrite failures_of_logs. apply map_eq_nil. Qed.

(** The [try] block after the call of Aspose, against the verdict. *)
Lemma slide_try_rest_verdict idx path st1 :
  let st2 := snd (set_temp_file_path (Some path) st1) in
  let verdict :=
    match path, file_lookup path (files st2) with
    | _ :: _, Some [] => Raise (ValueError_empty_slide idx)
    | _ :: _, Some (b :: bs) =>
      fst (upload_to_heygen sv (b :: bs) (slide_file_name idx) st2)
    | _, _ => Raise (FileNotFoundError_open path)
    end in
  exists st' evs,
    (set_temp_file_path (Some path) ;;
     slide_bytes <- open_read path ;;
     match slide_bytes with
     | [] => raise (ValueError_empty_slide idx)
     | _ :: _ =>
       asset_id <- upload_to_heygen sv slide_bytes (slide_file_name idx) ;;
       append_asset asset_id
     end) st1
    = (match verdict with
       | Ok _ => Ok tt
       | Raise e => Raise e
       | Unfinished => Unfinished
       end, st')
    /\ trace st' = trace st1 ++ evs
    /\ renders_of evs = [] /\ failures_of evs = []
    /\ verdict <> Unfinished
    /\ uploads_of evs
       = match verdict with Ok a => [(slide_file_name idx, a)] | _ => [] end
    /\ slide_asset_ids (self st')
       = slide_asset_ids (self st1) ++ match verdict with Ok a => [a] | _ => [] end.
Proof.
  intros st2 verdict. unfold verdict.
  unfold bind at 1. unfold set_temp_file_path at 1. fold st2.
  change (mkState (self st1) (files st1) (Some path) (http_calls st1) (aspose_calls st1)
            (openai_calls st1) (trace st1)) with st2.
  unfold bind at 1. unfold open_read at 1.
  destruct path as [|p0 path].
  { exists st2, []. split; [reflexivity|]. cbn [st2 snd set_temp_file_path trace self].
    rewrite !app_nil_r. repeat split. discriminate. }
  destruct (file_lookup (p0 :: path) (files st2)) as [[|b0 bs]|].
  - exists st2, []. split; [reflexivity|]. cbn [st2 snd set_temp_file_path trace self].
    rewrite !app_nil_r. repeat split. discriminate.
  - destruct (upload_to_heygen_spec (b0 :: bs) (slide_file_name idx) st2)
      as (r & n & evs & Hrun & Q1 & Q2 & Q3).
    unfold bind. rewrite Hrun. cbn [fst].
    destruct r as [a|e|]; [| |contradiction].
    + unfold append_asset, bind, get_self, set_self.
      eexists. exists evs. split; [reflexivity|].
      cbn [advance st2 snd set_temp_file_path self files temp_file_path http_calls
           aspose_calls openai_calls trace slide_asset_ids].
      repeat split; try assumption. discriminate.
    + exists (advance n evs st2), evs. split; [reflexivity|].
      cbn [advance st2 snd set_temp_file_path self trace]. rewrite app_nil_r.
      repeat split; try assumption. discriminate.
  - exists st2, []. split; [reflexivity|]. cbn [st2 snd set_temp_file_path trace self].
    rewrite !app_nil_r. repeat split. discriminate.
Qed.

(** The [try] block started in [st0] ends as the verdict says: it returns
    when the verdict is an asset, which it has appended, and raises the
    exception of the verdict otherwise, with nothing appended. *)
Lemma slide_try_verdict pptx_bytes idx st :
  let st0 := snd (set_temp_file_path None st) in
  let verdict := slide_verdict sv pptx_bytes idx st in
  exists st' evs,
    slide_try sv pptx_bytes idx st0
    = (match verdict with
       | Ok _ => Ok tt
       | Raise e => Raise e
       | Unfinished => Unfinished
       end, st')
    /\ trace st' = trace st ++ EvRender idx :: evs
    /\ renders_of evs = [] /\ failures_of evs = []
    /\ verdict <> Unfinished
    /\ uploads_of evs
       = match verdict with Ok a => [(slide_file_name idx, a)] | _ => [] end
    /\ slide_asset_ids (self st')
       = slide_asset_ids (self st) ++ match verdict with Ok a => [a] | _ => [] end.
Proof.
  intros st0 verdict. unfold verdict, slide_verdict, after_render. fold st0.
  unfold slide_try. unfold bind at 1. unfold aspose_call.
  change (aspose_calls st0) with (aspose_calls st).
  destruct (download_slide_online sv (aspose_calls st) pptx_bytes idx)
    as [e|[path [c|]]].
  { eexists. exists []. split; [reflexivity|].
    cbn [st0 snd set_temp_file_path trace self]. rewrite app_nil_r.
    repeat split. discriminate. }
  all: cbn [snd]; set (st1 := mkState _ _ _ _ _ _ _);
    destruct (slide_try_rest_verdict idx path st1)
      as (st' & evs & Hrun & Htr & Q1 & Q2 & Hfin & Q3 & Hids);
    exists st', evs; (split; [exact Hrun|]);
    rewrite Htr; cbn [st1 st0 snd set_temp_file_path trace]; rewrite <- app_assoc;
    (split; [reflexivity|]); (split; [exact Q1|]); (split; [exact Q2|]);
    (split; [exact Hfin|]); (split; [exact Q3|]); exact Hids.
Qed.

(** One iteration never raises, whatever the verdict on its slide: an asset
    is appended and logged as uploaded, an exception is logged with the
    number of the slide and nothing is appended. *)
Lemma slide_iteration_verdict pptx_bytes idx st :
  exists st' evs,
    slide_iteration sv pptx_bytes idx st = (Ok tt, st')
    /\ trace st' = trace st ++ evs
    /\ renders_of evs = [idx]
    /\ slide_verdict sv pptx_bytes idx st <> Unfinished
    /\ failure_logs_of evs = skipped [(idx, slide_verdict sv pptx_bytes idx st)]
    /\ uploads_of evs
       = map (fun ia => (slide_file_name (fst ia), snd ia))
           (succeeded [(idx, slide_verdict sv pptx_bytes idx st)])
    /\ slide_asset_ids (self st')
       = slide_asset_ids (self st)
         ++ map snd (succeeded [(idx, slide_verdict sv pptx_bytes idx st)]).
Proof.
  destruct (slide_try_verdict pptx_bytes idx st)
    as (st1 & evs & Hrun & Htr & Q1 & Q2 & Hfin & Q3 & Hids).
  unfold slide_iteration. unfold bind at 1.
  change (set_temp_file_path None st)
    with (@Ok unit tt, snd (set_temp_file_path None st)).
  cbv beta iota. unfold try_finally, try_except. rewrite Hrun.
  apply no_failure_logs in Q2.
  unfold skipped, succeeded. cbn [flat_map snd fst app].
  destruct (slide_verdict sv pptx_bytes idx st) as [a|e|]; [| |congruence].
  - destruct (slide_finally_spec st1) as (st2 & Hf & Hself & Htr2).
    rewrite Hf. exists st2, (EvRender idx :: evs).
    split; [reflexivity|]. rewrite Htr2, Htr, Hself, Hids.
    change (EvRender idx :: evs) with ([EvRender idx] ++ evs).
    rewrite renders_of_app, failure_logs_of_app, uploads_of_app, Q1, Q2, Q3.
    repeat split. discriminate.
  - cbn [is_Exception]. unfold logging, emit.
    set (st1' := mkState _ _ _ _ _ _ _).
    destruct (slide_finally_spec st1') as (st2 & Hf & Hself & Htr2).
    rewrite Hf.
    exists st2, (EvRender idx :: evs ++ [EvLog (log_slide_failed idx e)]).
    split; [reflexivity|]. rewrite Htr2, Hself.
    cbn [st1' trace self]. rewrite Htr, Hids.
    change (EvRender idx :: ?l) with ([EvRender idx] ++ l).
    rewrite !renders_of_app, !failure_logs_of_app, !uploads_of_app, Q1, Q2, Q3.
    split; [now rewrite <- !app_assoc|]. cbn. rewrite !app_nil_r.
    repeat split. discriminate.
Qed.

(** The loop never raises: every slide of [idxs] is handed to Aspose, and
    the log, the uploads and the list of assets follow the verdicts. *)
Lemma slides_loop_verdicts pptx_bytes idxs : forall st,
  exists st' evs,
    for_each idxs (slide_iteration sv pptx_bytes) st = (Ok tt, st')
    /\ trace st' = trace st ++ evs
    /\ map fst (slide_verdicts sv pptx_bytes idxs st) = idxs
    /\ renders_of evs = idxs
    /\ Forall (fun v => snd v <> Unfinished) (slide_verdicts sv pptx_bytes idxs st)
    /\ failure_logs_of evs = skipped (slide_verdicts sv pptx_bytes idxs st)
    /\ uploads_of evs
       = map (fun ia => (slide_file_name (fst ia), snd ia))
           (succeeded (slide_verdicts sv pptx_bytes idxs st))
    /\ slide_asset_ids (self st')
       = slide_asset_ids (self st)
         ++ map snd (succeeded (slide_verdicts sv pptx_bytes idxs st)).
Proof.
  induction idxs as [|idx rest IH]; intros st.
  - exists st, []. cbn. rewrite !app_nil_r. repeat split. constructor.
  - cbn [for_each slide_verdicts]. unfold bind.
    destruct (slide_iteration_verdict pptx_bytes idx st)
      as (st1 & evs1 & Hrun & Htr & R1 & Hfin & F1 & U1 & Hids).
    rewrite Hrun. cbn [snd].
    destruct (IH st1) as (st2 & evs2 & Hrun2 & Htr2 & Hfst & R2 & Hfin2 & F2 & U2 & Hids2).
    rewrite Hrun2. exists st2, (evs1 ++ evs2).
    split; [reflexivity|].
    rewrite Htr2, Htr, Hids2, Hids, <- !app_assoc.
    rewrite renders_of_app, failure_logs_of_app, uploads_of_app, R1, R2, F1, F2, U1, U2.
    change (?v :: slide_verdicts sv pptx_bytes rest st1)
      with ([v] ++ slide_verdicts sv pptx_bytes rest st1).
    unfold skipped, succeeded. rewrite !flat_map_app, !map_app.
    cbn [map fst app]. rewrite Hfst.
    repeat split. constructor; [exact Hfin | exact Hfin2].
Qed.

End Rasterization.

(** The three ways a slide can fail, in one deck: slide 1 does not render,
    slide 2 renders to an empty image, the upload of slide 3 fails its three
    attempts; each is logged with its exception and skipped, and slide 4 is
    collected. *)
Example three_kinds_of_failure :
  exists st',
    pptx_to_heygen_images Demo.rough [Byte.x50; Byte.x4b] 4 Demo.start = (Ok tt, st')
    /\ slide_asset_ids (self st') = [Py.JInt 4]
    /\ flat_map (fun r => match r with
                          | log_slide_failed i e => [(i, e)]
                          | _ => []
                          end) (logs_of (trace st'))
       = [(1, LibraryError (Py.lit "render failed"));
          (2, ValueError_empty_slide 2);
          (3, Demo.down)]
    /\ sleeps_of (trace st') = [1; 2]
    /\ files st' = [].
Proof. eexists. split; [vm_compute; reflexivity|]. repeat split. Qed.

(** ** The pipeline *)

Lemma emits_ret P {A} (a : A) : emits P (ret a).
Proof. intros st. exists []. simpl. now rewrite app_nil_r. Qed.

Lemma emits_raise P {A} e : emits P (@raise A e).
Proof. intros st. exists []. simpl. now rewrite app_nil_r. Qed.

Lemma emits_unfinished P {A} : emits P (@unfinished A).
Proof. intros st. exists []. simpl. now rewrite app_nil_r. Qed.

Lemma emits_bind P {A B} (c : M A) (k : A -> M B) :
  emits P c -> (forall a, emits P (k a)) -> emits P (bind c k).
Proof.
  intros Hc Hk st. unfold bind. destruct (Hc st) as (e1 & H1 & F1).
  destruct (c st) as [[a|e|] st1]; cbn [snd] in *; try (now exists e1).
  destruct (Hk a st1) as (e2 & H2 & F2). exists (e1 ++ e2).
  rewrite H2, H1, app_assoc. split; [reflexivity | now apply Forall_app].
Qed.

Lemma emits_try_except P {A} (c : M A) C h :
  emits P c -> (forall e, emits P (h e)) -> emits P (try_except c C h).
Proof.
  intros Hc Hh st. unfold try_except. destruct (Hc st) as (e1 & H1 & F1).
  destruct (c st) as [[a|e|] st1]; cbn [snd] in *; try (now exists e1).
  destruct (C e); [|now exists e1].
  destruct (Hh e st1) as (e2 & H2 & F2). exists (e1 ++ e2).
  rewrite H2, H1, app_assoc. split; [reflexivity | now apply Forall_app].
Qed.

Lemma emits_emit (P : Event -> Prop) ev : P ev -> emits P (emit ev).
Proof. intros H st. exists [ev]. split; [reflexivity | now constructor]. Qed.

Lemma emits_get_self P : emits P get_self.
Proof. intros st. exists []. simpl. now rewrite app_nil_r. Qed.

Lemma emits_for_acc P {A B} (body : A -> B -> M B) xs :
  (forall x acc, emits P (body x acc)) -> forall acc, emits P (for_acc xs acc body).
Proof.
  intros Hb. induction xs as [|x r IH]; intros acc; cbn [for_acc].
  - apply emits_ret.
  - apply emits_bind; [apply Hb | exact IH].
Qed.

Lemma not_render_readings evs : Forall not_render evs -> renders_of evs = [].
Proof.
  induction 1 as [|ev evs Hev _ IH]; [reflexivity|].
  change (ev :: evs) with ([ev] ++ evs). rewrite renders_of_app, IH.
  now destruct ev.
Qed.

Section Pipeline.

Variable sv : Services.

Lemma emits_requests_call P r :
  P (EvRequest r) -> emits P (requests_call sv r).
Proof. intros H st. exists [EvRequest r]. split; [reflexivity | now constructor]. Qed.

Lemma emits_openai_call P r : P (EvChat r) -> emits P (openai_call sv r).
Proof. intros H st. exists [EvChat r]. split; [reflexivity | now constructor]. Qed.

Lemma emits_raise_for_status P r : emits P (raise_for_status r).
Proof.
  unfold raise_for_status. destruct (_ && _); [apply emits_raise | apply emits_ret].
Qed.

Lemma emits_response_json P r : emits P (response_json r).
Proof.
  unfold response_json. destruct (json_body r); [apply emits_ret | apply emits_raise].
Qed.

Lemma emits_subscript P x k : emits P (subscript x k).
Proof.
  unfold subscript. destruct x; try apply emits_raise.
  destruct (Py.lookup k d); [apply emits_ret | apply emits_raise].
Qed.

Lemma emits_dict_get P x k d : emits P (dict_get x k d).
Proof. unfold dict_get. destruct x; try apply emits_raise. apply emits_ret. Qed.

Ltac no_render :=
  repeat first
    [ apply emits_ret | apply emits_raise | apply emits_unfinished
    | apply emits_get_self | apply emits_raise_for_status
    | apply emits_response_json | apply emits_subscript | apply emits_dict_get
    | apply emits_requests_call; exact I | apply emits_openai_call; exact I
    | apply emits_emit; exact I
    | apply emits_bind; [|intros ?]
    | apply emits_try_except; [|intros ?] ].

Lemma request_with_retry_no_render m u hs b :
  emits not_render (request_with_retry sv m u hs b).
Proof.
  unfold request_with_retry. apply emits_bind; [apply emits_get_self|]. intros c.
  induction (Py.range 0 (retry_times c)) as [|a rest IH]; cbn [retry_loop].
  - apply emits_raise.
  - apply emits_bind.
    + unfold logging, sleep. no_render.
      destruct (_ =? _); no_render.
    + intros [resp|]; [apply emits_ret | exact IH].
Qed.

Lemma generate_speaker_notes_no_render texts :
  emits not_render (generate_speaker_notes sv texts).
Proof.
  unfold generate_speaker_notes, logging. apply emits_bind; [no_render|]. intros _.
  apply emits_for_acc. intros [idx text] notes. unfold note_iteration.
  destruct (Py.strip text); [apply emits_ret|].
  unfold note_try, logging. no_render.
  match goal with
  | |- emits _ (match ?choices with _ => _ end) =>
    destruct choices as [|[c|] choices]; no_render
  end.
Qed.

Lemma create_heygen_video_no_render notes video_title :
  emits not_render (create_heygen_video sv notes video_title).
Proof.
  unfold create_heygen_video, logging.
  apply emits_bind; [apply emits_get_self|]. intros c.
  apply emits_bind; [apply request_with_retry_no_render|]. intros resp.
  no_render. destruct (negb _); no_render.
Qed.

Lemma wait_for_video_no_render fuel video_id :
  emits not_render (wait_for_video sv fuel video_id).
Proof.
  unfold wait_for_video, logging.
  apply emits_bind; [apply emits_get_self|]. intros c.
  apply emits_bind; [no_render|]. intros _.
  induction fuel as [|fuel IH]; cbn [wait_loop]; [apply emits_unfinished|].
  apply emits_bind; [apply emits_get_self|]. intros c'.
  apply emits_bind; [apply request_with_retry_no_render|]. intros resp.
  unfold logging, sleep. no_render.
  destruct (_ || _); [no_render|]. destruct (_ || _); no_render. exact IH.
Qed.

Lemma get_file_bytes_spec public_id st :
  get_file_bytes sv public_id st
  = (Ok (fetched sv (http_calls st) public_id),
     advance 1
       (EvRequest (fetch_request sv public_id)
          :: match attempt_result sv (http_calls st) (fetch_request sv public_id) with
             | inl e => [EvLog (log_fetch_failed public_id e)]
             | inr _ => []
             end) st).
Proof.
  unfold get_file_bytes, fetched, attempt_result, fetch_request, try_except, bind,
    requests_call, raise_for_status.
  destruct (requests_request sv (http_calls st) _) as [e|resp].
  - cbn. unfold advance. cbn. now rewrite <- app_assoc.
  - destruct ((400 <=? status_code resp) && (status_code resp <? 600)).
    + cbn. unfold advance. cbn. now rewrite <- app_assoc.
    + reflexivity.
Qed.

(** Steps 1 and 2 fail the call when the deck is not there. *)
Lemma convert_notes_not_found public_id max_slides st :
  fetched sv (http_calls st) public_id = None
  \/ fetched sv (http_calls st) public_id = Some [] ->
  exists st',
    convert_notes sv public_id max_slides st
    = (Raise (FileNotFoundError_pptx public_id), st').
Proof.
  intros H. unfold convert_notes, bind, logging, emit.
  rewrite get_file_bytes_spec. cbn [http_calls].
  destruct H as [-> | ->]; now eexists.
Qed.

Lemma convert_notes_empty_deck public_id max_slides st b bs :
  fetched sv (http_calls st) public_id = Some (b :: bs) ->
  Presentation sv (b :: bs) = inr [] ->
  exists st',
    convert_notes sv public_id max_slides st = (Raise ValueError_no_slides, st').
Proof.
  intros Hf Hp. unfold convert_notes, bind, logging, emit.
  rewrite get_file_bytes_spec. cbn [http_calls]. rewrite Hf.
  unfold of_sum. rewrite Hp. now eexists.
Qed.

(** Steps 1 to 4 on a deck that is there and has slides: the rasterization
    runs over the slides kept by [max_slides], and what follows looks at
    the whole of [slide_asset_ids]. *)
Lemma convert_notes_rasterized public_id max_slides st b bs s0 deck :
  fetched sv (http_calls st) public_id = Some (b :: bs) ->
  Presentation sv (b :: bs) = inr (s0 :: deck) ->
  let slides := limit_slides max_slides (s0 :: deck) in
  exists st1 evs outcomes,
    trace st1 = trace st ++ evs
    /\ renders_of evs = Py.range 1 (len slides + 1)
    /\ map fst outcomes = Py.range 1 (len slides + 1)
    /\ slide_asset_ids (self st1)
       = slide_asset_ids (self st) ++ map snd (uploaded_slides outcomes)
    /\ convert_notes sv public_id max_slides st
       = match slide_asset_ids (self st1) with
         | [] => (Raise RuntimeError_no_slides_converted, st1)
         | _ =>
           generate_speaker_notes sv
             (Py.slice_to (len (slide_asset_ids (self st1))) (map slide_text slides))
             st1
         end.
Proof.
  intros Hf Hp slides. unfold convert_notes.
  unfold bind at 1. unfold logging at 1. unfold emit at 1.
  unfold bind at 1. rewrite get_file_bytes_spec. cbn [http_calls]. rewrite Hf.
  unfold bind at 1. unfold of_sum. rewrite Hp. unfold ret at 1.
  fold slides. set (st0 := advance 1 _ _).
  destruct (rasterization_run sv (b :: bs) (len slides) st0)
    as (st1 & evs & os & Hrun & Htr & Hfst & R & Hids).
  unfold bind at 1. rewrite Hrun. unfold bind, get_self.
  exists st1. eexists. exists os.
  split; [rewrite Htr; cbn [st0 advance trace]; rewrite <- !app_assoc; reflexivity|].
  split.
  { rewrite !renders_of_app, R. cbn [app].
    destruct (attempt_result sv (http_calls st) (fetch_request sv public_id));
      reflexivity. }
  split; [exact Hfst|]. split; [exact Hids|].
  destruct (slide_asset_ids (self st1)); reflexivity.
Qed.

Lemma generate_speaker_notes_run texts st :
  generate_speaker_notes sv texts st
  = (Ok (expected_notes sv (openai_calls st) 1 texts),
     advance_chat (List.length (non_blank texts))
       (EvLog (log_generating (len texts)) :: note_events sv (openai_calls st) 1 texts)
       st).
Proof.
  unfold generate_speaker_notes, bind, logging, emit. rewrite notes_loop_spec.
  cbn [openai_calls app]. f_equal. unfold advance_chat. cbn. now rewrite <- app_assoc.
Qed.

Lemma uploaded_slides_length outcomes :
  (List.length (uploaded_slides outcomes) <= List.length outcomes)%nat.
Proof.
  induction outcomes as [|o r IH]; [reflexivity|].
  change (o :: r) with ([o] ++ r).
  rewrite uploaded_slides_app, !length_app.
  destruct o as [i [a|]]; cbn [uploaded_slides flat_map snd fst app List.length]; lia.
Qed.

Lemma range_length lo hi : List.length (Py.range lo hi) = Z.to_nat (hi - lo).
Proof. unfold Py.range. now rewrite length_map, length_seq. Qed.

Lemma slice_to_length {A} (l : list A) n :
  (n <= List.length l)%nat -> List.length (Py.slice_to (Z.of_nat n) l) = n.
Proof.
  intros H. unfold Py.slice_to.
  replace (0 <=? Z.of_nat n) with true by (symmetry; apply Z.leb_le; lia).
  rewrite length_firstn, Nat2Z.id. lia.
Qed.

(** On an object whose list of assets is empty when [convert] starts, the
    narrations handed to the job builder are as many as the assets. *)
Lemma fresh_notes_match_assets public_id max_slides st notes st' :
  slide_asset_ids (self st) = [] ->
  convert_notes sv public_id max_slides st = (Ok notes, st') ->
  len notes = len (slide_asset_ids (self st')).
Proof.
  intros Hfresh Hrun.
  destruct (fetched sv (http_calls st) public_id) as [[|b bs]|] eqn:Hf.
  1, 3: destruct (@convert_notes_not_found public_id max_slides st) as [x Hx];
    [now (left + right) | congruence].
  destruct (Presentation sv (b :: bs)) as [e|[|s0 deck]] eqn:Hp.
  - unfold convert_notes, bind, logging, emit in Hrun.
    rewrite get_file_bytes_spec in Hrun. cbn [http_calls] in Hrun.
    rewrite Hf in Hrun. unfold of_sum in Hrun. rewrite Hp in Hrun. discriminate.
  - destruct (@convert_notes_empty_deck public_id max_slides st b bs Hf Hp) as [x Hx].
    congruence.
  - destruct (@convert_notes_rasterized public_id max_slides st b bs s0 deck Hf Hp)
      as (st1 & evs & os & _ & _ & Hfst & Hids & Heq).
    rewrite Heq in Hrun. rewrite Hfresh in Hids. cbn [app] in Hids.
    destruct (slide_asset_ids (self st1)) as [|a ids] eqn:Hids1; [discriminate|].
    rewrite generate_speaker_notes_run in Hrun. injection Hrun as <- <-.
    cbn [advance_chat self]. rewrite Hids1. unfold len. f_equal.
    rewrite expected_notes_length. apply slice_to_length.
    rewrite length_map, Hids, length_map.
    etransitivity; [apply uploaded_slides_length|].
    rewrite <- (length_map fst), Hfst, range_length. unfold len. lia.
Qed.

(** On such an object, a deck none of whose slides was converted fails the
    call. *)
Lemma fresh_nothing_converted public_id max_slides st b bs s0 deck :
  slide_asset_ids (self st) = [] ->
  fetched sv (http_calls st) public_id = Some (b :: bs) ->
  Presentation sv (b :: bs) = inr (s0 :: deck) ->
  exists st1 evs outcomes,
    trace st1 = trace st ++ evs
    /\ map fst outcomes = Py.range 1 (len (limit_slides max_slides (s0 :: deck)) + 1)
    /\ (uploaded_slides outcomes = [] ->
        convert_notes sv public_id max_slides st
        = (Raise RuntimeError_no_slides_converted, st1)).
Proof.
  intros Hfresh Hf Hp.
  destruct (@convert_notes_rasterized public_id max_slides st b bs s0 deck Hf Hp)
    as (st1 & evs & os & Htr & _ & Hfst & Hids & Heq).
  exists st1, evs, os. split; [exact Htr|]. split; [exact Hfst|].
  intros Hnone. rewrite Heq, Hids, Hfresh, Hnone. reflexivity.
Qed.

(** The fatal failures of steps 1 and 2, on any object. *)
Lemma convert_deck_failures fuel public_id video_title max_slides st :
  (fetched sv (http_calls st) public_id = None
   \/ fetched sv (http_calls st) public_id = Some [] ->
   raised (fst (convert sv fuel public_id video_title max_slides st))
   = Some (FileNotFoundError_pptx public_id))
  /\ (forall b bs,
        fetched sv (http_calls st) public_id = Some (b :: bs) ->
        Presentation sv (b :: bs) = inr [] ->
        raised (fst (convert sv fuel public_id video_title max_slides st))
        = Some ValueError_no_slides).
Proof.
  split.
  - intros H. destruct (@convert_notes_not_found public_id max_slides st H) as [x Hx].
    unfold convert, bind. now rewrite Hx.
  - intros b bs Hf Hp.
    destruct (@convert_notes_empty_deck public_id max_slides st b bs Hf Hp) as [x Hx].
    unfold convert, bind. now rewrite Hx.
Qed.

(** What steps 1 to 4 raise, [convert] raises. *)
Lemma convert_raises fuel public_id video_title max_slides st e st' :
  convert_notes sv public_id max_slides st = (Raise e, st') ->
  convert sv fuel public_id video_title max_slides st = (Raise e, st').
Proof. intros H. unfold convert, bind. now rewrite H. Qed.

(** C10. With [max_slides = 0] nothing is cut off: the slides kept are the
    slides of the deck, the call is the call made with no limit, and on a
    deck that is there and has slides the rasterization is run for every
    one of them. *)
Theorem C10_zero_max_slides_is_no_limit fuel public_id video_title st :
  (forall slides, limit_slides (Some 0) slides = slides)
  /\ convert sv fuel public_id video_title (Some 0) st
     = convert sv fuel public_id video_title None st
  /\ (forall b bs s0 deck,
        fetched sv (http_calls st) public_id = Some (b :: bs) ->
        Presentation sv (b :: bs) = inr (s0 :: deck) ->
        exists evs,
          trace (snd (convert sv fuel public_id video_title (Some 0) st))
          = trace st ++ evs
          /\ renders_of evs = Py.range 1 (len (s0 :: deck) + 1)).
Proof.
  split; [reflexivity|]. split; [reflexivity|].
  intros b bs s0 deck Hf Hp.
  destruct (@convert_notes_rasterized public_id (Some 0) st b bs s0 deck Hf Hp)
    as (st1 & evs & os & Htr & R & _ & _ & Heq).
  cbn [limit_slides Z.eqb] in R, Heq.
  unfold convert.
  match goal with |- context [bind _ ?K st] => set (k := K) end.
  assert (Hk : forall texts, emits not_render (bind (generate_speaker_notes sv texts) k)).
  { intros texts.
    apply emits_bind; [apply generate_speaker_notes_no_render|]. intros notes.
    unfold k. apply emits_bind; [apply create_heygen_video_no_render|]. intros vid.
    apply emits_bind; [apply wait_for_video_no_render|]. intros u.
    apply emits_ret. }
  clearbody k. unfold bind at 1. rewrite Heq.
  destruct (slide_asset_ids (self st1)) as [|a ids].
  { exists evs. now split. }
  set (texts := Py.slice_to _ _).
  change (exists evs0,
    trace (snd (bind (generate_speaker_notes sv texts) k st1)) = trace st ++ evs0
    /\ renders_of evs0 = Py.range 1 (len (s0 :: deck) + 1)).
  pose proof (Hk texts) as Hrest.
  destruct (Hrest st1) as (evs2 & Htr2 & Hq).
  exists (evs ++ evs2). rewrite Htr2, Htr, <- app_assoc. split; [reflexivity|].
  rewrite renders_of_app, R, (not_render_readings Hq). apply app_nil_r.
Qed.

End Pipeline.

(** On the deck of five slides, [max_slides = 0] has all five rendered. *)
Lemma C10_zero_max_slides_is_no_limit_witness :
  fetched Demo.five (http_calls Demo.start) Demo.deck_id = Some [Byte.x50; Byte.x4b]
  /\ Presentation Demo.five [Byte.x50; Byte.x4b] = inr (Demo.deck 5)
  /\ exists evs,
       trace (snd (convert Demo.five 3 Demo.deck_id None (Some 0) Demo.start))
       = trace Demo.start ++ evs
       /\ renders_of evs = [1; 2; 3; 4; 5].
Proof.
  split; [reflexivity|]. split; [reflexivity|].
  destruct (C10_zero_max_slides_is_no_limit Demo.five 3 Demo.deck_id None Demo.start)
    as (_ & _ & H).
  exact (H Byte.x50 [Byte.x4b] _ _ eq_refl eq_refl).
Defined.

(** The run of the spec: [max_slides = 2] on five slides processes two,
    [max_slides = 0] and no limit process five. *)
Example five_slides_limits :
  let processed max_slides :=
    option_map slides_processed
      (returned (fst (convert Demo.five 3 Demo.deck_id None max_slides Demo.start))) in
  processed (Some 2) = Some 2
  /\ processed (Some 0) = Some 5
  /\ processed None = Some 5.
Proof. vm_compute. repeat split. Qed.

(** ** The pipeline on an object used twice

    [slide_asset_ids] is set to the empty list when the object is made
    (l.114) and only ever appended to: [convert] does not empty it. The
    second call on one object finds the assets of the first. *)

(** C1. After the rasterization step the sequence of assets should hold
    exactly the assets of the slides that succeeded, in ascending order:
    for the slides 1 to 5 with slide 3 failing, the four assets of 1, 2, 4
    and 5. On the second call of [convert] on one object it does not. The
    step does isolate the failure again (it hands 1 to 5 to Aspose, logs
    slide 3 as failed, uploads 1, 2, 4 and 5 and raises nothing), but
    [slide_asset_ids] then holds eight assets: the four of the first call
    before the four of this one. *)
Theorem C1_second_call_keeps_first_assets :
  let first := convert Demo.third_fails 3 Demo.deck_id None None Demo.start in
  let second := convert Demo.third_fails 3 Demo.deck_id None None (snd first) in
  let evs := events_since (snd first) (snd second) in
  slide_asset_ids (self (snd first)) = [Py.JInt 1; Py.JInt 2; Py.JInt 4; Py.JInt 5]
  /\ raised (fst first) = None
  /\ raised (fst second) = None
  /\ renders_of evs = [1; 2; 3; 4; 5]
  /\ failures_of evs = [3]
  /\ map snd (uploads_of evs) = [Py.JInt 1; Py.JInt 2; Py.JInt 4; Py.JInt 5]
  /\ slide_asset_ids (self (snd second))
     = [Py.JInt 1; Py.JInt 2; Py.JInt 4; Py.JInt 5;
        Py.JInt 1; Py.JInt 2; Py.JInt 4; Py.JInt 5].
Proof. vm_compute. repeat split. Qed.

(** C2. The narrations handed to the job builder should be as many as the
    collected assets. On the second call of [convert] on one object they
    are not: with a deck of one slide and every service up, the second call
    reaches the job builder with one narration and two assets. *)
Theorem C2_second_call_misaligned :
  let first := convert Demo.healthy 3 Demo.deck_id None None Demo.start in
  let at_job := convert_notes Demo.healthy Demo.deck_id None (snd first) in
  option_map slides_processed (returned (fst first)) = Some 1
  /\ option_map (@len Py.str) (returned (fst at_job)) = Some 1
  /\ len (slide_asset_ids (self (snd at_job))) = 2.
Proof. vm_compute. repeat split. Qed.

(** On a first call the counts agree, but a slide skipped in the middle of
    the deck shifts the pairing: the assets are those of the slides 1 and 3,
    the narrations those of the texts of the slides 1 and 2. *)
Example first_call_pairs_by_position :
  let at_job := convert_notes Demo.gapped Demo.deck_id None Demo.start in
  slide_asset_ids (self (snd at_job)) = [Py.JInt 1; Py.JInt 3]
  /\ chats_of (trace (snd at_job))
     = [chat_request (Py.lit "one"); chat_request (Py.lit "two")]
  /\ option_map (@len Py.str) (returned (fst at_job)) = Some 2.
Proof. vm_compute. repeat split. Qed.

(** C8. A call whose rasterization converts no slide should fail with the
    no-slides-converted error. On the second call on one object it does
    not: with a deck of one slide and Aspose down after the first call, the
    second call logs its only slide as failed, uploads nothing, raises
    nothing and returns a result counting one slide. *)
Theorem C8_second_call_hides_failed_rasterization :
  let first := convert Demo.outage 3 Demo.deck_id None None Demo.start in
  let second := convert Demo.outage 3 Demo.deck_id None None (snd first) in
  let evs := events_since (snd first) (snd second) in
  option_map slides_processed (returned (fst first)) = Some 1
  /\ failures_of evs = [1]
  /\ uploads_of evs = []
  /\ raised (fst second) = None
  /\ option_map slides_processed (returned (fst second)) = Some 1.
Proof. vm_compute. repeat split. Qed.

(** C9. Two calls of [convert] with the same input against services that
    answer the same way should report the same [slides_processed]. They
    do not: with a deck of two slides the second of which never renders,
    the first call reports one slide and the second reports two; the
    titles are the same. *)
Theorem C9_second_call_counts_differ :
  let first := convert Demo.lossy 3 Demo.deck_id None None Demo.start in
  let second := convert Demo.lossy 3 Demo.deck_id None None (snd first) in
  option_map slides_processed (returned (fst first)) = Some 1
  /\ option_map slides_processed (returned (fst second)) = Some 2
  /\ option_map title (returned (fst first)) = option_map title (returned (fst second)).
Proof. vm_compute. repeat split. Qed.

(** * Further properties of the code *)

(** ** The retry wrapper, for any [retry_times] *)

Section RetryBounds.

Variable sv : Services.

Lemma pace_of_app e1 e2 : pace_of (e1 ++ e2) = pace_of e1 ++ pace_of e2.
Proof. unfold pace_of. now rewrite flat_map_app. Qed.

Lemma warnings_of_app e1 e2 : warnings_of (e1 ++ e2) = warnings_of e1 ++ warnings_of e2.
Proof. unfold warnings_of. now rewrite flat_map_app. Qed.

Lemma call_of_repeat m u hs b k :
  map call_of (repeat (mkRequest m u hs b 90) k) = repeat (m, u, hs, 90) k.
Proof. induction k as [|k IH]; [reflexivity|]. cbn [repeat map]. now rewrite IH. Qed.

(** The loop over what is left of [range(retry_times)], from attempt [a]
    on: how many calls it makes, in what order it asks and sleeps, what it
    logs and what it can return. *)
Lemma retry_loop_bounded m u hs b : forall n a st,
  Z.to_nat (retry_times (self st) - a) = n ->
  0 <= a ->
  exists r k evs,
    retry_loop sv (Py.range a (retry_times (self st))) m u hs b st
    = (r, advance k evs st)
    /\ (k <= n)%nat /\ (1 <= n -> 1 <= k)%nat
    /\ requests_of evs = repeat (mkRequest m u hs b 90) k
    /\ sleeps_of evs = map (fun j => 2 ^ (a + Z.of_nat j)) (seq 0 (k - 1))
    /\ pace_of evs = backoff_pace a k
    /\ (exists f, warnings_of evs = map (fun j => a + Z.of_nat j + 1) (seq 0 f)
                  /\ (f = k - 1 \/ f = k)%nat
                  /\ (forall resp, r = Ok resp -> f = (k - 1)%nat))
    /\ match r with
       | Ok resp =>
         attempt_result sv (http_calls st + (k - 1)) (mkRequest m u hs b 90) = inr resp
       | Raise e =>
         (n = 0%nat /\ e = RuntimeError_retries_exhausted)
         \/ attempt_result sv (http_calls st + (k - 1)) (mkRequest m u hs b 90) = inl e
       | Unfinished => False
       end.
Proof.
  induction n as [|n IH]; intros a st Hn Ha.
  - rewrite range_nil by lia. exists (Raise RuntimeError_retries_exhausted), 0%nat, [].
    cbn [retry_loop]. unfold raise. rewrite advance_0_nil.
    do 6 (split; [reflexivity || lia|]). split; [|now left].
    exists 0%nat. split; [reflexivity|]. split; [now left | discriminate].
  - rewrite range_cons by lia.
    set (r0 := mkRequest m u hs b 90).
    destruct (attempt_result sv (http_calls st) r0) as [e|resp] eqn:Hat.
    + destruct (is_RequestException e) eqn:He.
      * destruct (Z.eq_dec a (retry_times (self st) - 1)) as [Hl|Hl].
        -- rewrite retry_loop_last with (e := e) by assumption.
           exists (Raise e), 1%nat. eexists. split; [reflexivity|].
           do 5 (split; [reflexivity || lia|]). split.
           ++ exists 1%nat. cbn. rewrite Z.add_0_r.
              split; [reflexivity|]. split; [now right | discriminate].
           ++ right. now rewrite Nat.add_0_r.
        -- rewrite retry_loop_again with (e := e) by assumption.
           set (st1 := advance 1 _ st).
           destruct (IH (a + 1) st1)
             as (r & k & evs & Hrun & Hk & Hk1 & Hreq & Hsl & Hpace & Hwarn & Hr).
           { cbn [st1 advance self]. lia. }
           { lia. }
           change (retry_times (self st)) with (retry_times (self st1)).
           rewrite Hrun. unfold st1. rewrite advance_advance.
           assert (Hkpos : (1 <= k)%nat) by (apply Hk1; lia).
           exists r, (1 + k)%nat. eexists. split; [reflexivity|].
           split; [lia|]. split; [lia|]. split; [|split; [|split; [|split]]].
           ++ rewrite requests_of_app, Hreq. reflexivity.
           ++ rewrite sleeps_of_app, Hsl. cbn [backoff_events app sleeps_of flat_map].
              replace (1 + k - 1)%nat with (S (k - 1)) by lia.
              rewrite <- cons_seq, <- seq_shift. cbn [map]. rewrite map_map, Z.add_0_r.
              f_equal. apply map_ext. intros j. f_equal. lia.
           ++ rewrite pace_of_app, Hpace.
              destruct k as [|k']; [lia|]. reflexivity.
           ++ destruct Hwarn as (f & Hw & Hf & Hok).
              exists (S f). rewrite warnings_of_app, Hw.
              cbn [backoff_events app warnings_of flat_map seq map].
              rewrite <- seq_shift, map_map, Z.add_0_r.
              split; [|split].
              ** f_equal. apply map_ext. intros j. lia.
              ** lia.
              ** intros resp Hresp. rewrite (Hok resp Hresp). lia.
           ++ cbn [st1 advance http_calls] in Hr.
              replace (http_calls st + (1 + k - 1))%nat
                with (1 + http_calls st + (k - 1))%nat by lia.
              destruct r as [resp|e'|]; [exact Hr| |exact Hr].
              destruct Hr as [[Hr _]|Hr]; [lia | now right].
      * rewrite retry_loop_other with (e := e) by assumption.
        exists (Raise e), 1%nat. eexists. split; [reflexivity|].
        do 5 (split; [reflexivity || lia|]). split.
        -- exists 0%nat. split; [reflexivity|]. split; [now left | discriminate].
        -- right. now rewrite Nat.add_0_r.
    + rewrite retry_loop_ok with (resp := resp) by assumption.
      exists (Ok resp), 1%nat. eexists. split; [reflexivity|].
      do 5 (split; [reflexivity || lia|]). split.
      * exists 0%nat. split; [reflexivity|]. split; [now left | reflexivity].
      * now rewrite Nat.add_0_r.
Qed.

(** X1. Whatever the transport does, one call of the wrapper ends after at
    most [retry_times] requests, each with the method, URL and headers it
    was given and timeout 90. Requests and sleeps alternate: a request, a
    sleep of 1, a request, a sleep of 2, and so on by powers of two, ending
    with a request and never with a sleep. The attempts that failed with a
    request exception are logged, numbered from 1: all the requests but the
    last, or all of them; all but the last when a response is returned. The
    object is left as it was. When the body is no stream, every request is
    the same request; for a stream the bytes a retry sends are not stated
    (they depend on what the attempts before it read). *)
Theorem retry_makes_at_most_retry_times_requests m u hs b st :
  exists r st' evs k,
    request_with_retry sv m u hs b st = (r, st')
    /\ trace st' = trace st ++ evs
    /\ self st' = self st
    /\ http_calls st' = (http_calls st + k)%nat
    /\ Z.of_nat k <= Z.max 0 (retry_times (self st))
    /\ pace_of evs = backoff_pace 0 k
    /\ map call_of (requests_of evs) = repeat (m, u, hs, 90) k
    /\ (is_stream b = false -> requests_of evs = repeat (mkRequest m u hs b 90) k)
    /\ (exists f, warnings_of evs = map (fun j => Z.of_nat j + 1) (seq 0 f)
                  /\ (f = k - 1 \/ f = k)%nat
                  /\ (forall resp, r = Ok resp -> f = (k - 1)%nat))
    /\ r <> Unfinished.
Proof.
  unfold request_with_retry, bind, get_self.
  destruct (@retry_loop_bounded m u hs b _ 0 st eq_refl (Z.le_refl 0))
    as (r & k & evs & Hrun & Hk & _ & Hreq & _ & Hpace & Hwarn & Hr).
  exists r, (advance k evs st), evs, k. split; [exact Hrun|].
  split; [reflexivity|]. split; [reflexivity|].
  split; [cbn [advance http_calls]; lia|]. split; [lia|].
  split; [exact Hpace|].
  split; [rewrite Hreq; apply call_of_repeat|].
  split; [intros _; exact Hreq|].
  split; [exact Hwarn|].
  destruct r; [discriminate | discriminate | contradiction].
Qed.

(** X2. With [retry_times] zero or negative the wrapper sends nothing: it
    raises the retries-exhausted RuntimeError of l.142 at once and leaves
    the state untouched. With [retry_times] at least 1 it always sends. *)
Theorem retry_times_below_one_sends_nothing m u hs b st :
  (retry_times (self st) <= 0 ->
   request_with_retry sv m u hs b st = (Raise RuntimeError_retries_exhausted, st))
  /\ (1 <= retry_times (self st) ->
      exists evs,
        trace (snd (request_with_retry sv m u hs b st))
        = trace st ++ EvRequest (mkRequest m u hs b 90) :: evs).
Proof.
  split.
  - intros H. unfold request_with_retry, bind, get_self. now rewrite range_nil.
  - apply request_with_retry_first.
Qed.

(** X3. An exception of the transport that is no [RequestException] is not
    retried: the wrapper raises it after the one request, without a log
    line and without sleeping. *)
Theorem other_exceptions_are_not_retried m u hs b st e :
  1 <= retry_times (self st) ->
  attempt_result sv (http_calls st) (mkRequest m u hs b 90) = inl e ->
  is_RequestException e = false ->
  request_with_retry sv m u hs b st
  = (Raise e, advance 1 [EvRequest (mkRequest m u hs b 90)] st).
Proof.
  intros Hrt Ha He. unfold request_with_retry, bind, get_self.
  rewrite range_cons by lia. now apply retry_loop_other.
Qed.

(** X4. A response the wrapper returns never has a 4xx or 5xx status: it is
    the answer of the transport to the last request made, and that answer
    passed [raise_for_status]. *)
Theorem returned_response_passed_raise_for_status m u hs b st resp st' :
  request_with_retry sv m u hs b st = (Ok resp, st') ->
  (status_code resp < 400 \/ 600 <= status_code resp)
  /\ (1 <= http_calls st' - http_calls st)%nat
  /\ requests_request sv (http_calls st' - 1) (mkRequest m u hs b 90) = inr resp.
Proof.
  unfold request_with_retry, bind, get_self. intros Hrun.
  destruct (@retry_loop_bounded m u hs b _ 0 st eq_refl (Z.le_refl 0))
    as (r & k & evs & Hrun' & Hk & Hk1 & _ & _ & _ & _ & Hr).
  rewrite Hrun' in Hrun. injection Hrun as -> <-.
  assert (Hpos : (1 <= k)%nat).
  { destruct k; [|lia]. exfalso.
    destruct (Z.to_nat (retry_times (self st) - 0)) eqn:E; [|specialize (Hk1 ltac:(lia)); lia].
    rewrite range_nil in Hrun' by lia. discriminate. }
  cbn [advance http_calls].
  replace (k + http_calls st - 1)%nat with (http_calls st + (k - 1))%nat by lia.
  unfold attempt_result in Hr.
  destruct (requests_request sv _ _) as [e|resp']; [discriminate|].
  destruct ((400 <=? status_code resp') && (status_code resp' <? 600)) eqn:Hs;
    [discriminate|].
  injection Hr as ->. split; [|split; [lia | reflexivity]].
  apply andb_false_iff in Hs. destruct Hs as [Hs|Hs]; [left | right]; lia.
Qed.

End RetryBounds.

(** A 503, a refused connection, then a 200: three requests with sleeps of
    1 and 2 between them, the first two logged as failed. *)
Lemma retry_makes_at_most_retry_times_requests_witness :
  let sv := Demo.scripted [inr (mkResponse 503 [] None); inl Demo.down;
                           inr (Demo.json_response Py.JNull)] in
  let run := request_with_retry sv (Py.lit "GET") url_generate [] no_body Demo.start in
  exists evs,
    fst run = Ok (Demo.json_response Py.JNull)
    /\ trace (snd run) = trace Demo.start ++ evs
    /\ pace_of evs = [None; Some 1; None; Some 2; None]
    /\ warnings_of evs = [1; 2]
    /\ requests_of evs = repeat (mkRequest (Py.lit "GET") url_generate [] no_body 90) 3.
Proof.
  intros sv run.
  destruct (retry_makes_at_most_retry_times_requests sv (Py.lit "GET") url_generate []
              no_body Demo.start)
    as (r & st' & evs & k & Hrun & Htr & _ & Hcalls & _ & Hpace & _ & Hsame
        & (f & Hw & _ & Hok) & _).
  fold run in Hrun.
  assert (Hfst : fst run = Ok (Demo.json_response Py.JNull)) by (vm_compute; reflexivity).
  assert (Hsnd : http_calls (snd run) = 3%nat) by (vm_compute; reflexivity).
  rewrite Hrun in Hfst, Hsnd |- *. cbn [fst snd] in Hfst, Hsnd |- *.
  assert (Hk : k = 3%nat).
  { rewrite Hcalls in Hsnd. change (http_calls Demo.start) with 0%nat in Hsnd. lia. }
  subst k. rewrite (Hok _ Hfst) in Hw.
  exists evs. split; [exact Hfst|]. split; [exact Htr|]. split; [exact Hpace|].
  split; [exact Hw | exact (Hsame eq_refl)].
Defined.

(** A dead transport and [retry_times = 0]: nothing is sent; with the
    [retry_times] of l.112 the request is sent. *)
Lemma retry_times_below_one_sends_nothing_witness :
  retry_times (self (Demo.with_retry_times 0)) <= 0
  /\ request_with_retry (Demo.scripted []) (Py.lit "GET") url_generate [] no_body
       (Demo.with_retry_times 0)
     = (Raise RuntimeError_retries_exhausted, Demo.with_retry_times 0)
  /\ 1 <= retry_times (self Demo.start)
  /\ exists evs,
       trace (snd (request_with_retry (Demo.scripted []) (Py.lit "GET") url_generate
                     [] no_body Demo.start))
       = trace Demo.start
         ++ EvRequest (mkRequest (Py.lit "GET") url_generate [] no_body 90) :: evs.
Proof.
  destruct (retry_times_below_one_sends_nothing (Demo.scripted []) (Py.lit "GET")
              url_generate [] no_body (Demo.with_retry_times 0)) as [H0 _].
  destruct (retry_times_below_one_sends_nothing (Demo.scripted []) (Py.lit "GET")
              url_generate [] no_body Demo.start) as [_ H1].
  split; [simpl; lia|]. split; [apply H0; simpl; lia|].
  split; [simpl; lia|]. apply H1. simpl. lia.
Defined.

(** A transport raising something else than a request exception is asked
    once. *)
Lemma other_exceptions_are_not_retried_witness :
  let sv := Demo.scripted [inl TypeError] in
  1 <= retry_times (self Demo.start)
  /\ is_RequestException TypeError = false
  /\ request_with_retry sv (Py.lit "GET") url_generate [] no_body Demo.start
     = (Raise TypeError,
        advance 1 [EvRequest (mkRequest (Py.lit "GET") url_generate [] no_body 90)]
          Demo.start).
Proof.
  intros sv. split; [simpl; lia|]. split; [reflexivity|].
  apply other_exceptions_are_not_retried; [simpl; lia | reflexivity | reflexivity].
Defined.

(** After a 503 and a 200 the wrapper returns the 200. *)
Lemma returned_response_passed_raise_for_status_witness :
  let busy := mkResponse 503 [] None in
  let fine := Demo.json_response Py.JNull in
  let sv := Demo.scripted [inr busy; inr fine] in
  exists st',
    request_with_retry sv (Py.lit "GET") url_generate [] no_body Demo.start
    = (Ok fine, st')
    /\ (status_code fine < 400 \/ 600 <= status_code fine)
    /\ http_calls st' = 2%nat.
Proof.
  intros busy fine sv. eexists. split; [vm_compute; reflexivity|].
  split; [|reflexivity].
  eapply (@returned_response_passed_raise_for_status sv (Py.lit "GET") url_generate
            [] no_body Demo.start fine).
  vm_compute. reflexivity.
Defined.

(** ** The fetch of the deck *)

Section Fetch.

Variable sv : Services.

(** X5. [get_file_bytes] never raises and never retries: it sends one GET
    with timeout 60 and does not sleep; it returns the content of the
    answer when the transport answered without a 4xx or 5xx status, and
    otherwise logs the exception once and returns None. *)
Theorem get_file_bytes_asks_once_and_never_raises public_id st :
  exists result st' evs,
    get_file_bytes sv public_id st = (Ok result, st')
    /\ trace st' = trace st ++ evs
    /\ self st' = self st
    /\ http_calls st' = S (http_calls st)
    /\ requests_of evs
       = [mkRequest (Py.lit "get") (url_raw (cloudinary_url sv public_id)) [] no_body 60]
    /\ sleeps_of evs = []
    /\ match requests_request sv (http_calls st) (fetch_request sv public_id) with
       | inl e => result = None /\ logs_of evs = [log_fetch_failed public_id e]
       | inr resp =>
         if (400 <=? status_code resp) && (status_code resp <? 600)
         then result = None
              /\ logs_of evs = [log_fetch_failed public_id (HTTPError (status_code resp))]
         else result = Some (content resp) /\ logs_of evs = []
       end.
Proof.
  rewrite get_file_bytes_spec. do 3 eexists. split; [reflexivity|].
  split; [reflexivity|]. split; [reflexivity|]. split; [reflexivity|].
  unfold fetched, attempt_result.
  destruct (requests_request sv (http_calls st) (fetch_request sv public_id)) as [e|resp].
  - repeat split.
  - destruct ((400 <=? status_code resp) && (status_code resp <? 600)); repeat split.
Qed.

End Fetch.

(** ** Construction of the converter *)

(** X6. The constructor cannot succeed: [_validate_config] is called
    (l.93) before [avatar_id] and [voice_id] are assigned (l.109-110), and
    it reads [self.avatar_id] while building its list, so every call of
    [PPTXToHeyGenVideo(...)] raises AttributeError on [avatar_id], whatever
    the environment holds, and never the ValueError naming a missing
    variable. *)
Theorem init_always_raises_AttributeError (env : Env) (storage_manager : attr) :
  init env storage_manager = inl (NoAttribute (Py.lit "avatar_id")).
Proof. reflexivity. Qed.

Lemma check_required_ok required :
  check_required required = inr tt
  <-> Forall (fun item => attr_truthy (snd item) = true) required.
Proof.
  induction required as [|[name value] rest IH]; cbn [check_required].
  - split; [constructor | reflexivity].
  - destruct (attr_truthy value) eqn:Hv.
    + rewrite IH. split; [now constructor | now inversion 1].
    + split; [discriminate|]. inversion 1; subst. cbn in *. congruence.
Qed.

Lemma check_required_missing required name :
  check_required required = inl (MissingEnv name) ->
  exists before value after,
    required = before ++ (name, value) :: after
    /\ attr_truthy value = false
    /\ Forall (fun item => attr_truthy (snd item) = true) before.
Proof.
  induction required as [|[n v] rest IH]; cbn [check_required]; [discriminate|].
  destruct (attr_truthy v) eqn:Hv.
  - intros H. destruct (IH H) as (before & value & after & -> & Hf & Hb).
    exists ((n, v) :: before), value, after. repeat split; [exact Hf|].
    now constructor.
  - intros H. injection H as ->. exists [], v, rest. repeat split; [exact Hv|constructor].
Qed.

(** X7. On an object that has the six attributes, [_validate_config]
    returns exactly when all six are set and non-empty; otherwise it raises
    the ValueError naming the variable of the first one, in the order of
    l.119-124, that is unset or empty. *)
Theorem validate_config_names_first_missing (self : Object) (values : list attr) :
  map (getattr self) (map snd required_config) = map inr values ->
  let required := combine (map fst required_config) values in
  (validate_config self = inr tt
   <-> Forall (fun v => attr_truthy v = true) values)
  /\ (forall name,
        validate_config self = inl (MissingEnv name) ->
        exists before value after,
          required = before ++ (name, value) :: after
          /\ attr_truthy value = false
          /\ Forall (fun item => attr_truthy (snd item) = true) before)
  /\ (forall attribute, validate_config self <> inl (NoAttribute attribute)).
Proof.
  intros Hread required.
  destruct values as [|v1 [|v2 [|v3 [|v4 [|v5 [|v6 [|v7 rest]]]]]]]; try discriminate.
  cbn [map required_config snd] in Hread.
  injection Hread as H1 H2 H3 H4 H5 H6.
  assert (Hv : validate_config self = check_required required).
  { unfold validate_config. cbn [read_required required_config].
    now rewrite H1, H2, H3, H4, H5, H6. }
  rewrite Hv. split; [|split].
  - rewrite check_required_ok. unfold required. cbn [combine map fst required_config].
    split; intros H;
      repeat match goal with
             | H : Forall _ (_ :: _) |- _ => inversion H; clear H; subst
             end;
      repeat constructor; assumption.
  - intros name. apply check_required_missing.
  - intros attribute H.
    assert (Hnot : forall l, check_required l <> inl (NoAttribute attribute)).
    { induction l as [|[n v] l IH]; cbn [check_required]; [discriminate|].
      destruct (attr_truthy v); [exact IH | discriminate]. }
    exact (Hnot _ H).
Qed.

(** With [voice_id] empty the ValueError names HEYGEN_VOICE_ID. *)
Lemma validate_config_names_first_missing_witness :
  let values :=
    [Val (Py.JStr (Py.lit "hk")); Val (Py.JStr (Py.lit "ok"));
     Val (Py.JStr (Py.lit "id")); Val (Py.JStr (Py.lit "secret"));
     Val (Py.JStr (Py.lit "avatar")); Val (Py.JStr [])] in
  map (getattr Demo.unvoiced) (map snd required_config) = map inr values
  /\ validate_config Demo.unvoiced = inl (MissingEnv (Py.lit "HEYGEN_VOICE_ID"))
  /\ ~ Forall (fun v => attr_truthy v = true) values
  /\ exists before value after,
       combine (map fst required_config) values
       = before ++ (Py.lit "HEYGEN_VOICE_ID", value) :: after
       /\ attr_truthy value = false
       /\ Forall (fun item => attr_truthy (snd item) = true) before.
Proof.
  intros values. split; [reflexivity|]. split; [reflexivity|].
  destruct (@validate_config_names_first_missing Demo.unvoiced values eq_refl)
    as (Hok & Hmiss & _).
  split.
  - intros Hall. apply Hok in Hall. discriminate Hall.
  - exact (Hmiss (Py.lit "HEYGEN_VOICE_ID") eq_refl).
Defined.

(** ** What the steps emit *)

Lemma emits_weaken (P Q : Event -> Prop) {A} (c : M A) :
  (forall ev, P ev -> Q ev) -> emits P c -> emits Q c.
Proof.
  intros H Hc st. destruct (Hc st) as (evs & Htr & Hf). exists evs.
  split; [exact Htr|]. eapply Forall_impl; eauto.
Qed.

Lemma emits_silent P {A} (c : M A) :
  (forall st, trace (snd (c st)) = trace st) -> emits P c.
Proof. intros H st. exists []. rewrite H, app_nil_r. now split. Qed.

Lemma emits_try_finally P {A} (c : M A) (f : M unit) :
  emits P c -> emits P f -> emits P (try_finally c f).
Proof.
  intros Hc Hf st. unfold try_finally. destruct (Hc st) as (e1 & H1 & F1).
  destruct (c st) as [r st1]. cbn [snd] in H1.
  destruct (Hf st1) as (e2 & H2 & F2).
  assert (Hboth : Forall P (e1 ++ e2)) by now apply Forall_app.
  destruct r as [a|e|]; [| |now exists e1];
    destruct (f st1) as [[[]|e'|] st2]; cbn [snd] in *;
    exists (e1 ++ e2); now rewrite H2, H1, app_assoc.
Qed.

Lemma emits_for_each P {A} (body : A -> M unit) xs :
  (forall x, emits P (body x)) -> emits P (for_each xs body).
Proof.
  intros Hb. induction xs as [|x r IH]; cbn [for_each].
  - apply emits_ret.
  - apply emits_bind; [apply Hb | intros _; exact IH].
Qed.

Section Emissions.

Variable sv : Services.

Lemma emits_aspose_call P document idx :
  P (EvRender idx) -> emits P (aspose_call sv document idx).
Proof.
  intros H st. exists [EvRender idx]. split; [|now constructor].
  unfold aspose_call.
  destruct (download_slide_online sv (aspose_calls st) document idx) as [e|[p [c|]]];
    reflexivity.
Qed.

Lemma emits_request_with_retry m u hs b :
  emits wrapper_event (request_with_retry sv m u hs b).
Proof.
  intros st. unfold request_with_retry, bind, get_self.
  destruct (@retry_loop_quiet sv m u hs b (Py.range 0 (retry_times (self st))) st)
    as (r & n & evs & Hrun & _ & _).
  rewrite Hrun. exists evs. split; [reflexivity|].
  revert r n evs Hrun. generalize (Py.range 0 (retry_times (self st))) as attempts.
  intros attempts. revert st. induction attempts as [|a rest IH]; intros st r n evs Hrun.
  - cbn in Hrun. injection Hrun as _ Hst.
    apply (f_equal trace) in Hst. cbn in Hst.
    rewrite <- (app_nil_r (trace st)) in Hst at 1. apply app_inv_head in Hst.
    subst. constructor.
  - assert (Htr : trace (snd (retry_loop sv (a :: rest) m u hs b st)) = trace st ++ evs)
      by now rewrite Hrun.
    destruct (attempt_result sv (http_calls st) (mkRequest m u hs b 90)) as [e|resp] eqn:Ha.
    + destruct (is_RequestException e) eqn:He.
      * destruct (Z.eq_dec a (retry_times (self st) - 1)) as [Hl|Hl].
        -- rewrite retry_loop_last with (e := e) in Htr by assumption.
           cbn [snd advance trace] in Htr. apply app_inv_head in Htr. subst.
           repeat constructor.
        -- rewrite retry_loop_again with (e := e) in Htr by assumption.
           set (st1 := advance 1 _ st) in Htr.
           destruct (retry_loop sv rest m u hs b st1) as [r1 st2] eqn:Hrun1.
           destruct (@retry_loop_quiet sv m u hs b rest st1) as (r' & n' & evs' & Hq & _ & _).
           rewrite Hrun1 in Hq. injection Hq as -> ->.
           specialize (IH st1 r' n' evs' Hrun1).
           cbn [snd advance trace st1] in Htr. rewrite <- app_assoc in Htr.
           apply app_inv_head in Htr. subst evs.
           apply Forall_app. split; [repeat constructor | exact IH].
      * rewrite retry_loop_other with (e := e) in Htr by assumption.
        cbn [snd advance trace] in Htr. apply app_inv_head in Htr. subst.
        repeat constructor.
    + rewrite retry_loop_ok with (resp := resp) in Htr by assumption.
      cbn [snd advance trace] in Htr. apply app_inv_head in Htr. subst.
      repeat constructor.
Qed.

Lemma wrapper_is_rasterization ev : wrapper_event ev -> rasterization_event ev.
Proof. destruct ev as [| |[]| |]; cbn; tauto. Qed.

Lemma emits_upload_to_heygen file_bytes file_name :
  emits rasterization_event (upload_to_heygen sv file_bytes file_name).
Proof.
  unfold upload_to_heygen.
  apply emits_bind; [apply emits_get_self|]. intros c.
  apply emits_bind.
  { eapply emits_weaken; [exact wrapper_is_rasterization|].
    apply emits_request_with_retry. }
  intros resp. apply emits_bind; [apply emits_response_json|]. intros j.
  apply emits_bind; [apply emits_subscript|]. intros data.
  apply emits_bind; [apply emits_dict_get|]. intros asset_id.
  destruct (Py.truthy asset_id) eqn:Ht; cbn [negb]; [|apply emits_raise].
  apply emits_bind; [|intros _; apply emits_ret].
  apply emits_emit. exact Ht.
Qed.

Lemma emits_slide_iteration pptx_bytes idx :
  emits rasterization_event (slide_iteration sv pptx_bytes idx).
Proof.
  unfold slide_iteration.
  apply emits_bind; [now apply emits_silent|]. intros _.
  apply emits_try_finally.
  - apply emits_try_except.
    + unfold slide_try.
      apply emits_bind; [now apply emits_aspose_call|]. intros path.
      apply emits_bind; [now apply emits_silent|]. intros _.
      apply emits_bind.
      { apply emits_silent. intros st. unfold open_read.
        destruct path; [reflexivity|]. now destruct (file_lookup _ _). }
      intros [|b0 bs]; [apply emits_raise|].
      apply emits_bind; [apply emits_upload_to_heygen|]. intros a.
      now apply emits_silent.
    + intros e. now apply emits_emit.
  - apply emits_silent. intros st.
    destruct (slide_finally_spec st) as (st' & Hrun & _ & Htr). now rewrite Hrun.
Qed.

Lemma emits_pptx_to_heygen_images pptx_bytes slide_count :
  emits rasterization_event (pptx_to_heygen_images sv pptx_bytes slide_count).
Proof.
  unfold pptx_to_heygen_images.
  apply emits_bind; [now apply emits_emit|]. intros _.
  apply emits_for_each. intros idx. apply emits_slide_iteration.
Qed.

Lemma uploads_of_truthy evs :
  Forall rasterization_event evs ->
  Forall (fun a => Py.truthy a = true) (map snd (uploads_of evs)).
Proof.
  induction 1 as [|ev evs Hev _ IH]; [constructor|].
  change (ev :: evs) with ([ev] ++ evs). rewrite uploads_of_app, map_app.
  apply Forall_app. split; [|exact IH].
  destruct ev as [| |[]| |]; cbn in *; repeat constructor; assumption.
Qed.

(** The step again, with the uploads it logged. *)
Lemma rasterization_uploads pptx_bytes slide_count st :
  exists st' evs outcomes,
    pptx_to_heygen_images sv pptx_bytes slide_count st = (Ok tt, st')
    /\ trace st' = trace st ++ evs
    /\ uploads_of evs
       = map (fun ia => (slide_file_name (fst ia), snd ia)) (uploaded_slides outcomes)
    /\ slide_asset_ids (self st')
       = slide_asset_ids (self st) ++ map snd (uploaded_slides outcomes).
Proof.
  unfold pptx_to_heygen_images, bind, logging, emit.
  set (st0 := mkState _ _ _ _ _ _ _).
  destruct (slides_loop_spec sv pptx_bytes (Py.range 1 (slide_count + 1)) st0)
    as (st' & evs & os & Hrun & Htr & _ & _ & _ & U & Hids).
  rewrite Hrun. exists st', (EvLog (log_converting slide_count) :: evs), os.
  split; [reflexivity|]. rewrite Htr, Hids. cbn [st0 trace self].
  change (EvLog ?r :: evs) with ([EvLog r] ++ evs).
  rewrite uploads_of_app, U.
  split; [now rewrite <- app_assoc|]. now split.
Qed.

(** X8. [slide_asset_ids] never receives a false value: an upload whose
    answer carries no id, or an empty, null or zero one, raises (l.158-159)
    instead of returning, so when every id of the list is a true value
    before the rasterization step, every id is one after it. *)
Theorem asset_ids_stay_truthy pptx_bytes slide_count st :
  (forall file_bytes file_name a st',
     upload_to_heygen sv file_bytes file_name st = (Ok a, st') ->
     Py.truthy a = true)
  /\ (Forall (fun a => Py.truthy a = true) (slide_asset_ids (self st)) ->
      Forall (fun a => Py.truthy a = true)
        (slide_asset_ids (self (snd (pptx_to_heygen_images sv pptx_bytes slide_count st))))).
Proof.
  split.
  - intros file_bytes file_name a st' Hrun.
    destruct (emits_upload_to_heygen file_bytes file_name st) as (evs & Htr & Hev).
    destruct (upload_to_heygen_spec sv file_bytes file_name st)
      as (r & n & evs' & Hrun' & _ & _ & Hup).
    rewrite Hrun in Hrun', Htr. injection Hrun' as <- ->.
    cbn [snd advance trace] in Htr. apply app_inv_head in Htr. subst evs'.
    apply uploads_of_truthy in Hev. rewrite Hup in Hev. now inversion Hev.
  - intros Hbefore.
    destruct (emits_pptx_to_heygen_images pptx_bytes slide_count st) as (evs & Htr & Hev).
    destruct (rasterization_uploads pptx_bytes slide_count st)
      as (st2 & evs2 & os2 & Hrun2 & Htr2 & Hup2 & Hids2).
    rewrite Hrun2 in Htr |- *. cbn [snd] in Htr |- *.
    rewrite Htr2 in Htr. apply app_inv_head in Htr. subst evs2.
    rewrite Hids2. apply Forall_app. split; [exact Hbefore|].
    apply uploads_of_truthy in Hev. rewrite Hup2, map_map in Hev. cbn [snd] in Hev.
    exact Hev.
Qed.

(** X9. [_create_heygen_video] returns a true video id or raises. When the
    answer to the POST is an object whose "data" holds a true "video_id", it
    logs that id and returns exactly it, with nothing done after the POST
    but the log line; when "data" has no "video_id", or a null, empty or
    zero one, it raises the no-video-id RuntimeError without asking again
    and without a log line. An id it returns is always a true value, the
    one of the answer. *)
Theorem video_id_is_never_falsy speaker_notes video_title st :
  let c := self st in
  let post :=
    request_with_retry sv (Py.lit "POST") url_generate (heygen_headers c)
      (json_payload (video_payload c speaker_notes video_title)) st in
  (forall v st',
     create_heygen_video sv speaker_notes video_title st = (Ok v, st') ->
     Py.truthy v = true
     /\ exists resp d,
          fst post = Ok resp /\ reported resp = Some d
          /\ Py.lookup (Py.lit "video_id") d = Some v)
  /\ (forall resp d v,
        fst post = Ok resp ->
        reported resp = Some d ->
        Py.lookup (Py.lit "video_id") d = Some v ->
        Py.truthy v = true ->
        create_heygen_video sv speaker_notes video_title st
        = (Ok v, advance 0 [EvLog (log_video_created v)] (snd post)))
  /\ (forall resp d,
        fst post = Ok resp ->
        reported resp = Some d ->
        match Py.lookup (Py.lit "video_id") d with
        | Some v => Py.truthy v = false
        | None => True
        end ->
        create_heygen_video sv speaker_notes video_title st
        = (Raise RuntimeError_no_video_id, snd post)).
Proof.
  intros c post.
  assert (E : create_heygen_video sv speaker_notes video_title st
              = match post with
                | (Ok resp, st1) =>
                  (j <- response_json resp ;;
                   data <- subscript j (Py.lit "data") ;;
                   video_id <- dict_get data (Py.lit "video_id") Py.JNull ;;
                   if negb (Py.truthy video_id)
                   then raise RuntimeError_no_video_id
                   else logging (log_video_created video_id) ;; ret video_id) st1
                | (Raise e, st1) => (Raise e, st1)
                | (Unfinished, st1) => (Unfinished, st1)
                end) by reflexivity.
  rewrite E. clear E.
  destruct post as [[resp|e|] st1]; cbn [fst snd].
  2, 3: split; [intros v st' H; discriminate H |
                split; [intros resp d v H; discriminate H
                       | intros resp d H; discriminate H]].
  unfold bind, response_json, subscript, dict_get, ret, raise.
  split; [|split].
  - intros v st' H.
    destruct (json_body resp) as [[| | | | | |top]|] eqn:Hj; try discriminate H.
    destruct (Py.lookup (Py.lit "data") top) as [[| | | | | |d]|] eqn:Hd;
      try discriminate H.
    destruct (Py.lookup (Py.lit "video_id") d) as [v'|] eqn:Hv;
      cbn [Py.truthy negb] in H; [|discriminate H].
    destruct (Py.truthy v') eqn:Ht; cbn [negb] in H; [|discriminate H].
    unfold logging, emit in H. injection H as <- <-.
    split; [exact Ht|]. exists resp, d. split; [reflexivity|].
    unfold reported. rewrite Hj, Hd. now split.
  - intros r d v Hr Hd Hv Ht. injection Hr as <-. unfold reported in Hd.
    destruct (json_body resp) as [[| | | | | |top]|]; try discriminate Hd.
    destruct (Py.lookup (Py.lit "data") top) as [[| | | | | |d']|]; try discriminate Hd.
    injection Hd as ->. rewrite Hv, Ht. reflexivity.
  - intros r d Hr Hd Hv. injection Hr as <-. unfold reported in Hd.
    destruct (json_body resp) as [[| | | | | |top]|]; try discriminate Hd.
    destruct (Py.lookup (Py.lit "data") top) as [[| | | | | |d']|]; try discriminate Hd.
    injection Hd as ->.
    destruct (Py.lookup (Py.lit "video_id") d) as [v'|]; [|reflexivity].
    now rewrite Hv.
Qed.

End Emissions.

(** The upload of the image of slide 1 returns the id 1; an object with no
    asset has only true ids after any step. *)
Lemma asset_ids_stay_truthy_witness :
  Py.truthy (Py.JInt 1) = true
  /\ Forall (fun a => Py.truthy a = true) (slide_asset_ids (self Demo.start))
  /\ Forall (fun a => Py.truthy a = true)
       (slide_asset_ids
          (self (snd (pptx_to_heygen_images Demo.rough [Byte.x50; Byte.x4b] 4
                        Demo.start)))).
Proof.
  destruct (asset_ids_stay_truthy Demo.rough [Byte.x50; Byte.x4b] 4 Demo.start)
    as [Hup Hinv].
  split.
  - apply (Hup (Demo.slide_png 1) (slide_file_name 1) (Py.JInt 1)
             (snd (upload_to_heygen Demo.rough (Demo.slide_png 1) (slide_file_name 1)
                     Demo.start))).
    vm_compute. reflexivity.
  - split; [constructor|]. apply Hinv. constructor.
Defined.

(** HeyGen answering the POST with the id "v1": the id is logged and
    returned after the one request; with an empty id, or an empty "data":
    no video id. *)
Lemma video_id_is_never_falsy_witness :
  let created := Demo.status_response [(Py.lit "video_id", Py.JStr (Py.lit "v1"))] in
  let blank := Demo.status_response [(Py.lit "video_id", Py.JStr [])] in
  let bare := Demo.status_response [] in
  let run resp :=
    create_heygen_video (Demo.scripted [inr resp]) [Py.lit "one"] (Py.lit "title")
      Demo.start in
  (exists st',
     run created = (Ok (Py.JStr (Py.lit "v1")), st')
     /\ Py.truthy (Py.JStr (Py.lit "v1")) = true
     /\ http_calls st' = 1%nat
     /\ logs_of (trace st') = [log_video_created (Py.JStr (Py.lit "v1"))])
  /\ (exists st', run blank = (Raise RuntimeError_no_video_id, st')
                  /\ http_calls st' = 1%nat /\ logs_of (trace st') = [])
  /\ (exists st', run bare = (Raise RuntimeError_no_video_id, st')
                  /\ http_calls st' = 1%nat /\ logs_of (trace st') = []).
Proof.
  intros created blank bare run.
  destruct (video_id_is_never_falsy (Demo.scripted [inr created]) [Py.lit "one"]
              (Py.lit "title") Demo.start) as (Hany & Hok & _).
  destruct (video_id_is_never_falsy (Demo.scripted [inr blank]) [Py.lit "one"]
              (Py.lit "title") Demo.start) as (_ & _ & Hblank).
  destruct (video_id_is_never_falsy (Demo.scripted [inr bare]) [Py.lit "one"]
              (Py.lit "title") Demo.start) as (_ & _ & Hbare).
  split; [|split].
  - eexists. split; [|split; [|split]].
    + unfold run.
      apply (Hok created [(Py.lit "video_id", Py.JStr (Py.lit "v1"))]
               (Py.JStr (Py.lit "v1"))); reflexivity.
    + refine (proj1 (Hany (Py.JStr (Py.lit "v1")) _ _)).
      apply (Hok created [(Py.lit "video_id", Py.JStr (Py.lit "v1"))]
               (Py.JStr (Py.lit "v1"))); reflexivity.
    + reflexivity.
    + reflexivity.
  - eexists. split; [|split].
    + unfold run.
      apply (Hblank blank [(Py.lit "video_id", Py.JStr [])]);
        [reflexivity | reflexivity | reflexivity].
    + reflexivity.
    + reflexivity.
  - eexists. split; [|split].
    + unfold run. apply (Hbare bare []); [reflexivity | reflexivity | exact I].
    + reflexivity.
    + reflexivity.
Defined.

(** ** Temporary files *)

Lemma file_lookup_remove p q fs :
  file_lookup q (file_remove p fs)
  = if Py.str_eqb p q then None else file_lookup q fs.
Proof.
  induction fs as [|[k c] fs IH]; cbn [file_remove filter file_lookup fst].
  - now destruct (Py.str_eqb p q).
  - fold (file_remove p fs).
    destruct (Py.str_eqb k p) eqn:Hkp; cbn [negb file_lookup].
    + apply str_eqb_eq in Hkp. subst k. rewrite IH.
      now destruct (Py.str_eqb p q).
    + rewrite IH. destruct (Py.str_eqb k q) eqn:Hkq; [|reflexivity].
      apply str_eqb_eq in Hkq. subst k.
      destruct (Py.str_eqb p q) eqn:Hpq; [|reflexivity].
      apply str_eqb_eq in Hpq. subst p. rewrite str_eqb_refl in Hkp. discriminate.
Qed.

Lemma file_lookup_write p c q fs :
  file_lookup q (file_write p c fs)
  = if Py.str_eqb p q then Some c else file_lookup q fs.
Proof.
  unfold file_write. cbn [file_lookup].
  destruct (Py.str_eqb p q) eqn:Hpq; [reflexivity|].
  rewrite file_lookup_remove. now rewrite Hpq.
Qed.

Lemma no_new_file_refl fs : no_new_file fs fs.
Proof. now intros path c _ H. Qed.

Lemma no_new_file_trans a b c : no_new_file a b -> no_new_file b c -> no_new_file a c.
Proof. intros H1 H2 path x Hp H. now apply H1, H2. Qed.

Section TemporaryFiles.

Variable sv : Services.

(** The [try] block after the call of Aspose leaves the disk alone and
    ends with [temp_file_path] set to the path it was given. *)
Lemma slide_try_rest_files idx path st :
  exists r st',
    (set_temp_file_path (Some path) ;;
     slide_bytes <- open_read path ;;
     match slide_bytes with
     | [] => raise (ValueError_empty_slide idx)
     | _ :: _ =>
       asset_id <- upload_to_heygen sv slide_bytes (slide_file_name idx) ;;
       append_asset asset_id
     end) st = (r, st')
    /\ files st' = files st
    /\ temp_file_path st' = Some path
    /\ r <> Unfinished.
Proof.
  unfold bind at 1. unfold set_temp_file_path at 1.
  unfold bind at 1. unfold open_read at 1. cbn [files].
  destruct path as [|p0 path].
  { do 2 eexists. split; [reflexivity|]. repeat split. discriminate. }
  destruct (file_lookup (p0 :: path) (files st)) as [slide_bytes|].
  2: { do 2 eexists. split; [reflexivity|]. repeat split. discriminate. }
  destruct slide_bytes as [|b0 bs].
  { do 2 eexists. split; [reflexivity|]. repeat split. discriminate. }
  set (st2 := mkState _ _ _ _ _ _ _).
  destruct (upload_to_heygen_spec sv (b0 :: bs) (slide_file_name idx) st2)
    as (r & n & evs & Hrun & _ & _ & Hr).
  unfold bind. rewrite Hrun.
  destruct r as [a|e|]; [| |contradiction].
  - unfold append_asset, bind, get_self, set_self.
    do 2 eexists. split; [reflexivity|]. repeat split. discriminate.
  - do 2 eexists. split; [reflexivity|]. repeat split. discriminate.
Qed.

Lemma slide_finally_files st :
  exists st',
    slide_finally st = (Ok tt, st')
    /\ match temp_file_path st with
       | Some (x :: t) => files st' = file_remove (x :: t) (files st)
       | _ => files st' = files st
       end.
Proof.
  unfold slide_finally, bind, get_temp_file_path, os_path_exists, os_remove, set_files, ret.
  destruct (temp_file_path st) as [[|x t]|]; try (now eexists).
  destruct (file_lookup (x :: t) (files st)) eqn:Hl; eexists; (split; [reflexivity|]).
  - reflexivity.
  - cbn [files]. unfold file_remove. symmetry. apply forallb_filter_id.
    apply forallb_forall. intros [k c] Hin. cbn [fst].
    destruct (Py.str_eqb k (x :: t)) eqn:Hk; [|reflexivity].
    apply str_eqb_eq in Hk. subst k. exfalso.
    clear - Hl Hin. induction (files st) as [|[k' c'] fs IH]; [contradiction|].
    cbn [file_lookup] in Hl. destruct (Py.str_eqb k' (x :: t)) eqn:Hk; [discriminate|].
    destruct Hin as [Hin|Hin]; [|now apply IH].
    injection Hin as -> ->. rewrite str_eqb_refl in Hk. discriminate.
Qed.

Lemma slide_iteration_files pptx_bytes idx st :
  no_new_file (files st) (files (snd (slide_iteration sv pptx_bytes idx st))).
Proof.
  unfold slide_iteration. unfold bind at 1. unfold set_temp_file_path at 1.
  set (st0 := mkState _ _ _ _ _ _ _).
  unfold try_finally, try_except, slide_try. unfold bind at 1. unfold aspose_call.
  destruct (download_slide_online sv (aspose_calls st0) pptx_bytes idx)
    as [e|[path written]].
  - cbn [is_Exception]. unfold logging, emit.
    set (st1 := mkState _ _ _ _ _ _ _).
    destruct (slide_finally_files st1) as (st2 & Hfin & Hfiles).
    rewrite Hfin. cbn [snd]. cbn [st1 temp_file_path st0] in Hfiles.
    rewrite Hfiles. apply no_new_file_refl.
  - set (fs1 := match written with
                | Some c => file_write path c (files st)
                | None => files st
                end).
    set (st1 := mkState (self st0) fs1 (temp_file_path st0) (http_calls st0)
                  (S (aspose_calls st0)) (openai_calls st0)
                  (trace st0 ++ [EvRender idx])).
    replace (match written with
             | Some c => (Ok path, _)
             | None => _
             end) with (@Ok Py.str path, st1)
      by (unfold st1, fs1; now destruct written).
    destruct (slide_try_rest_files idx path st1) as (r & st2 & Hrun & Hfiles & Htemp & Hr).
    rewrite Hrun.
    assert (Hend : forall st3,
              files st3 = fs1 -> temp_file_path st3 = Some path ->
              no_new_file (files st) (files (snd (slide_finally st3)))).
    { intros st3 Hf Ht. destruct (slide_finally_files st3) as (st4 & Hfin & Hfs).
      rewrite Hfin. cbn [snd]. rewrite Ht in Hfs.
      intros q c Hq Hlook. destruct path as [|x t].
      - rewrite Hfs, Hf in Hlook. unfold fs1 in Hlook. destruct written; [|exact Hlook].
        rewrite file_lookup_write in Hlook.
        destruct (Py.str_eqb [] q) eqn:E; [|exact Hlook].
        apply str_eqb_eq in E. congruence.
      - rewrite Hfs, Hf, file_lookup_remove in Hlook.
        destruct (Py.str_eqb (x :: t) q) eqn:E; [discriminate|].
        unfold fs1 in Hlook. destruct written; [|exact Hlook].
        rewrite file_lookup_write, E in Hlook. exact Hlook. }
    cbn [st1 files] in Hfiles.
    destruct r as [[]|e|]; [| |congruence].
    + specialize (Hend st2 Hfiles Htemp).
      destruct (slide_finally st2) as [[[]|e'|] st3]; exact Hend.
    + cbn [is_Exception]. unfold logging, emit.
      set (st2' := mkState _ _ _ _ _ _ _).
      specialize (Hend st2' Hfiles Htemp).
      destruct (slide_finally st2') as [[[]|e'|] st3]; exact Hend.
Qed.

(** X10. The rasterization step leaves no file behind: whatever Aspose
    wrote, and whether the slide was uploaded, was empty or failed, the
    [finally] block removes the file of each iteration, so that every file
    on disk after the step was there before it, with the same content. *)
Theorem rasterization_leaves_no_file pptx_bytes slide_count st :
  no_new_file (files st)
    (files (snd (pptx_to_heygen_images sv pptx_bytes slide_count st))).
Proof.
  unfold pptx_to_heygen_images, bind, logging, emit.
  set (st0 := mkState _ _ _ _ _ _ _).
  change (files st) with (files st0). clearbody st0.
  induction (Py.range 1 (slide_count + 1)) as [|idx rest IH] in st0 |- *.
  - apply no_new_file_refl.
  - cbn [for_each]. unfold bind.
    pose proof (slide_iteration_files pptx_bytes idx st0) as H1.
    destruct (slide_iteration_spec sv pptx_bytes idx st0) as (st1 & evs & o & Hrun & _).
    rewrite Hrun in H1 |- *. cbn [snd] in H1.
    eapply no_new_file_trans; [exact H1 | apply IH].
Qed.

End TemporaryFiles.

(** On a disk holding one file, the step over the deck of [Demo.rough]
    ends with that file and nothing else. *)
Lemma rasterization_leaves_no_file_witness :
  let after :=
    files (snd (pptx_to_heygen_images Demo.rough [Byte.x50; Byte.x4b] 4
                  Demo.with_notes_file)) in
  no_new_file (files Demo.with_notes_file) after
  /\ after = [(Py.lit "/home/notes.txt", [Byte.x68; Byte.x69])].
Proof.
  intros after. split.
  - apply rasterization_leaves_no_file.
  - vm_compute. reflexivity.
Defined.

(** ** The result of [convert] *)

Lemma slice_to_le {A} (l : list A) k :
  (List.length (Py.slice_to k l) <= List.length l)%nat.
Proof. unfold Py.slice_to. destruct (0 <=? k); rewrite length_firstn; lia. Qed.

Lemma slice_to_prefix {A} (l : list A) k :
  exists rest, l = Py.slice_to k l ++ rest.
Proof.
  unfold Py.slice_to. destruct (0 <=? k); eexists; symmetry; apply firstn_skipn.
Qed.

Lemma limit_slides_length max_slides (deck : list Slide) :
  len (limit_slides max_slides deck)
  = match max_slides with
    | None => len deck
    | Some k =>
      if k =? 0 then len deck
      else if 0 <? k then Z.min k (len deck)
      else Z.max 0 (len deck + k)
    end.
Proof.
  unfold limit_slides, len. destruct max_slides as [k|]; [|reflexivity].
  destruct (k =? 0) eqn:Hk0; [reflexivity|]. apply Z.eqb_neq in Hk0.
  unfold Py.slice_to. destruct (0 <=? k) eqn:Hk.
  - apply Z.leb_le in Hk. replace (0 <? k) with true by (symmetry; apply Z.ltb_lt; lia).
    rewrite length_firstn. lia.
  - apply Z.leb_gt in Hk. replace (0 <? k) with false by (symmetry; apply Z.ltb_ge; lia).
    rewrite length_firstn. lia.
Qed.

Section Result.

Variable sv : Services.

Lemma create_heygen_video_id speaker_notes video_title st v st' :
  create_heygen_video sv speaker_notes video_title st = (Ok v, st') ->
  Py.truthy v = true.
Proof.
  unfold create_heygen_video. unfold bind at 1. unfold get_self at 1. unfold bind at 1.
  destruct (request_with_retry sv _ _ _ _ st) as [[resp|e|] st1]; try discriminate.
  unfold bind, response_json, subscript, dict_get, ret, raise. intros H.
  destruct (json_body resp) as [[| | | | | |top]|]; try discriminate H.
  destruct (Py.lookup (Py.lit "data") top) as [[| | | | | |d]|]; try discriminate H.
  match type of H with context [Py.truthy ?x] => destruct (Py.truthy x) eqn:Ht end;
    cbn [negb] in H; [|discriminate H].
  unfold logging, emit in H. now injection H as <- _.
Qed.

(** A result comes from narrations made by steps 1 to 4. *)
Lemma convert_returns fuel public_id video_title max_slides st r st' :
  convert sv fuel public_id video_title max_slides st = (Ok r, st') ->
  exists notes st1,
    convert_notes sv public_id max_slides st = (Ok notes, st1)
    /\ slides_processed r = len notes
    /\ title r = final_title video_title public_id
    /\ Py.truthy (video_id r) = true.
Proof.
  unfold convert. unfold bind at 1.
  destruct (convert_notes sv public_id max_slides st) as [[notes|e|] st1];
    try discriminate.
  unfold bind at 1.
  destruct (create_heygen_video sv notes _ st1) as [[v|e|] st2] eqn:Hc; try discriminate.
  unfold bind at 1.
  destruct (wait_for_video sv fuel v st2) as [[u|e|] st3]; try discriminate.
  unfold ret. intros H. injection H as <- <-. cbn [slides_processed title video_id].
  exists notes, st1. repeat split. eapply create_heygen_video_id; eassumption.
Qed.

(** On a new object, the narrations are at least one and at most the
    slides kept. *)
Lemma fresh_notes_count public_id max_slides st notes st' :
  slide_asset_ids (self st) = [] ->
  convert_notes sv public_id max_slides st = (Ok notes, st') ->
  exists b bs deck,
    fetched sv (http_calls st) public_id = Some (b :: bs)
    /\ Presentation sv (b :: bs) = inr deck
    /\ 1 <= len notes <= len (limit_slides max_slides deck).
Proof.
  intros Hfresh Hrun.
  destruct (fetched sv (http_calls st) public_id) as [[|b bs]|] eqn:Hf.
  1, 3: destruct (@convert_notes_not_found sv public_id max_slides st) as [x Hx];
    [now (left + right) | congruence].
  destruct (Presentation sv (b :: bs)) as [e|[|s0 deck]] eqn:Hp.
  - unfold convert_notes, bind, logging, emit in Hrun.
    rewrite get_file_bytes_spec in Hrun. cbn [http_calls] in Hrun.
    rewrite Hf in Hrun. unfold of_sum in Hrun. rewrite Hp in Hrun. discriminate.
  - destruct (@convert_notes_empty_deck sv public_id max_slides st b bs Hf Hp) as [x Hx].
    congruence.
  - destruct (@convert_notes_rasterized sv public_id max_slides st b bs s0 deck Hf Hp)
      as (st1 & evs & os & _ & _ & Hfst & Hids & Heq).
    rewrite Heq in Hrun. rewrite Hfresh in Hids. cbn [app] in Hids.
    destruct (slide_asset_ids (self st1)) as [|a ids] eqn:Hids1; [discriminate|].
    rewrite generate_speaker_notes_run in Hrun. injection Hrun as <- _.
    exists b, bs, (s0 :: deck). split; [reflexivity|]. split; [exact Hp|].
    assert (Hle : (List.length (a :: ids)
                   <= List.length (limit_slides max_slides (s0 :: deck)))%nat).
    { rewrite Hids, length_map.
      etransitivity; [apply uploaded_slides_length|].
      rewrite <- (length_map fst), Hfst, range_length. unfold len. lia. }
    set (texts := map slide_text (limit_slides max_slides (s0 :: deck))).
    assert (Hn : List.length (expected_notes sv (openai_calls st1) 1
                                (Py.slice_to (len (a :: ids)) texts))
                 = List.length (a :: ids)).
    { rewrite expected_notes_length. apply slice_to_length.
      unfold texts. rewrite length_map. exact Hle. }
    unfold len in Hn |- *. rewrite Hn. cbn [List.length] in *. lia.
Qed.

(** X11. A result returned by [convert] on an object that has collected no
    asset yet counts at least one slide and at most the slides of the deck,
    and at most [max_slides] when that is positive; its title is the title
    given, or the default one made of the deck id when none or an empty one
    was given; its video id is a true value. *)
Theorem result_of_first_call fuel public_id video_title max_slides st r st' :
  slide_asset_ids (self st) = [] ->
  convert sv fuel public_id video_title max_slides st = (Ok r, st') ->
  exists b bs deck,
    fetched sv (http_calls st) public_id = Some (b :: bs)
    /\ Presentation sv (b :: bs) = inr deck
    /\ 1 <= slides_processed r <= len deck
    /\ (forall k, max_slides = Some k -> 0 < k -> slides_processed r <= k)
    /\ title r = match video_title with
                 | Some (x :: t) => x :: t
                 | _ => Py.lit "PPTX转换视频_" ++ public_id
                 end
    /\ Py.truthy (video_id r) = true.
Proof.
  intros Hfresh Hrun.
  destruct (@convert_returns fuel public_id video_title max_slides st r st' Hrun) as (notes & st1 & Hnotes & Hsp & Htitle & Hid).
  destruct (@fresh_notes_count public_id max_slides st notes st1 Hfresh Hnotes) as (b & bs & deck & Hf & Hp & Hlo & Hhi).
  exists b, bs, deck. split; [exact Hf|]. split; [exact Hp|].
  rewrite Hsp. pose proof (limit_slides_length max_slides deck) as Hlen.
  split; [|split; [|split; [exact Htitle | exact Hid]]].
  - split; [exact Hlo|]. rewrite Hlen in Hhi.
    destruct max_slides as [k|]; [|exact Hhi].
    destruct (k =? 0); [exact Hhi|].
    destruct (0 <? k) eqn:Hk; [|apply Z.ltb_ge in Hk]; unfold len in *; lia.
  - intros k -> Hk. rewrite Hlen in Hhi.
    replace (k =? 0) with false in Hhi by (symmetry; apply Z.eqb_neq; lia).
    replace (0 <? k) with true in Hhi by (symmetry; apply Z.ltb_lt; lia).
    lia.
Qed.

End Result.

(** The deck of five slides with [max_slides = 2] and no title. *)
Lemma result_of_first_call_witness :
  let run := convert Demo.five 3 Demo.deck_id None (Some 2) Demo.start in
  slide_asset_ids (self Demo.start) = []
  /\ exists r,
       fst run = Ok r
       /\ slides_processed r = 2
       /\ 1 <= slides_processed r <= 5
       /\ title r = Py.lit "PPTX转换视频_deck_123".
Proof.
  intros run. split; [reflexivity|].
  destruct run as [[r|e|] st'] eqn:Hrun; try (vm_compute in Hrun; discriminate Hrun).
  destruct (@result_of_first_call Demo.five 3 Demo.deck_id None (Some 2) Demo.start
              r st' eq_refl Hrun)
    as (b & bs & deck & Hf & Hp & Hb & _ & Ht & _).
  exists r. split; [reflexivity|].
  assert (Hdeck : deck = Demo.deck 5).
  { vm_compute in Hf. injection Hf as <- <-. vm_compute in Hp. now injection Hp as <-. }
  subst deck. split; [|split; [exact Hb | exact Ht]].
  vm_compute in Hrun. injection Hrun as <- _. reflexivity.
Defined.

(** ** The slides [convert] works on *)

Section Selection.

Variable sv : Services.

(** X12. [max_slides] keeps a prefix of the deck: the first [k] slides for a
    positive [k], the whole deck for None, 0 and any [k] beyond its length,
    and, a negative [k] not being rejected, all but the last [-k] slides,
    down to none. On a deck that is there and has slides, [convert] hands
    exactly the slides kept to Aspose, in order. *)
Theorem max_slides_keeps_a_prefix fuel public_id video_title max_slides st :
  (forall deck, exists rest, deck = limit_slides max_slides deck ++ rest)
  /\ (forall deck,
        len (limit_slides max_slides deck)
        = match max_slides with
          | None => len deck
          | Some k =>
            if k =? 0 then len deck
            else if 0 <? k then Z.min k (len deck)
            else Z.max 0 (len deck + k)
          end)
  /\ (forall b bs s0 deck,
        fetched sv (http_calls st) public_id = Some (b :: bs) ->
        Presentation sv (b :: bs) = inr (s0 :: deck) ->
        exists evs,
          trace (snd (convert sv fuel public_id video_title max_slides st))
          = trace st ++ evs
          /\ renders_of evs
             = Py.range 1 (len (limit_slides max_slides (s0 :: deck)) + 1)).
Proof.
  split; [|split].
  - intros deck. unfold limit_slides. destruct max_slides as [k|].
    + destruct (k =? 0); [exists []; now rewrite app_nil_r | apply slice_to_prefix].
    + exists []. now rewrite app_nil_r.
  - intros deck. apply limit_slides_length.
  - intros b bs s0 deck Hf Hp.
    destruct (@convert_notes_rasterized sv public_id max_slides st b bs s0 deck Hf Hp)
      as (st1 & evs & os & Htr & R & _ & _ & Heq).
    unfold convert.
    match goal with |- context [bind _ ?K st] => set (k := K) end.
    assert (Hk : forall texts,
               emits not_render (bind (generate_speaker_notes sv texts) k)).
    { intros texts.
      apply emits_bind; [apply generate_speaker_notes_no_render|]. intros notes.
      unfold k. apply emits_bind; [apply create_heygen_video_no_render|]. intros vid.
      apply emits_bind; [apply wait_for_video_no_render|]. intros u.
      apply emits_ret. }
    clearbody k. unfold bind at 1. rewrite Heq.
    destruct (slide_asset_ids (self st1)) as [|a ids].
    { exists evs. now split. }
    set (texts := Py.slice_to _ _).
    change (exists evs0,
      trace (snd (bind (generate_speaker_notes sv texts) k st1)) = trace st ++ evs0
      /\ renders_of evs0
         = Py.range 1 (len (limit_slides max_slides (s0 :: deck)) + 1)).
    destruct (Hk texts st1) as (evs2 & Htr2 & Hq).
    exists (evs ++ evs2). rewrite Htr2, Htr, <- app_assoc. split; [reflexivity|].
    rewrite renders_of_app, R, (not_render_readings Hq). apply app_nil_r.
Qed.

(** X13. When the deck cannot be fetched, cannot be parsed or has no
    slide, [convert] raises (the not-found error, the exception of the
    parser as it is, the no-slides error) with nothing done but the one
    request of the fetch: no call of Aspose or OpenAI, no other request, and
    the object and the disk as they were. *)
Theorem convert_stops_before_rendering fuel public_id video_title max_slides st :
  let st1 :=
    snd (get_file_bytes sv public_id (snd (logging (log_processing public_id) st))) in
  let run := convert sv fuel public_id video_title max_slides st in
  (fetched sv (http_calls st) public_id = None
   \/ fetched sv (http_calls st) public_id = Some [] ->
   run = (Raise (FileNotFoundError_pptx public_id), st1))
  /\ (forall b bs e,
        fetched sv (http_calls st) public_id = Some (b :: bs) ->
        Presentation sv (b :: bs) = inl e ->
        run = (Raise e, st1))
  /\ (forall b bs,
        fetched sv (http_calls st) public_id = Some (b :: bs) ->
        Presentation sv (b :: bs) = inr [] ->
        run = (Raise ValueError_no_slides, st1))
  /\ aspose_calls st1 = aspose_calls st
  /\ openai_calls st1 = openai_calls st
  /\ http_calls st1 = S (http_calls st)
  /\ self st1 = self st
  /\ files st1 = files st.
Proof.
  intros st1 run. unfold run, st1, convert, convert_notes, bind, logging, emit, of_sum.
  cbn [snd]. rewrite get_file_bytes_spec. cbn [snd http_calls].
  split; [|split; [|split]].
  - intros [-> | ->]; reflexivity.
  - intros b bs e -> Hp. now rewrite Hp.
  - intros b bs -> Hp. now rewrite Hp.
  - repeat split.
Qed.

End Selection.

(** Seven slides with [max_slides = -2]: the slides 1 to 5 are rendered. *)
Lemma max_slides_keeps_a_prefix_witness :
  let sv := Demo.studio (Demo.deck 7) (fun _ _ => false) (fun _ => false) in
  fetched sv (http_calls Demo.start) Demo.deck_id = Some [Byte.x50; Byte.x4b]
  /\ Presentation sv [Byte.x50; Byte.x4b] = inr (Demo.deck 7)
  /\ len (limit_slides (Some (-2)) (Demo.deck 7)) = 5
  /\ exists evs,
       trace (snd (convert sv 3 Demo.deck_id None (Some (-2)) Demo.start))
       = trace Demo.start ++ evs
       /\ renders_of evs = [1; 2; 3; 4; 5].
Proof.
  intros sv. split; [reflexivity|]. split; [reflexivity|].
  destruct (max_slides_keeps_a_prefix sv 3 Demo.deck_id None (Some (-2)) Demo.start)
    as (_ & Hlen & H).
  split; [rewrite Hlen; reflexivity|].
  exact (H Byte.x50 [Byte.x4b] _ _ eq_refl eq_refl).
Defined.

(** A deck python-pptx rejects: its exception leaves [convert] after the
    one request of the fetch. *)
Lemma convert_stops_before_rendering_witness :
  let sv := Demo.scripted [inr (mkResponse 200 [Byte.x50; Byte.x4b] None)] in
  exists st',
    fetched sv (http_calls Demo.start) Demo.deck_id = Some [Byte.x50; Byte.x4b]
    /\ Presentation sv [Byte.x50; Byte.x4b] = inl (LibraryError (Py.lit "no parser"))
    /\ convert sv 3 Demo.deck_id None None Demo.start
       = (Raise (LibraryError (Py.lit "no parser")), st')
    /\ http_calls st' = 1%nat /\ aspose_calls st' = 0%nat /\ openai_calls st' = 0%nat.
Proof.
  intros sv.
  destruct (convert_stops_before_rendering sv 3 Demo.deck_id None None Demo.start)
    as (_ & Hparse & _ & Ha & Ho & Hh & _).
  eexists. split; [reflexivity|]. split; [reflexivity|].
  split; [exact (Hparse Byte.x50 [Byte.x4b] _ eq_refl eq_refl)|].
  rewrite Hh, Ha, Ho. repeat split.
Defined.

(** ** Polling: the answers that end the wait with an exception *)

Section PollingFailures.

Variable sv : Services.

(** Every attempt failing with a request exception, for any
    [retry_times]: the last exception is raised. *)
Lemma retry_all_fail m u hs b init e st :
  Z.of_nat (List.length init) + 1 = retry_times (self st) ->
  (forall j x, nth_error (init ++ [e]) j = Some x ->
     attempt_result sv (http_calls st + j) (mkRequest m u hs b 90) = inl x
     /\ is_RequestException x = true) ->
  request_with_retry sv m u hs b st
  = (Raise e,
     advance (List.length init + 1)
       (backoff_events (mkRequest m u hs b 90) 0 init
          ++ [EvRequest (mkRequest m u hs b 90);
              EvLog (log_request_failed m u (retry_times (self st)) e)]) st).
Proof.
  intros Hrt Hf. unfold request_with_retry, bind, get_self.
  rewrite (@retry_loop_skip sv m u hs b init 0 st).
  - rewrite range_cons by (unfold len; lia).
    set (st1 := advance (List.length init) _ st).
    destruct (Hf (List.length init) e) as [Ha He].
    { rewrite nth_error_app2 by lia. now rewrite Nat.sub_diag. }
    rewrite retry_loop_last with (e := e).
    + unfold st1. rewrite advance_advance.
      replace (0 + len init + 1) with (retry_times (self st)) by (unfold len; lia).
      reflexivity.
    + cbn [st1 advance http_calls]. now rewrite Nat.add_comm.
    + exact He.
    + cbn [st1 advance self]. unfold len. lia.
  - unfold len. lia.
  - intros j x Hj. apply Hf. rewrite nth_error_app1; [exact Hj|].
    apply nth_error_Some. congruence.
Qed.

(** X14. The wait has no tolerance of its own: when one status query
    fails all its [retry_times] attempts with request exceptions,
    [_wait_for_video] raises the last of them and stops polling, also after
    queries that showed the job running. *)
Theorem polling_stops_when_a_query_exhausts_its_retries
    video_id pending init e fuel st :
  still_running sv video_id st pending ->
  Z.of_nat (List.length init) + 1 = retry_times (self st) ->
  (forall j x, nth_error (init ++ [e]) j = Some x ->
     attempt_result sv (http_calls st + List.length pending + j)
       (status_request (self st) video_id) = inl x
     /\ is_RequestException x = true) ->
  (List.length pending < fuel)%nat ->
  exists st' evs,
    wait_for_video sv fuel video_id st = (Raise e, st')
    /\ trace st' = trace st ++ evs
    /\ http_calls st'
       = (http_calls st + List.length pending + (List.length init + 1))%nat
    /\ sleeps_of evs
       = repeat (poll_interval (self st)) (List.length pending)
         ++ map (fun j => 2 ^ Z.of_nat j) (seq 0 (List.length init)).
Proof.
  intros Hp Hrt Hf Hfuel.
  assert (Hrt1 : 1 <= retry_times (self st)) by lia.
  set (c := self st).
  set (st0 := advance 0 [EvLog (log_waiting video_id (poll_interval c))] st).
  assert (Hw : wait_for_video sv fuel video_id st = wait_loop sv fuel video_id st0)
    by reflexivity.
  set (st1 := advance (List.length pending)
                (flat_map (pending_events c video_id) pending) st0).
  assert (Hrun : wait_for_video sv fuel video_id st
                 = wait_loop sv (S (fuel - List.length pending - 1)) video_id st1).
  { rewrite Hw.
    replace fuel with (List.length pending + S (fuel - List.length pending - 1))%nat
      at 1 by lia.
    now rewrite (@wait_loop_run sv video_id pending st0 _ Hrt1 Hp). }
  assert (Hfail : request_with_retry sv (Py.lit "GET") (url_status video_id)
                    (heygen_headers (self st1)) no_body st1
                  = (Raise e,
                     advance (List.length init + 1)
                       (backoff_events (status_request c video_id) 0 init
                          ++ [EvRequest (status_request c video_id);
                              EvLog (log_request_failed (Py.lit "GET")
                                       (url_status video_id)
                                       (retry_times (self st1)) e)]) st1)).
  { apply retry_all_fail; [exact Hrt|].
    intros j x Hj. specialize (Hf j x Hj).
    cbn [st1 st0 advance http_calls self].
    replace (List.length pending + (0 + http_calls st) + j)%nat
      with (http_calls st + List.length pending + j)%nat by lia.
    exact Hf. }
  rewrite Hrun. cbn [wait_loop]. unfold bind at 1. unfold get_self at 1.
  unfold bind at 1. rewrite Hfail.
  - do 2 eexists. split; [reflexivity|].
    unfold st1, st0. rewrite !advance_advance. cbn [advance trace http_calls].
    split; [reflexivity|]. split; [lia|].
    rewrite !sleeps_of_app, sleeps_of_pending, sleeps_of_backoff.
    cbn [sleeps_of flat_map app]. rewrite app_nil_r. reflexivity.
Qed.

(** X15. An answer of the status endpoint that lacks a key ends the wait
    with a KeyError at once, without sleeping: "data" missing from the
    answer, "status" missing from its data, or "video_url" missing when the
    status is completed or success. *)
Theorem status_answer_lacking_a_key_raises_KeyError video_id fuel st resp :
  1 <= retry_times (self st) ->
  attempt_result sv (http_calls st) (status_request (self st) video_id) = inr resp ->
  let st' :=
    advance 1
      [EvLog (log_waiting video_id (poll_interval (self st)));
       EvRequest (status_request (self st) video_id)] st in
  (forall top,
     json_body resp = Some (Py.JDict top) ->
     Py.lookup (Py.lit "data") top = None ->
     wait_for_video sv (S fuel) video_id st = (Raise (KeyError (Py.lit "data")), st'))
  /\ (forall d,
        reported resp = Some d ->
        Py.lookup (Py.lit "status") d = None ->
        wait_for_video sv (S fuel) video_id st
        = (Raise (KeyError (Py.lit "status")), st'))
  /\ (forall d s,
        reported resp = Some d ->
        Py.lookup (Py.lit "status") d = Some s ->
        is_done s = true ->
        Py.lookup (Py.lit "video_url") d = None ->
        wait_for_video sv (S fuel) video_id st
        = (Raise (KeyError (Py.lit "video_url")), st')).
Proof.
  intros Hrt Ha st'.
  set (st0 := advance 0 [EvLog (log_waiting video_id (poll_interval (self st)))] st).
  assert (Hw : wait_for_video sv (S fuel) video_id st
               = wait_loop sv (S fuel) video_id st0) by reflexivity.
  assert (Hst : st' = advance 1 [EvRequest (status_request (self st) video_id)] st0).
  { unfold st0. rewrite advance_advance. reflexivity. }
  assert (Hreq : request_with_retry sv (Py.lit "GET") (url_status video_id)
                   (heygen_headers (self st0)) no_body st0
                 = (Ok resp, st')).
  { rewrite Hst. apply request_first_try; [exact Hrt | exact Ha]. }
  assert (E : wait_for_video sv (S fuel) video_id st
              = (j <- response_json resp ;;
                 data <- subscript j (Py.lit "data") ;;
                 status <- subscript data (Py.lit "status") ;;
                 if Py.is_str status (Py.lit "completed")
                    || Py.is_str status (Py.lit "success")
                 then subscript data (Py.lit "video_url")
                 else if Py.is_str status (Py.lit "failed")
                         || Py.is_str status (Py.lit "error")
                 then reason <- dict_get data (Py.lit "error")
                                  (Py.JStr (Py.lit "未知错误")) ;;
                      raise (RuntimeError_video_failed reason)
                 else logging (log_status status) ;;
                      sleep (poll_interval (self st0)) ;;
                      wait_loop sv fuel video_id) st').
  { rewrite Hw. cbn [wait_loop]. unfold bind at 1. unfold get_self at 1.
    unfold bind at 1. now rewrite Hreq. }
  rewrite E. clear E.
  unfold bind, response_json, subscript, ret, raise, reported.
  split; [|split].
  - intros top -> Hd. now rewrite Hd.
  - intros d Hr Hs.
    destruct (json_body resp) as [[| | | | | |top]|]; try discriminate.
    destruct (Py.lookup (Py.lit "data") top) as [[| | | | | |d']|]; try discriminate.
    injection Hr as ->. cbv beta iota. now rewrite Hs.
  - intros d s Hr Hs Hd Hu.
    destruct (json_body resp) as [[| | | | | |top]|]; try discriminate.
    destruct (Py.lookup (Py.lit "data") top) as [[| | | | | |d']|]; try discriminate.
    injection Hr as ->. cbv beta iota. rewrite Hs. cbv beta iota.
    unfold is_done in Hd. rewrite Hd. cbv beta iota. now rewrite Hu.
Qed.

End PollingFailures.

(** One status showing the job running, then HeyGen down: the wait ends
    with the exception after four requests and sleeps of 10, 1 and 2. *)
Lemma polling_stops_when_a_query_exhausts_its_retries_witness :
  let sv := Demo.scripted [inr Demo.processing] in
  let vid := Py.JStr (Py.lit "v1") in
  exists st',
    wait_for_video sv 5 vid Demo.start = (Raise Demo.down, st')
    /\ http_calls st' = 4%nat
    /\ sleeps_of (trace st') = [10; 1; 2].
Proof.
  intros sv vid.
  assert (Hp : still_running sv vid Demo.start [Py.JStr (Py.lit "processing")]).
  { intros [|[|i]] s Hi; simpl in Hi; try discriminate; injection Hi as <-;
      (split; [reflexivity|]); (split; [reflexivity|]);
      exists Demo.processing; eexists; (split; [reflexivity|]); split; reflexivity. }
  assert (Hf : forall j x,
             nth_error ([Demo.down; Demo.down] ++ [Demo.down]) j = Some x ->
             attempt_result sv
               (http_calls Demo.start + List.length [Py.JStr (Py.lit "processing")] + j)
               (status_request (self Demo.start) vid) = inl x
             /\ is_RequestException x = true).
  { intros [|[|[|[|j]]]] x Hj; simpl in Hj; try discriminate; injection Hj as <-;
      split; reflexivity. }
  assert (Hfuel : (List.length [Py.JStr (Py.lit "processing")] < 5)%nat)
    by (simpl; lia).
  destruct (@polling_stops_when_a_query_exhausts_its_retries sv vid
              [Py.JStr (Py.lit "processing")] [Demo.down; Demo.down] Demo.down 5
              Demo.start Hp eq_refl Hf Hfuel)
    as (st' & evs & Hrun & Htr & Hcalls & Hsl).
  exists st'. split; [exact Hrun|]. split; [exact Hcalls|].
  rewrite Htr. change (trace Demo.start) with (@nil Event). cbn [app].
  rewrite Hsl. reflexivity.
Defined.

(** A job reported completed without a "video_url". *)
Lemma status_answer_lacking_a_key_raises_KeyError_witness :
  let resp :=
    Demo.status_response [(Py.lit "status", Py.JStr (Py.lit "completed"))] in
  let sv := Demo.scripted [inr resp] in
  1 <= retry_times (self Demo.start)
  /\ fst (wait_for_video sv 1 (Py.JStr (Py.lit "v1")) Demo.start)
     = Raise (KeyError (Py.lit "video_url"))
  /\ sleeps_of (trace (snd (wait_for_video sv 1 (Py.JStr (Py.lit "v1")) Demo.start)))
     = [].
Proof.
  intros resp sv.
  destruct (@status_answer_lacking_a_key_raises_KeyError sv (Py.JStr (Py.lit "v1"))
              0 Demo.start resp ltac:(simpl; lia) eq_refl) as (_ & _ & H).
  split; [simpl; lia|].
  rewrite (H _ _ eq_refl eq_refl eq_refl eq_refl). split; reflexivity.
Defined.

(** ** The texts that are narrated *)

Lemma not_chat_readings evs : Forall not_chat evs -> chats_of evs = [].
Proof.
  induction 1 as [|ev evs Hev _ IH]; [reflexivity|].
  change (ev :: evs) with ([ev] ++ evs). rewrite chats_of_app, IH.
  now destruct ev.
Qed.

Lemma rasterization_is_not_chat ev : rasterization_event ev -> not_chat ev.
Proof. now destruct ev. Qed.

Lemma events_since_app st st' evs :
  trace st' = trace st ++ evs -> events_since st st' = evs.
Proof.
  intros H. unfold events_since. rewrite H, skipn_app, skipn_all, Nat.sub_diag.
  reflexivity.
Qed.

Lemma uploads_of_note_events sv texts : forall k idx,
  uploads_of (note_events sv k idx texts) = [].
Proof.
  induction texts as [|t r IH]; intros k idx; [reflexivity|].
  cbn [note_events]. destruct (is_blank t); [apply IH|].
  change (EvChat ?c :: ?l) with ([EvChat c] ++ l).
  rewrite !uploads_of_app, IH. now destruct (note_answer sv k t).
Qed.

Lemma slice_to_len {A B} (ids : list A) (l : list B) :
  Py.slice_to (len ids) l = firstn (List.length ids) l.
Proof.
  unfold Py.slice_to, len.
  replace (0 <=? Z.of_nat (List.length ids)) with true by (symmetry; apply Z.leb_le; lia).
  now rewrite Nat2Z.id.
Qed.

Section Pairing.

Variable sv : Services.

(** The rasterization step with all that it reports. *)
Lemma rasterization_report pptx_bytes slide_count st :
  exists st' evs outcomes,
    pptx_to_heygen_images sv pptx_bytes slide_count st = (Ok tt, st')
    /\ trace st' = trace st ++ evs
    /\ chats_of evs = []
    /\ map fst outcomes = Py.range 1 (slide_count + 1)
    /\ uploads_of evs
       = map (fun ia => (slide_file_name (fst ia), snd ia)) (uploaded_slides outcomes)
    /\ slide_asset_ids (self st')
       = slide_asset_ids (self st) ++ map snd (uploaded_slides outcomes).
Proof.
  destruct (emits_pptx_to_heygen_images sv pptx_bytes slide_count st)
    as (evs' & Htr' & Hall).
  revert Htr'. unfold pptx_to_heygen_images, bind, logging, emit.
  set (st0 := mkState _ _ _ _ _ _ _).
  destruct (slides_loop_spec sv pptx_bytes (Py.range 1 (slide_count + 1)) st0)
    as (st' & evs & os & Hrun & Htr & Hfst & _ & _ & U & Hids).
  rewrite Hrun. cbn [snd]. intros Htr'.
  exists st', (EvLog (log_converting slide_count) :: evs), os.
  split; [reflexivity|].
  assert (Hevs : trace st' = trace st ++ EvLog (log_converting slide_count) :: evs).
  { rewrite Htr. cbn [st0 trace]. now rewrite <- app_assoc. }
  split; [exact Hevs|]. split.
  { rewrite Hevs in Htr'. apply app_inv_head in Htr'. rewrite Htr'.
    apply not_chat_readings. eapply Forall_impl; [|exact Hall].
    apply rasterization_is_not_chat. }
  split; [exact Hfst|].
  change (EvLog ?r :: evs) with ([EvLog r] ++ evs).
  rewrite uploads_of_app, U, Hids. now split.
Qed.

(** Steps 1 to 4 on a deck that is there and has slides, with the uploads. *)
Lemma convert_notes_uploaded public_id max_slides st b bs s0 deck :
  fetched sv (http_calls st) public_id = Some (b :: bs) ->
  Presentation sv (b :: bs) = inr (s0 :: deck) ->
  let slides := limit_slides max_slides (s0 :: deck) in
  exists st1 evs outcomes,
    trace st1 = trace st ++ evs
    /\ chats_of evs = []
    /\ map fst outcomes = Py.range 1 (len slides + 1)
    /\ uploads_of evs
       = map (fun ia => (slide_file_name (fst ia), snd ia)) (uploaded_slides outcomes)
    /\ slide_asset_ids (self st1)
       = slide_asset_ids (self st) ++ map snd (uploaded_slides outcomes)
    /\ convert_notes sv public_id max_slides st
       = match slide_asset_ids (self st1) with
         | [] => (Raise RuntimeError_no_slides_converted, st1)
         | _ =>
           generate_speaker_notes sv
             (Py.slice_to (len (slide_asset_ids (self st1))) (map slide_text slides))
             st1
         end.
Proof.
  intros Hf Hp slides. unfold convert_notes.
  unfold bind at 1. unfold logging at 1. unfold emit at 1.
  unfold bind at 1. rewrite get_file_bytes_spec. cbn [http_calls]. rewrite Hf.
  unfold bind at 1. unfold of_sum. rewrite Hp. unfold ret at 1.
  fold slides. set (st0 := advance 1 _ _).
  destruct (rasterization_report (b :: bs) (len slides) st0)
    as (st1 & evs & os & Hrun & Htr & Hch & Hfst & U & Hids).
  unfold bind at 1. rewrite Hrun. unfold bind, get_self.
  exists st1. eexists. exists os.
  split; [rewrite Htr; cbn [st0 advance trace]; rewrite <- !app_assoc; reflexivity|].
  split.
  { rewrite !chats_of_app, Hch.
    destruct (attempt_result sv (http_calls st) (fetch_request sv public_id));
      reflexivity. }
  split; [exact Hfst|]. split.
  { rewrite !uploads_of_app, U.
    destruct (attempt_result sv (http_calls st) (fetch_request sv public_id));
      reflexivity. }
  split; [exact Hids|].
  destruct (slide_asset_ids (self st1)); reflexivity.
Qed.

(** X16. The narrations follow the position in the deck, not the slides
    that were uploaded. When steps 1 to 4 of [convert] return, with [m]
    asset ids then held by the object, OpenAI has been asked exactly about
    the non-blank texts of the first [m] slides kept, in order, and there
    is one narration for each of those first [m] texts, the blank ones
    included, whichever slides the uploads logged by the call belong to;
    the assets of the call are appended to the ones the object held. *)
Theorem narrations_follow_position public_id max_slides st b bs s0 deck notes st' :
  fetched sv (http_calls st) public_id = Some (b :: bs) ->
  Presentation sv (b :: bs) = inr (s0 :: deck) ->
  convert_notes sv public_id max_slides st = (Ok notes, st') ->
  let slides := limit_slides max_slides (s0 :: deck) in
  let evs := events_since st st' in
  let narrated :=
    firstn (List.length (slide_asset_ids (self st'))) (map slide_text slides) in
  exists outcomes,
    map fst outcomes = Py.range 1 (len slides + 1)
    /\ uploads_of evs
       = map (fun ia => (slide_file_name (fst ia), snd ia)) (uploaded_slides outcomes)
    /\ slide_asset_ids (self st')
       = slide_asset_ids (self st) ++ map snd (uploaded_slides outcomes)
    /\ chats_of evs = map chat_request (non_blank narrated)
    /\ List.length notes = List.length narrated.
Proof.
  intros Hf Hp Hrun slides evs narrated.
  destruct (@convert_notes_uploaded public_id max_slides st b bs s0 deck Hf Hp)
    as (st1 & evs1 & os & Htr & Hch & Hfst & U & Hids & Heq).
  fold slides in Hfst, Heq. rewrite Heq in Hrun.
  destruct (slide_asset_ids (self st1)) as [|a ids] eqn:Hids1; [discriminate|].
  rewrite generate_speaker_notes_run, slice_to_len in Hrun.
  injection Hrun as Hnotes Hst.
  assert (Hself : self st' = self st1) by now rewrite <- Hst.
  assert (Hevs : evs
                 = evs1 ++ EvLog (log_generating
                                    (len (firstn (List.length (a :: ids))
                                            (map slide_text slides))))
                        :: note_events sv (openai_calls st1) 1
                             (firstn (List.length (a :: ids)) (map slide_text slides))).
  { apply events_since_app. rewrite <- Hst. cbn [advance_chat trace].
    now rewrite Htr, <- app_assoc. }
  unfold narrated. rewrite Hself, Hids1, Hevs. exists os.
  split; [exact Hfst|].
  change (EvLog ?r :: ?l) with ([EvLog r] ++ l).
  rewrite !uploads_of_app, !chats_of_app, uploads_of_note_events, chats_of_note_events.
  rewrite Hch, U, <- Hids, <- Hnotes, expected_notes_length.
  cbn [uploads_of chats_of flat_map app]. rewrite app_nil_r. repeat split.
Qed.

End Pairing.

(** Three slides, the second never rendered: the assets are those of the
    slides 1 and 3, OpenAI is asked about the texts of the slides 1 and 2. *)
Lemma narrations_follow_position_witness :
  let run := convert_notes Demo.gapped Demo.deck_id None Demo.start in
  fetched Demo.gapped (http_calls Demo.start) Demo.deck_id = Some [Byte.x50; Byte.x4b]
  /\ (exists notes, fst run = Ok notes /\ List.length notes = 2%nat)
  /\ map fst (uploads_of (events_since Demo.start (snd run)))
     = [Py.lit "slide_1.png"; Py.lit "slide_3.png"]
  /\ chats_of (events_since Demo.start (snd run))
     = [chat_request (Py.lit "one"); chat_request (Py.lit "two")].
Proof.
  intros run. split; [reflexivity|].
  destruct run as [[notes|e|] st'] eqn:Hrun; try (vm_compute in Hrun; discriminate Hrun).
  destruct (@narrations_follow_position Demo.gapped Demo.deck_id None Demo.start
              Byte.x50 [Byte.x4b] _ _ notes st' eq_refl eq_refl Hrun)
    as (os & _ & _ & Hids & Hch & Hlen).
  cbn [fst snd].
  assert (Hst : slide_asset_ids (self st') = [Py.JInt 1; Py.JInt 3]).
  { vm_compute in Hrun. now injection Hrun as _ <-. }
  rewrite Hst in Hch, Hlen.
  split; [exists notes; split; [reflexivity | exact Hlen]|].
  split; [|exact Hch].
  vm_compute in Hrun. injection Hrun as _ <-. reflexivity.
Defined.

(** ** Failure isolation in the rasterization step *)

Lemma range_above lo hi x : In x (Py.range lo hi) -> lo <= x.
Proof. unfold Py.range. rewrite in_map_iff. intros (k & <- & _). lia. Qed.

Lemma range_sorted hi : forall n lo,
  Z.to_nat (hi - lo) = n -> StronglySorted Z.lt (Py.range lo hi).
Proof.
  induction n as [|n IH]; intros lo Hn.
  - rewrite range_nil by lia. constructor.
  - rewrite range_cons by lia. constructor; [apply IH; lia|].
    apply Forall_forall. intros x Hx. apply range_above in Hx. lia.
Qed.

Lemma succeeded_among verdicts x :
  In x (map fst (succeeded verdicts)) -> In x (map fst verdicts).
Proof.
  induction verdicts as [|[i [a|e|]] vs IH]; cbn; [tauto| |auto|auto].
  intros [H|H]; [now left | right; auto].
Qed.

Lemma succeeded_sorted verdicts :
  StronglySorted Z.lt (map fst verdicts) ->
  StronglySorted Z.lt (map fst (succeeded verdicts)).
Proof.
  induction verdicts as [|[i r] vs IH]; [intros _; constructor|].
  cbn [map fst]. intros H. inversion H as [|? ? Hs Hall]; subst.
  destruct r as [a|e|]; cbn; [|now apply IH|now apply IH].
  constructor; [now apply IH|].
  rewrite Forall_forall in Hall |- *. intros x Hx. apply Hall.
  now apply succeeded_among.
Qed.

Section Isolation.

Variable sv : Services.

(** X17. Failure isolation. For every document, slide count and state, the
    rasterization step returns normally. It hands the slides 1 to
    [slide_count] to Aspose in that order, whatever happened to the slides
    before. The verdict on each slide is what its collaborators did: the
    exception Aspose raised; the empty-image ValueError when the file
    Aspose wrote is empty; the outcome of [_upload_to_heygen] on the bytes
    of that file when it is not empty (and the exception of [open] when the
    path Aspose returned names no file). A slide whose verdict is
    an exception is logged as failed with its number and that exception,
    and nothing is appended for it; the asset of every other slide is
    logged as uploaded and appended to [slide_asset_ids], after the assets
    the list held, in ascending slide order. *)
Theorem failed_slides_are_skipped (pptx_bytes : Py.bytes) (slide_count : Z) st :
  let start := snd (logging (log_converting slide_count) st) in
  let verdicts :=
    slide_verdicts sv pptx_bytes (Py.range 1 (slide_count + 1)) start in
  (exists st' evs,
     pptx_to_heygen_images sv pptx_bytes slide_count st = (Ok tt, st')
     /\ trace st' = trace st ++ evs
     /\ map fst verdicts = Py.range 1 (slide_count + 1)
     /\ renders_of evs = Py.range 1 (slide_count + 1)
     /\ Forall (fun v => snd v <> Unfinished) verdicts
     /\ failure_logs_of evs = skipped verdicts
     /\ uploads_of evs
        = map (fun ia => (slide_file_name (fst ia), snd ia)) (succeeded verdicts)
     /\ slide_asset_ids (self st')
        = slide_asset_ids (self st) ++ map snd (succeeded verdicts)
     /\ StronglySorted Z.lt (map fst (succeeded verdicts)))
  /\ (forall idx s e,
        download_slide_online sv (aspose_calls s) pptx_bytes idx = inl e ->
        slide_verdict sv pptx_bytes idx s = Raise e)
  /\ (forall idx s path,
        path <> [] ->
        download_slide_online sv (aspose_calls s) pptx_bytes idx = inr (path, Some []) ->
        slide_verdict sv pptx_bytes idx s = Raise (ValueError_empty_slide idx))
  /\ (forall idx s path b bs,
        path <> [] ->
        download_slide_online sv (aspose_calls s) pptx_bytes idx
        = inr (path, Some (b :: bs)) ->
        slide_verdict sv pptx_bytes idx s
        = fst (upload_to_heygen sv (b :: bs) (slide_file_name idx)
                 (after_render sv pptx_bytes idx s path))).
Proof.
  intros start verdicts. split; [|split; [|split]].
  - unfold pptx_to_heygen_images. unfold bind at 1.
    change (logging (log_converting slide_count) st) with (@Ok unit tt, start).
    cbv beta iota.
    destruct (slides_loop_verdicts sv pptx_bytes (Py.range 1 (slide_count + 1)) start)
      as (st' & evs & Hrun & Htr & Hfst & R & Hfin & F & U & Hids).
    fold verdicts in Hfst, Hfin, F, U, Hids.
    rewrite Hrun. exists st', (EvLog (log_converting slide_count) :: evs).
    split; [reflexivity|]. rewrite Htr, Hids.
    change (EvLog ?r :: evs) with ([EvLog r] ++ evs).
    rewrite renders_of_app, failure_logs_of_app, uploads_of_app, R, F, U.
    split; [cbn [start snd logging emit trace]; now rewrite <- app_assoc|].
    do 6 (split; [assumption || reflexivity|]).
    apply succeeded_sorted. rewrite Hfst. now apply range_sorted with (n := Z.to_nat (slide_count + 1 - 1)).
  - intros idx s e H. unfold slide_verdict. now rewrite H.
  - intros idx s [|p0 path] Hp H; [congruence|].
    unfold slide_verdict, after_render, aspose_call. rewrite H.
    cbn [snd set_temp_file_path files aspose_calls]. rewrite H.
    cbn [snd files]. now rewrite file_lookup_write, str_eqb_refl.
  - intros idx s [|p0 path] b bs Hp H; [congruence|].
    unfold slide_verdict. 
    assert (Hl : file_lookup (p0 :: path)
                   (files (after_render sv pptx_bytes idx s (p0 :: path)))
                 = Some (b :: bs)).
    { unfold after_render, aspose_call.
      cbn [snd set_temp_file_path files aspose_calls]. rewrite H.
      cbn [snd files]. now rewrite file_lookup_write, str_eqb_refl. }
    now rewrite H, Hl.
Qed.

End Isolation.

(** The three ways a slide can fail, in one deck of four: Aspose raises on
    slide 1 and leaves an empty file for slide 2, HeyGen is down for the
    upload of slide 3; the three are logged with their exceptions and
    skipped, and the asset of slide 4 is collected after the asset
    the object held. *)
Lemma failed_slides_are_skipped_witness :
  let pptx := [Byte.x50; Byte.x4b] in
  let st := snd (append_asset (Py.JInt 9) Demo.start) in
  let start := snd (logging (log_converting 4) st) in
  let run := pptx_to_heygen_images Demo.rough pptx 4 st in
  slide_verdicts Demo.rough pptx (Py.range 1 5) start
  = [(1, Raise (LibraryError (Py.lit "render failed")));
     (2, Raise (ValueError_empty_slide 2));
     (3, Raise Demo.down);
     (4, Ok (Py.JInt 4))]
  /\ fst run = Ok tt
  /\ failure_logs_of (trace (snd run))
     = [(1, LibraryError (Py.lit "render failed"));
        (2, ValueError_empty_slide 2);
        (3, Demo.down)]
  /\ slide_asset_ids (self (snd run)) = [Py.JInt 9; Py.JInt 4]
  /\ slide_verdict Demo.rough pptx 2 start = Raise (ValueError_empty_slide 2).
Proof.
  intros pptx st start run.
  assert (Hv : slide_verdicts Demo.rough pptx (Py.range 1 5) start
               = [(1, Raise (LibraryError (Py.lit "render failed")));
                  (2, Raise (ValueError_empty_slide 2));
                  (3, Raise Demo.down);
                  (4, Ok (Py.JInt 4))]) by (vm_compute; reflexivity).
  destruct (failed_slides_are_skipped Demo.rough pptx 4 st)
    as ((st' & evs & Hrun & Htr & _ & _ & _ & F & _ & Hids & _) & _ & Hempty & _).
  fold start in F, Hids. change (4 + 1) with 5 in F, Hids.
  rewrite Hv in F, Hids.
  split; [exact Hv|]. unfold run. rewrite Hrun. cbn [fst snd].
  split; [reflexivity|]. split; [|split].
  - rewrite Htr. change (trace st) with (@nil Event). exact F.
  - rewrite Hids. reflexivity.
  - apply (Hempty 2 start (Py.lit "/tmp/slide.png")); [discriminate | reflexivity].
Defined.
